(** * pr-copilot: the PR-description enrichment pipeline

    A shallow embedding of the ticket reference extractor
    ([extractJiraTickets], github/utils.js), the ticket detail fetcher
    ([get_jira_ticket_details], jira/ticketDetails.js), the narrative
    generator ([generateDetailedSummary], github/summary.js), the
    description composer ([analyzeCodeDiff], github/analyzer.js) and the
    title suffixing of [create_pull_request] (github/index.js); then of
    what these call and what calls them: the configuration of the
    generation service ([getAIConfig], [getLLMClient], config/aiConfig.js),
    the token check and the error handler of github/utils.js, and
    [create_pull_request] as a whole.

    - Strings.  A JavaScript string is a sequence of UTF-16 code units, and
      a regular expression without the [u] flag works on code units, so a
      string is a [list N].
    - Regular expressions.  The patterns are terms of [regex], run by a
      backtracking matcher written as a list of successes; [scan] is
      [String.prototype.match] for a pattern with the [g] flag.
    - Effects.  axios and the LLM client are oracles over an abstract world
      ([backend]); an async function is a computation in the monad [M],
      which threads the world and an exception.  Logging is left out, and a
      dynamic [import] is taken to succeed.
    - Responses.  The JSON of the issue tracker and of the compare endpoint
      is typed, with [None] for an absent or null field.  A prompt is its
      context block and a tag for its fixed instruction text.
    - Numbers are integers rendered in decimal. *)

From Stdlib Require Import String Ascii DecimalString.
From Stdlib Require Import List NArith ZArith Bool Arith Lia Sorted.
From Stdlib Require Import Permutation.
Import ListNotations.

Set Implicit Arguments.

(** ** JavaScript strings *)

Module JsString.

Definition jschar := N.
Definition jsstring := list jschar.

(** An ASCII literal of the source as code units. *)
Definition js (s : string) : jsstring :=
  map N_of_ascii (list_ascii_of_string s).

Definition NL : jsstring := [10%N].

Fixpoint eqb (s t : jsstring) : bool :=
  match s, t with
  | [], [] => true
  | c :: s', d :: t' => N.eqb c d && eqb s' t'
  | _, _ => false
  end.

(** [Array.prototype.join]. *)
Fixpoint join (sep : jsstring) (parts : list jsstring) : jsstring :=
  match parts with
  | [] => []
  | [p] => p
  | p :: rest => p ++ sep ++ join sep rest
  end.

(** [String.prototype.endsWith]. *)
Definition endsWith (s suffix : jsstring) : bool :=
  if length suffix <=? length s
  then eqb (skipn (length s - length suffix) s) suffix
  else false.

(** Template-literal rendering of integers. *)
Definition of_nat (n : nat) : jsstring :=
  js (NilEmpty.string_of_uint (Nat.to_uint n)).

Definition of_Z (z : Z) : jsstring :=
  js (NilEmpty.string_of_int (Z.to_int z)).

(** [x || d] on a value that is a string or undefined/null: the empty
    string is falsy. *)
Definition or_default (x : option jsstring) (d : jsstring) : jsstring :=
  match x with
  | Some (c :: s) => c :: s
  | _ => d
  end.

(** Template-literal rendering of a value that is a string or undefined. *)
Definition show (x : option jsstring) : jsstring :=
  match x with
  | Some s => s
  | None => js "undefined"
  end.

End JsString.

Import JsString.

(** ** Regular expressions

    The patterns of the repository use literals, classes, greedy
    quantifiers on one-character atoms, [?] on a group, alternation, a
    capture group, a lookahead, [\b] and [$].  The matcher is the
    backtracking matcher of ECMAScript, written as a list of successes in
    priority order: the first element is the match JavaScript finds. *)

Module Regex.

Inductive regex : Type :=
| Empty
| Lit (c : jschar)
| Class (p : jschar -> bool)
| Seq (r1 r2 : regex)
| Alt (r1 r2 : regex)
| Opt (r : regex)
| Star (p : jschar -> bool)
| Plus (p : jschar -> bool)
| Group (r : regex)
| Lookahead (r : regex)
| WordBoundary
| EndOfInput.

(** A position in the input: the code units before it (nearest first) and
    the code units after it. *)
Record cursor : Type := Cursor { before : list jschar; after : list jschar }.

Local Open Scope N_scope.

Definition in_range (lo hi c : jschar) : bool := (N.leb lo c && N.leb c hi)%bool.

Definition isUpper (c : jschar) : bool := in_range 65 90 c.
Definition isLower (c : jschar) : bool := in_range 97 122 c.
Definition isDigit (c : jschar) : bool := in_range 48 57 c.

(** [\w] without the [u] and [i] flags. *)
Definition isWordChar (c : jschar) : bool :=
  (isUpper c || isLower c || isDigit c || N.eqb c 95)%bool.

(** [\s]: WhiteSpace and LineTerminator code points. *)
Definition isSpace (c : jschar) : bool :=
  (in_range 9 13 c || N.eqb c 32 || N.eqb c 160 || N.eqb c 5760
   || in_range 8192 8202 c || N.eqb c 8232 || N.eqb c 8233 || N.eqb c 8239
   || N.eqb c 8287 || N.eqb c 12288 || N.eqb c 65279)%bool.

Local Close Scope N_scope.

Definition wordAt (l : list jschar) : bool :=
  match l with
  | [] => false
  | c :: _ => isWordChar c
  end.

(** Greedy repetition of a class: the longest run first, then shorter ones. *)
Fixpoint star_run (p : jschar -> bool) (b a : list jschar) : list cursor :=
  match a with
  | c :: a' =>
      if p c then star_run p (c :: b) a' ++ [Cursor b a] else [Cursor b a]
  | [] => [Cursor b a]
  end.

Definition step_class (p : jschar -> bool) (x : cursor) : list cursor :=
  match after x with
  | c :: a' => if p c then [Cursor (c :: before x) a'] else []
  | [] => []
  end.

Fixpoint rmatch (r : regex) (x : cursor) : list cursor :=
  match r with
  | Empty => [x]
  | Lit c => step_class (N.eqb c) x
  | Class p => step_class p x
  | Seq r1 r2 => flat_map (rmatch r2) (rmatch r1 x)
  | Alt r1 r2 => rmatch r1 x ++ rmatch r2 x
  | Opt r1 => rmatch r1 x ++ [x]
  | Star p => star_run p (before x) (after x)
  | Plus p => flat_map (fun y => star_run p (before y) (after y)) (step_class p x)
  | Group r1 => rmatch r1 x
  | Lookahead r1 =>
      match rmatch r1 x with
      | [] => []
      | _ :: _ => [x]
      end
  | WordBoundary =>
      if xorb (wordAt (before x)) (wordAt (after x)) then [x] else []
  | EndOfInput =>
      match after x with
      | [] => [x]
      | _ :: _ => []
      end
  end.

(** A run of literal characters. *)
Fixpoint literal (s : jsstring) : regex :=
  match s with
  | [] => Empty
  | c :: s' => Seq (Lit c) (literal s')
  end.

(** One match attempt at a position: the number of code units matched. *)
Definition exec (r : regex) (x : cursor) : option nat :=
  match rmatch r x with
  | [] => None
  | y :: _ => Some (length (after x) - length (after y))
  end.

(** The matches of a global pattern, left to right, each with its start
    index.  After a match of [len] code units the scan resumes at its end
    (an empty match advances by one); [skip] counts the code units still to
    step over. *)
Fixpoint scan (r : regex) (skip : nat) (b a : list jschar) (pos : nat)
  {struct a} : list (nat * jsstring) :=
  match skip with
  | S k =>
      match a with
      | [] => []
      | c :: a' => scan r k (c :: b) a' (S pos)
      end
  | O =>
      match exec r (Cursor b a) with
      | Some len =>
          (pos, firstn len a) ::
          match a with
          | [] => []
          | c :: a' => scan r (len - 1) (c :: b) a' (S pos)
          end
      | None =>
          match a with
          | [] => []
          | c :: a' => scan r 0 (c :: b) a' (S pos)
          end
      end
  end.

Definition occurrences (r : regex) (text : jsstring) : list (nat * jsstring) :=
  scan r 0 [] text 0.

(** [text.match(r) || []] for a pattern with the [g] flag. *)
Definition matchAll (r : regex) (text : jsstring) : list jsstring :=
  map snd (occurrences r text).

End Regex.

Import Regex.

(** ** utils.js *)

(** [[...new Set(xs)]]: a Set keeps its elements in insertion order and
    ignores the insertion of a present element. *)
Definition Set_add (acc : list jsstring) (x : jsstring) : list jsstring :=
  if existsb (JsString.eqb x) acc then acc else acc ++ [x].

Definition Set_of (xs : list jsstring) : list jsstring :=
  fold_left Set_add xs [].

Definition hyphen : jschar := 45%N.

(** [[_\-\s\/]] *)
Definition isSeparator (c : jschar) : bool :=
  (N.eqb c 95%N || N.eqb c 45%N || isSpace c || N.eqb c 47%N)%bool.

(** [[A-Z0-9]] *)
Definition isUpperOrDigit (c : jschar) : bool := (isUpper c || isDigit c)%bool.

(** [/\b([A-Z][A-Z0-9]*-\d+)(?=[_\-\s\/]|$)/g] *)
Definition jiraPattern : regex :=
  Seq WordBoundary
    (Seq (Group (Seq (Class isUpper)
                  (Seq (Star isUpperOrDigit)
                    (Seq (Lit hyphen) (Plus isDigit)))))
         (Lookahead (Alt (Class isSeparator) EndOfInput))).

Definition extractJiraTickets (text : jsstring) : list jsstring :=
  let matches := matchAll jiraPattern text in
  Set_of matches.

Definition getJiraUrl (ticket : jsstring) : jsstring :=
  let jiraBaseUrl := js "https://jira2.workday.com" in
  jiraBaseUrl ++ js "/browse/" ++ ticket.

(** ** The world outside: exceptions and network calls *)

Module Effects.

(** A thrown JavaScript value; the handlers of the repository read only
    [error.message]. *)
Record js_error : Type := JsError { message : jsstring }.

Inductive outcome (A : Type) : Type :=
| Returned (a : A)
| Thrown (e : js_error).

Arguments Thrown {A} e.

(** An async computation: it runs in a world and either returns or throws. *)
Definition M (world A : Type) : Type := world -> outcome A * world.

Section Monad.
Context {world : Type}.

Definition ret {A} (a : A) : M world A := fun w => (Returned a, w).

Definition throw {A} (e : js_error) : M world A := fun w => (Thrown e, w).

Definition bind {A B} (c : M world A) (k : A -> M world B) : M world B :=
  fun w =>
    match c w with
    | (Returned a, w') => k a w'
    | (Thrown e, w') => (Thrown e, w')
    end.

(** [try { c } catch (error) { h error }] *)
Definition try_catch {A} (c : M world A) (h : js_error -> M world A) : M world A :=
  fun w =>
    match c w with
    | (Returned a, w') => (Returned a, w')
    | (Thrown e, w') => h e w'
    end.
End Monad.

Definition TypeError : js_error := JsError (js "TypeError").

End Effects.

Import Effects.

Notation "x <- c ;; k" := (bind c (fun x => k))
  (at level 61, c at next level, right associativity).

(** ** Data of the three external services *)

(** An object with a [name] field: status, priority, issue type, component,
    version. *)
Record named : Type := Named { name : option jsstring }.

Record person : Type := Person { displayName : option jsstring }.

(** [issue.fields] of the issue tracker's response; an absent or null field
    is [None]. *)
Record issue_fields : Type := IssueFields {
  f_summary : option jsstring;
  f_description : option jsstring;
  f_status : option named;
  f_priority : option named;
  f_assignee : option person;
  f_reporter : option person;
  f_issuetype : option named;
  f_created : option jsstring;
  f_updated : option jsstring;
  f_labels : option (list jsstring);
  f_components : option (list named);
  f_fixVersions : option (list named)
}.

Record issue : Type := Issue {
  i_key : option jsstring;
  i_fields : option issue_fields
}.

(** The ticket object of [get_jira_ticket_details]; the placeholder of the
    failure branch leaves most fields undefined. *)
Record ticket : Type := Ticket {
  key : option jsstring;
  summary : option jsstring;
  description : jsstring;
  status : option jsstring;
  priority : option jsstring;
  assignee : option jsstring;
  reporter : option jsstring;
  issueType : option jsstring;
  created : option jsstring;
  updated : option jsstring;
  labels : option (list jsstring);
  components : option (list (option jsstring));
  fixVersions : option (list (option jsstring));
  figmaLinks : list jsstring;
  url : jsstring
}.

Record jira_result : Type := JiraResult {
  success : bool;
  error : option jsstring;
  result_ticket : ticket
}.

Record file_change : Type := FileChange {
  filename : jsstring;
  file_status : jsstring;
  additions : Z;
  deletions : Z
}.

Record diff_stats : Type := DiffStats {
  stat_additions : Z;
  stat_deletions : Z;
  stat_total : Z
}.

(** [compareResponse.data]; [files] and [stats] may be absent. *)
Record compare_data : Type := CompareData {
  files : option (list file_change);
  stats : option diff_stats
}.

(** The three prompts share the context block and differ in their fixed
    preamble and instruction list, which the tag stands for. *)
Inductive prompt_task : Type := DescriptionTask | KeyChangesTask | MotivationTask.

Record prompt : Type := Prompt { task : prompt_task; context : jsstring }.

Record llm_response : Type := LlmResponse { content : option jsstring }.

(** The collaborators of the pipeline.  A resolved value that is null or
    undefined is [None]. *)
Record backend (world : Type) : Type := Backend {
  JIRA_API_TOKEN : option jsstring;
  axios_get_issue : jsstring -> option jsstring -> M world (option issue);
  axios_get_compare : jsstring -> jsstring -> M world (option compare_data);
  getLLMClient : M world unit;
  llm_invoke : prompt -> M world (option llm_response)
}.

(** ** jira/ticketDetails.js *)

Definition isAlnum (c : jschar) : bool := (isLower c || isUpper c || isDigit c)%bool.

(** [[^?\s]] *)
Definition isLinkTail (c : jschar) : bool := negb (N.eqb c 63%N || isSpace c).

(** [/https?:\/\/(?:www\.)?figma\.com\/(?:file|design)\/[a-zA-Z0-9]+\/[^?\s]*/g] *)
Definition figmaRegex : regex :=
  Seq (literal (js "http"))
    (Seq (Opt (Lit 115%N))
      (Seq (literal (js "://"))
        (Seq (Opt (Group (literal (js "www."))))
          (Seq (literal (js "figma.com/"))
            (Seq (Group (Alt (literal (js "file")) (literal (js "design"))))
              (Seq (Lit 47%N)
                (Seq (Plus isAlnum)
                  (Seq (Lit 47%N) (Star isLinkTail))))))))).

Definition extractFigmaLinks (text : jsstring) : list jsstring :=
  match text with
  | [] => []
  | _ :: _ => matchAll figmaRegex text
  end.

Definition jiraBaseUrl : jsstring := js "https://jira2.workday.com".

(** The object of the catch branch. *)
Definition placeholderTicket (ticketId : jsstring) : ticket :=
  {| key := Some ticketId;
     summary := Some (js "JIRA ticket " ++ ticketId);
     description := js "Unable to fetch ticket details from JIRA API";
     status := Some (js "Unknown");
     priority := None; assignee := None; reporter := None; issueType := None;
     created := None; updated := None;
     labels := None; components := None; fixVersions := None;
     figmaLinks := [];
     url := js "https://jira2.workday.com/browse/" ++ ticketId |}.

Definition jiraApiUrl (ticketId : jsstring) : jsstring :=
  jiraBaseUrl ++ js "/rest/api/2/issue/" ++ ticketId.

Section TicketDetails.
Context {world : Type} (env : backend world).

(** Reading a property of null or undefined throws a TypeError. *)
Definition require {A} (x : option A) : M world A :=
  match x with
  | Some a => ret a
  | None => throw TypeError
  end.

(** The Authorization header, sent when a token is configured. *)
Definition authorization : option jsstring :=
  match JIRA_API_TOKEN env with
  | Some (c :: t) => Some (js "Bearer " ++ c :: t)
  | _ => None
  end.

Definition get_jira_ticket_details (ticketId : jsstring) : M world jira_result :=
  try_catch
    (data <- axios_get_issue env (jiraApiUrl ticketId) authorization ;;
     issue <- require data ;;
     fields <- require (i_fields issue) ;;
     let description := or_default (f_description fields) (js "No description provided") in
     let summary := or_default (f_summary fields) [] in
     let allText := summary ++ js " " ++ description in
     let figmaLinks := extractFigmaLinks allText in
     status <- require (f_status fields) ;;
     issuetype <- require (f_issuetype fields) ;;
     ret {| success := true;
            error := None;
            result_ticket :=
              {| key := i_key issue;
                 summary := f_summary fields;
                 description := description;
                 status := name status;
                 priority :=
                   Some (or_default (match f_priority fields with
                                     | Some p => name p
                                     | None => None
                                     end) (js "Not set"));
                 assignee :=
                   Some (or_default (match f_assignee fields with
                                     | Some p => displayName p
                                     | None => None
                                     end) (js "Unassigned"));
                 reporter :=
                   Some (or_default (match f_reporter fields with
                                     | Some p => displayName p
                                     | None => None
                                     end) (js "Unknown"));
                 issueType := name issuetype;
                 created := f_created fields;
                 updated := f_updated fields;
                 labels := Some (match f_labels fields with
                                 | Some l => l
                                 | None => []
                                 end);
                 components := Some (match f_components fields with
                                     | Some l => map name l
                                     | None => []
                                     end);
                 fixVersions := Some (match f_fixVersions fields with
                                      | Some l => map name l
                                      | None => []
                                      end);
                 figmaLinks := figmaLinks;
                 url := jiraBaseUrl ++ js "/browse/" ++ ticketId |} |})
    (fun error =>
       ret {| success := false;
              error := Some (message error);
              result_ticket := placeholderTicket ticketId |}).
End TicketDetails.

(** ** github/summary.js *)

(** [String.prototype.split] on a one-character separator. *)
Fixpoint split (sep : jschar) (s : jsstring) : list jsstring :=
  match s with
  | [] => [[]]
  | c :: s' =>
      if N.eqb c sep then [] :: split sep s'
      else match split sep s' with
           | p :: ps => (c :: p) :: ps
           | [] => [[c]]
           end
  end.

(** [file.filename.split('.').pop() || 'no-extension'] *)
Definition extensionOf (filename : jsstring) : jsstring :=
  or_default (Some (last (split 46%N filename) [])) (js "no-extension").

(** Case mapping of the ASCII letters; the model leaves other code units
    unchanged.  The result only ever reaches the text of a prompt. *)
Definition toLowerCase (s : jsstring) : jsstring :=
  map (fun c => if isUpper c then (c + 32)%N else c) s.

Definition toUpperCase (s : jsstring) : jsstring :=
  map (fun c => if isLower c then (c - 32)%N else c) s.

Definition categories : list (string * string) :=
  [ ("js", "JavaScript"); ("jsx", "React Component"); ("ts", "TypeScript");
    ("tsx", "React TypeScript"); ("vue", "Vue Component"); ("html", "HTML");
    ("css", "CSS"); ("scss", "SCSS"); ("sass", "SASS"); ("less", "LESS");
    ("py", "Python"); ("java", "Java"); ("go", "Go"); ("rs", "Rust");
    ("php", "PHP"); ("rb", "Ruby"); ("cs", "C#"); ("cpp", "C++"); ("c", "C");
    ("json", "JSON Config"); ("yaml", "YAML Config"); ("yml", "YAML Config");
    ("xml", "XML Config"); ("toml", "TOML Config"); ("ini", "INI Config");
    ("env", "Environment Config"); ("properties", "Properties Config");
    ("md", "Markdown"); ("txt", "Text"); ("rst", "reStructuredText");
    ("sql", "SQL"); ("db", "Database");
    ("dockerfile", "Docker"); ("sh", "Shell Script"); ("bat", "Batch Script");
    ("ps1", "PowerShell");
    ("lock", "Lock File"); ("log", "Log File") ]%string.

Fixpoint lookup (k : jsstring) (table : list (string * string)) : option jsstring :=
  match table with
  | [] => None
  | (k', v) :: rest => if JsString.eqb k (js k') then Some (js v) else lookup k rest
  end.

(** Own properties of the table only: an extension that names a member of
    Object.prototype (constructor, __proto__) is outside the model. *)
Definition getFileTypeCategory (extension : jsstring) : jsstring :=
  or_default (lookup (toLowerCase extension) categories)
             (toUpperCase extension ++ js " File").

Record narrative : Type := Narrative {
  detailedSummary : option jsstring;
  keyChanges : option jsstring;
  motivationContext : option jsstring
}.

Definition arrow : jsstring := [8594%N].
Definition bullet : jsstring := [8226%N].

Definition fileSummaryLine (file : file_change) : jsstring :=
  let ext := extensionOf (filename file) in
  let fileType := getFileTypeCategory ext in
  js "- " ++ filename file ++ js " (" ++ file_status file ++ js ", " ++ fileType
    ++ js "): +" ++ of_Z (additions file) ++ js "/-" ++ of_Z (deletions file)
    ++ js " lines".

(** The context block that the three prompts share. *)
Definition promptContext (filesChanged : list file_change) (stats : diff_stats)
  (head base jiraContext jiraTicketDetails customContext fileSummary : jsstring)
  : jsstring :=
  join NL
    [ js "Context:";
      js "- Branch: " ++ head ++ js " " ++ arrow ++ js " " ++ base;
      js "- Files Changed: " ++ of_nat (length filesChanged);
      js "- Lines Added: +" ++ of_Z (stat_additions stats);
      js "- Lines Deleted: -" ++ of_Z (stat_deletions stats);
      js "- Net Change: " ++ of_Z (stat_additions stats - stat_deletions stats);
      js "- " ++ jiraContext ++ jiraTicketDetails ++ customContext;
      [];
      js "Files Modified:";
      fileSummary ].

(** [xs.join(', ') || 'None'] *)
Definition joinOrNone (xs : list jsstring) : jsstring :=
  or_default (Some (join (js ", ") xs)) (js "None").

(** The bundle of the catch branch. *)
Definition fallbackNarrative (filesChanged : list file_change) (stats : diff_stats)
  (head base : jsstring) : narrative :=
  {| detailedSummary :=
       Some (js "This PR introduces changes from `" ++ head ++ js "` to `" ++ base
             ++ js "` branch with " ++ of_nat (length filesChanged)
             ++ js " files modified (" ++ of_Z (stat_additions stats)
             ++ js " additions, " ++ of_Z (stat_deletions stats) ++ js " deletions).");
     keyChanges :=
       Some (bullet ++ js " Modified " ++ of_nat (length filesChanged)
             ++ js " files with " ++ of_Z (stat_additions stats)
             ++ js " additions and " ++ of_Z (stat_deletions stats) ++ js " deletions");
     motivationContext :=
       Some (js "This change addresses the requirements specified in the JIRA ticket(s) mentioned below. The modifications improve system functionality and user experience.") |}.

Section Summary.
Context {world : Type} (env : backend world).

Definition formatTicketDetails (t : ticket) : M world jsstring :=
  comps <- require (components t) ;;
  labs <- require (labels t) ;;
  ret (NL ++ join NL
    [ js "JIRA Ticket Details (" ++ show (key t) ++ js "):";
      js "- Title: " ++ show (summary t);
      js "- Status: " ++ show (status t);
      js "- Priority: " ++ show (priority t);
      js "- Assignee: " ++ show (assignee t);
      js "- Issue Type: " ++ show (issueType t);
      js "- Description: " ++ description t;
      js "- Components: " ++ joinOrNone (map (fun c => match c with
                                                       | Some s => s
                                                       | None => []
                                                       end) comps);
      js "- Labels: " ++ joinOrNone labs;
      js "- Figma Links: " ++ match figmaLinks t with
                              | [] => js "None"
                              | _ :: _ => join (js ", ") (figmaLinks t)
                              end ]).

(** The ticket context of the prompts: the ticket list and the details
    of the first ticket. *)
Definition fetchJiraContext (jiraTickets : list jsstring)
  : M world (jsstring * jsstring) :=
  match jiraTickets with
  | [] => ret (js "No JIRA tickets found in branch name", [])
  | primaryTicket :: _ =>
      let jiraContext := js "JIRA Tickets: " ++ join (js ", ") jiraTickets in
      jiraTicketDetails <-
        try_catch
          (jiraResult <- get_jira_ticket_details env primaryTicket ;;
           if success jiraResult
           then formatTicketDetails (result_ticket jiraResult)
           else ret [])
          (fun error =>
             ret (NL ++ js "JIRA Ticket: " ++ primaryTicket
                     ++ js " (details unavailable)")) ;;
      ret (jiraContext, jiraTicketDetails)
  end.

Definition generateDetailedSummary (filesChanged : list file_change)
  (stats : diff_stats) (head base : jsstring) (jiraTickets : list jsstring)
  (customBody : jsstring) : M world narrative :=
  try_catch
    (_ <- getLLMClient env ;;
     let fileSummary := join NL (map fileSummaryLine filesChanged) in
     jira <- fetchJiraContext jiraTickets ;;
     let customContext :=
       match customBody with
       | [] => []
       | _ :: _ => NL ++ js "Custom Description Provided:" ++ NL ++ customBody
       end in
     let ctx := promptContext filesChanged stats head base (fst jira) (snd jira)
                              customContext fileSummary in
     let descriptionPrompt := Prompt DescriptionTask ctx in
     let keyChangesPrompt := Prompt KeyChangesTask ctx in
     let motivationPrompt := Prompt MotivationTask ctx in
     descriptionResponse <- llm_invoke env descriptionPrompt ;;
     keyChangesResponse <- llm_invoke env keyChangesPrompt ;;
     motivationResponse <- llm_invoke env motivationPrompt ;;
     d <- require descriptionResponse ;;
     k <- require keyChangesResponse ;;
     m <- require motivationResponse ;;
     ret {| detailedSummary := content d;
            keyChanges := content k;
            motivationContext := content m |})
    (fun error => ret (fallbackNarrative filesChanged stats head base)).
End Summary.

(** ** github/analyzer.js *)

Definition hasStatus (s : string) (f : file_change) : bool :=
  JsString.eqb (file_status f) (js s).

(** [fileTypes[ext] = (fileTypes[ext] || 0) + 1] on an object kept as its
    own properties in creation order.  An extension that names a member of
    Object.prototype is outside the model. *)
Fixpoint countExtension (ext : jsstring) (fileTypes : list (jsstring * nat))
  : list (jsstring * nat) :=
  match fileTypes with
  | [] => [(ext, 1)]
  | (k, n) :: rest =>
      if JsString.eqb k ext then (k, n + 1) :: rest
      else (k, n) :: countExtension ext rest
  end.

Definition fileTypesOf (filesChanged : list file_change) : list (jsstring * nat) :=
  fold_left (fun fileTypes file => countExtension (extensionOf (filename file)) fileTypes)
            filesChanged [].

(** A property key that is an array index: a canonical decimal below 2^32 - 1. *)
Definition arrayIndex (k : jsstring) : option N :=
  match k with
  | [] => None
  | c :: rest =>
      if forallb isDigit k && (negb (N.eqb c 48%N) || match rest with [] => true | _ => false end)
      then
        let n := fold_left (fun acc d => (acc * 10 + (d - 48))%N) k 0%N in
        if (n <? 4294967295)%N then Some n else None
      else None
  end.

Fixpoint insertIndex (e : N * (jsstring * nat)) (l : list (N * (jsstring * nat)))
  : list (N * (jsstring * nat)) :=
  match l with
  | [] => [e]
  | x :: rest => if (fst e <? fst x)%N then e :: l else x :: insertIndex e rest
  end.

(** [Object.entries]: array-index keys in ascending order, then the other
    keys in creation order. *)
Definition Object_entries (o : list (jsstring * nat)) : list (jsstring * nat) :=
  let indexed :=
    flat_map (fun e => match arrayIndex (fst e) with
                       | Some i => [(i, e)]
                       | None => []
                       end) o in
  let named :=
    filter (fun e => match arrayIndex (fst e) with
                     | Some _ => false
                     | None => true
                     end) o in
  map snd (fold_right insertIndex [] indexed) ++ named.

Fixpoint insertByCount (e : jsstring * nat) (l : list (jsstring * nat))
  : list (jsstring * nat) :=
  match l with
  | [] => [e]
  | x :: rest => if snd e <? snd x then x :: insertByCount e rest else e :: l
  end.

(** [.sort(([,a], [,b]) => b - a)]: stable, by descending count.  The counts
    are the numbers of [countExtension]; the string that an inherited member
    would give is outside the model, as it is there. *)
Definition sortByCountDesc (l : list (jsstring * nat)) : list (jsstring * nat) :=
  fold_right insertByCount [] l.

Definition newFiles (filesChanged : list file_change) : list file_change :=
  filter (hasStatus "added") filesChanged.
Definition modifiedFiles (filesChanged : list file_change) : list file_change :=
  filter (hasStatus "modified") filesChanged.
Definition deletedFiles (filesChanged : list file_change) : list file_change :=
  filter (hasStatus "removed") filesChanged.

(** The four counter lines of the change-analysis block. *)
Definition counterLines (added modified removed total : nat) : jsstring :=
  join NL
    [ js "- **New Files Added:** " ++ of_nat added;
      js "- **Files Modified:** " ++ of_nat modified;
      js "- **Files Deleted:** " ++ of_nat removed;
      js "- **Total Files Changed:** " ++ of_nat total ].

Definition changeAnalysisOf (filesChanged : list file_change) : jsstring :=
  let fileTypes := fileTypesOf filesChanged in
  let changeAnalysis :=
    counterLines (length (newFiles filesChanged)) (length (modifiedFiles filesChanged))
                 (length (deletedFiles filesChanged)) (length filesChanged) in
  match fileTypes with
  | [] => changeAnalysis
  | _ :: _ =>
      changeAnalysis ++ NL ++ NL ++ js "**File Type Analysis:**" ++ NL
        ++ join NL (map (fun e => js "- **." ++ fst e ++ js ":** " ++ of_nat (snd e)
                                   ++ js " files")
                        (sortByCountDesc (Object_entries fileTypes)))
  end.

Definition jiraSectionOf (allJiraTickets : list jsstring) : jsstring :=
  match allJiraTickets with
  | [] => js "<!-- Please add Jira Link here -->"
  | _ :: _ =>
      join NL (map (fun ticket => js "- [" ++ ticket ++ js "](" ++ getJiraUrl ticket ++ js ")")
                   allJiraTickets)
  end.

Definition figmaSectionOf (links : list jsstring) : jsstring :=
  join NL (map (fun link => js "- [Figma Design](" ++ link ++ js ")") links).

(** The pieces spliced into the template of the enhanced description. *)
Record sections : Type := Sections {
  s_narrative : narrative;
  s_allJiraTickets : list jsstring;
  s_jiraSection : jsstring;
  s_figmaSection : jsstring;
  s_changeAnalysis : jsstring
}.

(** What [analyzeCodeDiff] returns: the enhanced description, or the static
    text of its catch branch. *)
Inductive composed : Type :=
| Enhanced (s : sections)
| Unanalyzed (head base : jsstring).

Definition robot : jsstring := [55358%N; 56598%N].

Definition titleHint : jsstring :=
  js "<!--- Provide a general summary of your changes in the Title above by starting with Jira Ticket -->".

Definition screenshots : list jsstring :=
  [ js "## Screenshots:";
    js "| Before | After |";
    js "| ------ | ----- |";
    js "|--before-image--|--after-image-- |" ].

Definition footer : list jsstring :=
  [ js "---";
    [];
    js "> " ++ robot ++ js " **Created by AI Agent** - This PR was automatically generated with enhanced analysis and formatting." ].

Definition zeroAnalysis : list jsstring :=
  [ js "- **New Files Added:** 0";
    js "- **Files Modified:** 0";
    js "- **Files Deleted:** 0";
    js "- **Total Files Changed:** 0" ].

Definition render (c : composed) : jsstring :=
  match c with
  | Enhanced s =>
      join NL
        ([ titleHint;
           [];
           js "## Description:";
           show (detailedSummary (s_narrative s));
           [];
           js "   ### Key Changes:";
           js "   " ++ show (keyChanges (s_narrative s));
           [];
           js "## Motivation and Context:";
           show (motivationContext (s_narrative s));
           [];
           js "## Jira Ticket: ";
           s_jiraSection s;
           [] ]
         ++ match s_figmaSection s with
            | [] => []
            | _ :: _ => [ js "## Figma Links:"; s_figmaSection s; [] ]
            end
         ++ screenshots
         ++ [ []; js "## Change Analysis:"; s_changeAnalysis s; [] ]
         ++ footer)
  | Unanalyzed head base =>
      join NL
        ([ titleHint;
           [];
           js "## Description:";
           js "This PR introduces changes from `" ++ head ++ js "` to `" ++ base ++ js "` branch.";
           [];
           js "*Note: Unable to analyze code diff automatically. Please review the changes manually.*";
           [];
           js "   ### Key Changes:";
           js "   " ++ bullet ++ js " Modified files with additions and deletions";
           [];
           js "## Motivation and Context:";
           js "This change addresses the requirements specified in the JIRA ticket(s) mentioned below. The modifications improve system functionality and user experience.";
           [];
           js "## Jira Ticket: ";
           js "<!-- Please add Jira Link here -->";
           [] ]
         ++ screenshots
         ++ [ []; js "## Change Analysis:" ]
         ++ zeroAnalysis
         ++ [ []; [] ]
         ++ footer)
  end.

Definition GITHUB_API_BASE : jsstring := js "https://ghe.megaleo.com/api/v3".

Definition compareUrl (owner repo head base : jsstring) : jsstring :=
  GITHUB_API_BASE ++ js "/repos/" ++ owner ++ js "/" ++ repo
    ++ js "/compare/" ++ base ++ js "..." ++ head.

(** The change-analysis block of a description. *)
Definition changeAnalysisBlock (c : composed) : jsstring :=
  match c with
  | Enhanced s => s_changeAnalysis s
  | Unanalyzed _ _ => join NL zeroAnalysis
  end.

(** The tickets listed in the JIRA section of a description. *)
Definition jiraSectionTickets (c : composed) : list jsstring :=
  match c with
  | Enhanced s => s_allJiraTickets s
  | Unanalyzed _ _ => []
  end.

Section Analyzer.
Context {world : Type} (env : backend world).

(** The body of [analyzeCodeDiff] up to its template literal: the pieces
    that the template splices, or the static text of the catch branch. *)
Definition composeDescription (owner repo head base token body : jsstring)
  : M world composed :=
  try_catch
    (compareResponse <- axios_get_compare env (compareUrl owner repo head base) token ;;
     compareData <- require compareResponse ;;
     let filesChanged := match files compareData with
                         | Some l => l
                         | None => []
                         end in
     let stats := match stats compareData with
                  | Some s => s
                  | None => DiffStats 0 0 0
                  end in
     let branchJiraTickets := extractJiraTickets head in
     bundle <- generateDetailedSummary env filesChanged stats head base
                 branchJiraTickets body ;;
     summaryText <- require (detailedSummary bundle) ;;
     let jiraTicketsFromDescription := extractJiraTickets summaryText in
     let jiraTicketsFromBranch := extractJiraTickets head in
     let allJiraTickets := Set_of (jiraTicketsFromDescription ++ jiraTicketsFromBranch) in
     figmaSection <-
       match allJiraTickets with
       | [] => ret []
       | first :: _ =>
           try_catch
             (jiraResult <- get_jira_ticket_details env first ;;
              if success jiraResult
              then match figmaLinks (result_ticket jiraResult) with
                   | [] => ret []
                   | _ :: _ => ret (figmaSectionOf (figmaLinks (result_ticket jiraResult)))
                   end
              else ret [])
             (fun error => ret [])
       end ;;
     ret (Enhanced {| s_narrative := bundle;
                      s_allJiraTickets := allJiraTickets;
                      s_jiraSection := jiraSectionOf allJiraTickets;
                      s_figmaSection := figmaSection;
                      s_changeAnalysis := changeAnalysisOf filesChanged |}))
    (fun error => ret (Unanalyzed head base)).

(** [analyzeCodeDiff]: the pieces spliced into the template. *)
Definition analyzeCodeDiff (owner repo head base token body : jsstring)
  : M world jsstring :=
  c <- composeDescription owner repo head base token body ;;
  ret (render c).
End Analyzer.

(** ** github/index.js: the title of [create_pull_request] *)

Definition aiSignature : jsstring := js " " ++ robot.

Definition finalTitle (title : jsstring) : jsstring :=
  if endsWith title aiSignature then title else title ++ aiSignature.

(** ** config/aiConfig.js *)

(** [!x] on a value that is a string or undefined. *)
Definition falsy (x : option jsstring) : bool :=
  match x with
  | Some (_ :: _) => false
  | _ => true
  end.

(** The four variables that [getAIConfig] reads from [process.env]. *)
Record ai_environment : Type := AiEnvironment {
  AI_USERNAME : option jsstring;
  AI_BASE_URL : option jsstring;
  AI_API_KEY : option jsstring;
  AI_MODEL : option jsstring
}.

Record ai_config : Type := AiConfig {
  ai_username : jsstring;
  ai_headers_Authorization : jsstring;
  ai_base_url : jsstring;
  ai_api_key : jsstring;
  ai_model : jsstring
}.

Section AiConfiguration.
Context {world : Type}.

Definition getAIConfig (process_env : ai_environment) : M world ai_config :=
  let username := AI_USERNAME process_env in
  let base_url := AI_BASE_URL process_env in
  let api_key := AI_API_KEY process_env in
  let model := AI_MODEL process_env in
  if falsy username
  then throw (JsError (js "AI_USERNAME environment variable is required"))
  else if falsy base_url
  then throw (JsError (js "AI_BASE_URL environment variable is required"))
  else if falsy api_key
  then throw (JsError (js "AI_API_KEY environment variable is required"))
  else if falsy model
  then throw (JsError (js "AI_MODEL environment variable is required"))
  else ret {| ai_username := or_default username [];
              ai_headers_Authorization := js "Bearer " ++ or_default api_key [];
              ai_base_url := or_default base_url [];
              ai_api_key := or_default api_key [];
              ai_model := or_default model [] |}.

(** [getLLMClient] of the configuration module: the client is built from
    the configuration; its [invoke] is the backend's [llm_invoke]. *)
Definition getLLMClientFrom (process_env : ai_environment) : M world unit :=
  _ <- getAIConfig process_env ;;
  ret tt.
End AiConfiguration.

(** ** github/utils.js: the token, the headers and the errors of the API *)

Definition DEFAULT_OWNER (GITHUB_OWNER : option jsstring) : jsstring :=
  or_default GITHUB_OWNER (js "wday-planning").

Record request_headers : Type := RequestHeaders {
  h_Authorization : jsstring;
  h_Accept : jsstring;
  h_Content_Type : jsstring
}.

Definition getGitHubHeaders (token : jsstring) : request_headers :=
  {| h_Authorization := js "token " ++ token;
     h_Accept := js "application/vnd.github.v3+json";
     h_Content_Type := js "application/json" |}.

(** What [validateGitHubToken] returns: the failure object with [error] and
    [instructions], or the token. *)
Inductive token_validation : Type :=
| TokenMissing (tv_error tv_instructions : jsstring)
| TokenFound (token : jsstring).

Definition validateGitHubToken (GITHUB_TOKEN : option jsstring) : token_validation :=
  let token := GITHUB_TOKEN in
  if falsy token
  then TokenMissing
         (js "GitHub token not found. Please set GITHUB_TOKEN environment variable.")
         (js "To get a GitHub token: 1) Go to GitHub Settings > Developer settings > Personal access tokens, 2) Generate new token with 'repo' scope, 3) Set GITHUB_TOKEN environment variable")
  else TokenFound (or_default token []).

(** [error.response.data] of a rejected request. *)
Record error_data : Type := ErrorData { ed_message : option jsstring }.

(** [error.response]: the status and [data], which is [None] when it is
    null or undefined.  An empty body arrives as the empty string, a value
    without a message: [Some (ErrorData None)]. *)
Record error_response : Type := ErrorResponse {
  er_status : Z;
  er_data : option error_data
}.

(** The error that [handleGitHubError] receives: [error.response] is
    present when the server answered, [error.message] may be absent. *)
Record request_error : Type := RequestError {
  e_response : option error_response;
  e_message : option jsstring
}.

(** The failure object: [error] and, when the server answered, [details]. *)
Record failure : Type := Failure {
  fail_error : jsstring;
  fail_details : option error_data
}.

(** The object literal [errorMessages], indexed by the status. *)
Definition errorMessages (errorData : error_data) (status : Z) : option jsstring :=
  if (status =? 401)%Z
  then Some (js "Authentication failed. Check your GitHub token.")
  else if (status =? 403)%Z
  then Some (js "Access forbidden. Token may lack required permissions.")
  else if (status =? 404)%Z
  then Some (js "Repository not found or you don't have access to it.")
  else if (status =? 422)%Z
  then Some (js "Validation failed. "
               ++ or_default (ed_message errorData) (js "Check your parameters."))
  else None.

Section GitHubErrors.
Context {world : Type}.

Definition handleGitHubError (error : request_error) (operation : jsstring)
  : M world failure :=
  match e_response error with
  | Some response =>
      let status := er_status response in
      errorData <- require (er_data response) ;;
      ret {| fail_error :=
               js "GitHub API error (" ++ of_Z status ++ js "): "
                 ++ match errorMessages errorData status with
                    | Some text => text
                    | None => or_default (ed_message errorData)
                                         (js "Unknown error occurred.")
                    end;
             fail_details := Some errorData |}
  | None =>
      ret {| fail_error := or_default (e_message error) (js "Failed to " ++ operation);
             fail_details := None |}
  end.
End GitHubErrors.

(** ** github/index.js: [create_pull_request] *)

(** The arguments of the tool; an optional argument that is left out is
    [None]. *)
Record pull_request_args : Type := PullRequestArgs {
  a_owner : option jsstring;
  a_repo : jsstring;
  a_title : jsstring;
  a_head : jsstring;
  a_base : jsstring;
  a_body : option jsstring;
  a_draft : option bool;
  a_include_diff_analysis : option bool
}.

(** The body of the POST request. *)
Record pull_payload : Type := PullPayload {
  p_title : jsstring;
  p_head : jsstring;
  p_base : jsstring;
  p_body : jsstring;
  p_draft : bool
}.

(** [response.data] of the POST request, after the schema of the API:
    [pr.head.ref], [pr.base.ref] and [pr.user.login] are the three nested
    fields. *)
Record pull : Type := Pull {
  pr_number : Z;
  pr_title : jsstring;
  pr_html_url : jsstring;
  pr_state : jsstring;
  pr_draft : bool;
  pr_head_ref : jsstring;
  pr_base_ref : jsstring;
  pr_created_at : jsstring;
  pr_user_login : jsstring
}.

(** The [pull_request] object of the tool's answer. *)
Record pull_request_summary : Type := PullRequestSummary {
  r_number : Z;
  r_title : jsstring;
  r_url : jsstring;
  r_state : jsstring;
  r_draft : bool;
  r_head : jsstring;
  r_base : jsstring;
  r_created_at : jsstring;
  r_user : jsstring;
  r_body_length : nat;
  r_includes_diff_analysis : bool
}.

(** What the tool returns: the failed token validation, the success
    object, or the failure object of [handleGitHubError]. *)
Inductive tool_result : Type :=
| NotConfigured (tv_error tv_instructions : jsstring)
| Created (pull_request : pull_request_summary) (formatted_response message : jsstring)
| Failed (f : failure).

(** The collaborators of the tool: the services of the pipeline, the two
    environment variables, the POST request and the host's rendering of a
    date.  A rejected request is returned as its error object, since
    [handleGitHubError] reads [error.response] as well as
    [error.message]. *)
Record github (world : Type) : Type := GitHub {
  services : backend world;
  GITHUB_TOKEN : option jsstring;
  GITHUB_OWNER : option jsstring;
  axios_post : jsstring -> pull_payload -> request_headers
               -> M world (request_error + pull);
  toLocaleString : jsstring -> jsstring
}.

Definition isLineTerminator (c : jschar) : bool :=
  (N.eqb c 10 || N.eqb c 13 || N.eqb c 8232 || N.eqb c 8233)%bool.

(** [/\/pull\/.*/] *)
Definition pullPathRegex : regex :=
  Seq (literal (js "/pull/")) (Star (fun c => negb (isLineTerminator c))).

(** [text.replace(r, '')] for a pattern without the [g] flag: the first
    match is cut out. *)
Definition removeFirst (r : regex) (text : jsstring) : jsstring :=
  match occurrences r text with
  | [] => text
  | (index, matched) :: _ => firstn index text ++ skipn (index + length matched) text
  end.

Definition party : jsstring := [55356%N; 57225%N].
Definition clipboard : jsstring := [55357%N; 56523%N].
Definition chain : jsstring := [55357%N; 56599%N].
Definition sparkles : jsstring := [10024%N].
Definition barChart : jsstring := [55357%N; 56522%N].
Definition risingChart : jsstring := [55357%N; 56520%N].
Definition ticketSign : jsstring := [55356%N; 57259%N].
Definition checkMark : jsstring := [9989%N].
Definition lightBulb : jsstring := [55357%N; 56481%N].
Definition doubleQuote : jsstring := [34%N].

Definition formattedResponse (localeDate : jsstring) (pr : pull) (finalBody : jsstring)
  (include_diff_analysis : bool) : jsstring :=
  join NL
    [ party ++ js " **Enhanced Pull Request Created Successfully!**";
      [];
      clipboard ++ js " **PR Details:**";
      js "- **Number:** #" ++ of_Z (pr_number pr);
      js "- **Title:** " ++ pr_title pr;
      js "- **Status:** " ++ pr_state pr ++ js " "
        ++ (if pr_draft pr then js "(Draft)" else []);
      js "- **From:** `" ++ pr_head_ref pr ++ js "` " ++ arrow ++ js " **To:** `"
        ++ pr_base_ref pr ++ js "`";
      js "- **Author:** " ++ pr_user_login pr;
      js "- **Created:** " ++ localeDate;
      js "- **Description Length:** " ++ of_nat (length finalBody) ++ js " characters";
      js "- **Includes Diff Analysis:** "
        ++ (if include_diff_analysis then js "Yes" else js "No");
      [];
      chain ++ js " **Links:**";
      js "- **View PR:** " ++ pr_html_url pr;
      js "- **Repository:** " ++ removeFirst pullPathRegex (pr_html_url pr);
      [];
      sparkles ++ js " **Enhanced Features:**";
      js "- " ++ barChart ++ js " Automatic code diff analysis";
      js "- " ++ risingChart ++ js " File type analysis";
      js "- " ++ ticketSign ++ js " JIRA ticket links";
      js "- " ++ checkMark ++ js " Review checklist";
      [];
      lightBulb ++ js " **Next Steps:**";
      js "- Review the enhanced PR description";
      js "- Check the automated analysis";
      js "- Add reviewers if needed";
      js "- Merge when ready" ].

Definition pullsUrl (owner repo : jsstring) : jsstring :=
  GITHUB_API_BASE ++ js "/repos/" ++ owner ++ js "/" ++ repo ++ js "/pulls".

Section CreatePullRequest.
Context {world : Type} (env : github world).

(** The [try] block of the tool.  It returns the success object, or the
    error object that its [catch] clause receives: the error of a rejected
    request, or an exception of the block, which has a message and no
    response. *)
Definition tryCreatePullRequest (owner repo title head base body token : jsstring)
  (draft include_diff_analysis : bool) : M world (request_error + tool_result) :=
  try_catch
    (finalBody <-
       (if include_diff_analysis
        then analyzeCodeDiff (services env) owner repo head base token body
        else ret body) ;;
     let finalTitle := finalTitle title in
     let url := pullsUrl owner repo in
     let payload := {| p_title := finalTitle; p_head := head; p_base := base;
                       p_body := finalBody; p_draft := draft |} in
     response <- axios_post env url payload (getGitHubHeaders token) ;;
     match response with
     | inl error => ret (inl error)
     | inr pr =>
         ret (inr
           (Created
              {| r_number := pr_number pr;
                 r_title := pr_title pr;
                 r_url := pr_html_url pr;
                 r_state := pr_state pr;
                 r_draft := pr_draft pr;
                 r_head := pr_head_ref pr;
                 r_base := pr_base_ref pr;
                 r_created_at := pr_created_at pr;
                 r_user := pr_user_login pr;
                 r_body_length := length finalBody;
                 r_includes_diff_analysis := include_diff_analysis |}
              (formattedResponse (toLocaleString env (pr_created_at pr)) pr finalBody
                                 include_diff_analysis)
              (js "Successfully created enhanced pull request #" ++ of_Z (pr_number pr)
                 ++ js ": " ++ doubleQuote ++ pr_title pr ++ doubleQuote ++ js " with "
                 ++ (if include_diff_analysis
                     then js "automatic diff analysis"
                     else js "custom description"))))
     end)
    (fun error => ret (inl {| e_response := None; e_message := Some (message error) |})).

Definition create_pull_request (args : pull_request_args) : M world tool_result :=
  let owner := match a_owner args with
               | Some o => o
               | None => DEFAULT_OWNER (GITHUB_OWNER env)
               end in
  let body := match a_body args with
              | Some b => b
              | None => []
              end in
  let draft := match a_draft args with
               | Some d => d
               | None => false
               end in
  let include_diff_analysis := match a_include_diff_analysis args with
                               | Some i => i
                               | None => true
                               end in
  match validateGitHubToken (GITHUB_TOKEN env) with
  | TokenMissing tv_error tv_instructions => ret (NotConfigured tv_error tv_instructions)
  | TokenFound token =>
      attempt <- tryCreatePullRequest owner (a_repo args) (a_title args) (a_head args)
                   (a_base args) body token draft include_diff_analysis ;;
      match attempt with
      | inr created => ret created
      | inl error =>
          f <- handleGitHubError error (js "create pull request") ;;
          ret (Failed f)
      end
  end.
End CreatePullRequest.

(** * Vocabulary of the properties, and sample backends *)

Unset Implicit Arguments.

(** The position of the first occurrence of [x] in [l] ([length l] when
    absent). *)
Fixpoint firstIndex (x : jsstring) (l : list jsstring) : nat :=
  match l with
  | [] => 0
  | y :: l' => if JsString.eqb x y then 0 else S (firstIndex x l')
  end.

(** An uppercase letter, uppercase letters or digits, a hyphen, digits. *)
Definition ticketShaped (s : jsstring) : Prop :=
  exists u mid ds,
    s = u :: mid ++ hyphen :: ds /\ isUpper u = true /\
    forallb isUpperOrDigit mid = true /\ ds <> [] /\ forallb isDigit ds = true.

(** What follows a match: the end of the string or a separator. *)
Definition atSeparator (rest : jsstring) : Prop :=
  rest = [] \/ exists c r, rest = c :: r /\ isSeparator c = true.


(** A response from which the ticket object can be built: it has [fields],
    and in them a status and an issue type. *)
Definition usableIssue (i : issue) : bool :=
  match i_fields i with
  | Some f =>
      match f_status f, f_issuetype f with
      | Some _, Some _ => true
      | _, _ => false
      end
  | None => false
  end.

(** The fetch fails when the request is rejected (network error, non-2xx
    status) or the response is malformed. *)
Definition fetchFailed (o : outcome (option issue)) : bool :=
  match o with
  | Thrown _ => true
  | Returned None => true
  | Returned (Some i) => negb (usableIssue i)
  end.

(** A tracker that answers every request with a 404. *)
Definition tracker404 : backend unit :=
  {| JIRA_API_TOKEN := None;
     axios_get_issue := fun _ _ =>
       throw (JsError (js "Request failed with status code 404"));
     axios_get_compare := fun _ _ => throw (JsError (js "Network Error"));
     getLLMClient := ret tt;
     llm_invoke := fun _ => throw (JsError (js "LLM unavailable")) |}.







Definition figmaUrl : jsstring := js "https://www.figma.com/design/AbC123/Checkout-flow".

(** A tracker that holds one ticket whose description links the same
    design twice. *)
Definition designTicket : issue :=
  {| i_key := Some (js "ABC-123");
     i_fields := Some
       {| f_summary := Some (js "Checkout redesign");
          f_description := Some (figmaUrl ++ js "?node-id=1 and again " ++ figmaUrl);
          f_status := Some (Named (Some (js "Open")));
          f_priority := None; f_assignee := None; f_reporter := None;
          f_issuetype := Some (Named (Some (js "Story")));
          f_created := None; f_updated := None;
          f_labels := None; f_components := None; f_fixVersions := None |} |}.

Definition designTracker : backend unit :=
  {| JIRA_API_TOKEN := None;
     axios_get_issue := fun _ _ => ret (Some designTicket);
     axios_get_compare := fun _ _ => throw (JsError (js "Network Error"));
     getLLMClient := ret tt;
     llm_invoke := fun _ => throw (JsError (js "LLM unavailable")) |}.

(** What one call of the generation backend did. *)
Inductive llm_event : Type :=
| LlmReturned (r : option llm_response)
| LlmThrew (e : js_error).

Section Tracing.
Context {world : Type} (env : backend world).

(** A computation of the plain world run next to a log it leaves alone. *)
Definition lift {A} (c : M world A) : M (world * list llm_event) A :=
  fun wl => let (o, w') := c (fst wl) in (o, (w', snd wl)).

(** The same backend, recording the outcome of every generation call. *)
Definition traced : backend (world * list llm_event) :=
  {| JIRA_API_TOKEN := JIRA_API_TOKEN env;
     axios_get_issue := fun u a => lift (axios_get_issue env u a);
     axios_get_compare := fun u t => lift (axios_get_compare env u t);
     getLLMClient := lift (getLLMClient env);
     llm_invoke := fun p wl =>
       match llm_invoke env p (fst wl) with
       | (Returned r, w') => (Returned r, (w', snd wl ++ [LlmReturned r]))
       | (Thrown e, w') => (Thrown e, (w', snd wl ++ [LlmThrew e]))
       end |}.

(** [c'] behaves as [c] once the log is forgotten. *)
Definition erases {A} (c' : M (world * list llm_event) A) (c : M world A) : Prop :=
  forall w l, fst (c' (w, l)) = fst (c w) /\ fst (snd (c' (w, l))) = snd (c w).

(** [c'] leaves the log as it found it. *)
Definition quiet {A} (c' : M (world * list llm_event) A) : Prop :=
  forall w l, snd (snd (c' (w, l))) = l.
End Tracing.

(** A generation backend whose second call is rejected; the world counts
    the calls. *)
Definition flakyLLM : backend nat :=
  {| JIRA_API_TOKEN := None;
     axios_get_issue := fun _ _ =>
       throw (JsError (js "Request failed with status code 404"));
     axios_get_compare := fun _ _ => throw (JsError (js "Network Error"));
     getLLMClient := ret tt;
     llm_invoke := fun _ n =>
       if n =? 1
       then (Thrown (JsError (js "429 Too Many Requests")), S n)
       else (Returned (Some (LlmResponse (Some (js "Generated text.")))), S n) |}.

(** The text of the JIRA section of a description. *)
Definition jiraSectionText (c : composed) : jsstring :=
  match c with
  | Enhanced s => s_jiraSection s
  | Unanalyzed _ _ => jiraSectionOf []
  end.

(** The scenario of the specification: head TICKET-12345-feature, base
    develop, three files (two modified, one added), 40 additions and 5
    deletions; the generation backend answers, the tracker does not. *)
Definition scenarioFiles : list file_change :=
  [ FileChange (js "src/cart.js") (js "modified") 20 3;
    FileChange (js "src/checkout.js") (js "modified") 15 2;
    FileChange (js "docs/checkout.md") (js "added") 5 0 ].

Definition scenarioBackend (changed : option (list file_change)) : backend unit :=
  {| JIRA_API_TOKEN := None;
     axios_get_issue := fun _ _ =>
       throw (JsError (js "Request failed with status code 404"));
     axios_get_compare := fun _ _ =>
       ret (Some (CompareData changed (Some (DiffStats 40 5 45))));
     getLLMClient := ret tt;
     llm_invoke := fun _ =>
       ret (Some (LlmResponse (Some (js "Adds the checkout flow of SHOP-7 ")))) |}.

Fixpoint startsWith (p s : jsstring) : bool :=
  match p, s with
  | [], _ => true
  | c :: p', d :: s' => N.eqb c d && startsWith p' s'
  | _ :: _, [] => false
  end.

(** [String.prototype.includes]. *)
Fixpoint includes (needle hay : jsstring) : bool :=
  startsWith needle hay ||
  match hay with
  | [] => false
  | _ :: hay' => includes needle hay'
  end.

(** The match that the backtracking finds first. *)
Definition firstMatch (r : regex) (x y : cursor) : Prop :=
  exists rest, rmatch r x = y :: rest.

(** The text before a position ends outside a word: it is empty, or its
    last code unit is not a word character. *)
Definition endsOutsideWord (pre : jsstring) : Prop :=
  pre = [] \/ exists p c, pre = p ++ [c] /\ isWordChar c = false.

(** The shape of a design link: http or https, an optional www., the
    design-tool host, file or design, an alphanumeric id, and a path tail
    without question mark or whitespace. *)
Definition linkShaped (s : jsstring) : Prop :=
  exists scheme host kind id tail,
    s = js "http" ++ scheme ++ js "://" ++ host ++ js "figma.com/" ++ kind
          ++ js "/" ++ id ++ js "/" ++ tail /\
    (scheme = [] \/ scheme = js "s") /\
    (host = [] \/ host = js "www.") /\
    (kind = js "file" \/ kind = js "design") /\
    id <> [] /\ forallb isAlnum id = true /\ forallb isLinkTail tail = true.

(** What follows a link: the end of the text, a question mark or
    whitespace. *)
Definition atLinkEnd (rest : jsstring) : Prop :=
  rest = [] \/ exists c r, rest = c :: r /\ isLinkTail c = false.

(** The scenario with the generation backend down. *)
Definition scenarioBackendDown : backend unit :=
  {| JIRA_API_TOKEN := None;
     axios_get_issue := fun _ _ =>
       throw (JsError (js "Request failed with status code 404"));
     axios_get_compare := fun _ _ =>
       ret (Some (CompareData (Some scenarioFiles) (Some (DiffStats 40 5 45))));
     getLLMClient := ret tt;
     llm_invoke := fun _ => throw (JsError (js "503 Service Unavailable")) |}.


(** A string without a dot. *)
Definition noDot (s : jsstring) : bool := forallb (fun c => negb (N.eqb c 46%N)) s.

(** The number of files with a given extension. *)
Definition extCount (ext : jsstring) (filesChanged : list file_change) : nat :=
  length (filter (fun f => JsString.eqb (extensionOf (filename f)) ext) filesChanged).

(** The names that every object inherits from Object.prototype: for such a
    key [fileTypes[ext]] finds the inherited member. *)
Definition objectPrototypeNames : list string :=
  [ "constructor"; "__defineGetter__"; "__defineSetter__"; "hasOwnProperty";
    "__lookupGetter__"; "__lookupSetter__"; "isPrototypeOf";
    "propertyIsEnumerable"; "toString"; "valueOf"; "__proto__";
    "toLocaleString" ]%string.

Definition inheritedName (k : jsstring) : bool :=
  existsb (fun n => JsString.eqb k (js n)) objectPrototypeNames.

(** No file has an extension that names an inherited member. *)
Definition plainExtensions (filesChanged : list file_change) : bool :=
  forallb (fun f => negb (inheritedName (extensionOf (filename f)))) filesChanged.

(** A property whose key is an array index. *)
Definition isIndexKey (e : jsstring * nat) : bool :=
  match arrayIndex (fst e) with
  | Some _ => true
  | None => false
  end.

Definition indexOf (e : jsstring * nat) : N :=
  match arrayIndex (fst e) with
  | Some i => i
  | None => 0%N
  end.

(** The count recorded for a key, if any. *)
Fixpoint lookupCount (k : jsstring) (o : list (jsstring * nat)) : option nat :=
  match o with
  | [] => None
  | (k', n) :: rest => if JsString.eqb k' k then Some n else lookupCount k rest
  end.

(** The four variables of the generation service are set and not empty. *)
Definition aiConfigured (process_env : ai_environment) : bool :=
  negb (falsy (AI_USERNAME process_env)) && negb (falsy (AI_BASE_URL process_env))
  && negb (falsy (AI_API_KEY process_env)) && negb (falsy (AI_MODEL process_env)).

(** The backend whose client comes from the configuration module. *)
Definition withAIConfig {world : Type} (process_env : ai_environment)
  (env : backend world) : backend world :=
  {| JIRA_API_TOKEN := JIRA_API_TOKEN env;
     axios_get_issue := axios_get_issue env;
     axios_get_compare := axios_get_compare env;
     getLLMClient := getLLMClientFrom process_env;
     llm_invoke := llm_invoke env |}.

(** A configuration without a model name. *)
Definition noModel : ai_environment :=
  {| AI_USERNAME := Some (js "svc-pr-copilot");
     AI_BASE_URL := Some (js "https://llm.example.com/v1");
     AI_API_KEY := Some (js "secret");
     AI_MODEL := None |}.

(** The owner and the body that [create_pull_request] works with, after
    its defaults. *)
Definition ownerOf {world : Type} (env : github world) (args : pull_request_args)
  : jsstring :=
  match a_owner args with
  | Some o => o
  | None => DEFAULT_OWNER (GITHUB_OWNER env)
  end.

Definition bodyOf (args : pull_request_args) : jsstring :=
  match a_body args with
  | Some b => b
  | None => []
  end.

(** A pull request as the API returns it. *)
Definition samplePull : pull :=
  {| pr_number := 42;
     pr_title := js "ABC-1 Fix checkout " ++ robot;
     pr_html_url := js "https://ghe.megaleo.com/acme/shop/pull/42";
     pr_state := js "open";
     pr_draft := false;
     pr_head_ref := js "ABC-1-fix";
     pr_base_ref := js "main";
     pr_created_at := js "2024-05-01T10:00:00Z";
     pr_user_login := js "octocat" |}.

(** A host with a token whose API accepts every pull request; the world
    counts the POST requests. *)
Definition acceptingGitHub : github nat :=
  {| services :=
       {| JIRA_API_TOKEN := None;
          axios_get_issue := fun _ _ => throw (JsError (js "Network Error"));
          axios_get_compare := fun _ _ => throw (JsError (js "Network Error"));
          getLLMClient := ret tt;
          llm_invoke := fun _ => throw (JsError (js "LLM unavailable")) |};
     GITHUB_TOKEN := Some (js "ghp_token");
     GITHUB_OWNER := None;
     axios_post := fun _ _ _ n => (Returned (inr samplePull), S n);
     toLocaleString := fun s => s |}.

(** A host whose API rejects the request with a response whose data is
    null. *)
Definition nullDataGitHub : github nat :=
  {| services := services acceptingGitHub;
     GITHUB_TOKEN := Some (js "ghp_token");
     GITHUB_OWNER := None;
     axios_post := fun _ _ _ n =>
       (Returned (inl {| e_response := Some {| er_status := 502; er_data := None |};
                         e_message := Some (js "Request failed with status code 502") |}),
        S n);
     toLocaleString := fun s => s |}.

Definition sampleArgs : pull_request_args :=
  {| a_owner := Some (js "acme");
     a_repo := js "shop";
     a_title := js "ABC-1 Fix checkout";
     a_head := js "ABC-1-fix";
     a_base := js "main";
     a_body := Some (js "Fixes the checkout total.");
     a_draft := None;
     a_include_diff_analysis := Some false |}.

(** Whether [create_pull_request] analyses the diff, after its default. *)
Definition analysisOf (args : pull_request_args) : bool :=
  match a_include_diff_analysis args with
  | Some i => i
  | None => true
  end.

Definition draftOf (args : pull_request_args) : bool :=
  match a_draft args with
  | Some d => d
  | None => false
  end.


(** * Properties *)

Lemma jsstring_eqb_eq (s t : jsstring) : JsString.eqb s t = true <-> s = t.
Proof.
  revert t; induction s as [|c s IH]; intros [|d t]; simpl; split;
    try congruence; try reflexivity.
  - intros H. apply andb_prop in H as [H1 H2].
    apply N.eqb_eq in H1. apply IH in H2. congruence.
  - intros H. injection H as -> ->.
    rewrite N.eqb_refl. simpl. now apply IH.
Qed.

Lemma jsstring_eqb_refl (s : jsstring) : JsString.eqb s s = true.
Proof. now apply jsstring_eqb_eq. Qed.

(** ** Sets as insertion-ordered lists *)

Lemma existsb_eqb_In (x : jsstring) (l : list jsstring) :
  existsb (JsString.eqb x) l = true <-> In x l.
Proof.
  rewrite existsb_exists. split.
  - intros (y & Hy & E). apply jsstring_eqb_eq in E. now subst.
  - intros H. exists x. split; [assumption | apply jsstring_eqb_refl].
Qed.

Lemma firstIndex_In_lt (x : jsstring) (pre post : list jsstring) :
  In x pre -> firstIndex x (pre ++ post) < length pre.
Proof.
  induction pre as [|y pre IH]; simpl; [tauto|].
  intros H. destruct (JsString.eqb x y) eqn:E; [lia|].
  destruct H as [H|H].
  - subst. rewrite jsstring_eqb_refl in E. discriminate.
  - specialize (IH H). lia.
Qed.

Lemma firstIndex_notIn_ge (x : jsstring) (pre post : list jsstring) :
  ~ In x pre -> length pre <= firstIndex x (pre ++ post).
Proof.
  induction pre as [|y pre IH]; simpl; [lia|].
  intros H. destruct (JsString.eqb x y) eqn:E.
  - apply jsstring_eqb_eq in E. subst. tauto.
  - assert (~ In x pre) by tauto. specialize (IH H0). lia.
Qed.

Lemma StronglySorted_snoc {A} (R : A -> A -> Prop) (l : list A) (x : A) :
  StronglySorted R l -> Forall (fun y => R y x) l -> StronglySorted R (l ++ [x]).
Proof.
  induction 1 as [|y l Hs IH Hy]; intros Hall; simpl.
  - repeat constructor.
  - inversion Hall; subst. constructor.
    + now apply IH.
    + apply Forall_app. split; [assumption | now constructor].
Qed.

(** The invariant of the insertion loop: after the elements [pre] have been
    inserted, the set holds exactly the values of [pre], once each, ordered
    by first occurrence. *)
Lemma Set_fold_invariant (post pre acc : list jsstring) :
  NoDup acc ->
  (forall x, In x acc <-> In x pre) ->
  StronglySorted lt (map (fun x => firstIndex x (pre ++ post)) acc) ->
  let res := fold_left Set_add post acc in
  NoDup res /\
  (forall x, In x res <-> In x (pre ++ post)) /\
  StronglySorted lt (map (fun x => firstIndex x (pre ++ post)) res).
Proof.
  revert pre acc. induction post as [|y post IH]; intros pre acc Hnd Hin Hs; simpl.
  - rewrite app_nil_r in *. auto.
  - assert (E : pre ++ y :: post = (pre ++ [y]) ++ post)
      by (rewrite <- app_assoc; reflexivity).
    rewrite E.
    assert (Hadd : Set_add acc y
                   = if existsb (JsString.eqb y) acc then acc else acc ++ [y])
      by reflexivity.
    destruct (existsb (JsString.eqb y) acc) eqn:Ex; rewrite Hadd.
    + apply existsb_eqb_In in Ex. apply IH.
      * assumption.
      * intros x. rewrite in_app_iff, <- Hin. simpl. split; [tauto|].
        intros [H|[H|[]]]; [assumption | now subst].
      * now rewrite <- E.
    + assert (Hy : ~ In y acc).
      { intros H. apply existsb_eqb_In in H. congruence. }
      apply IH.
      * apply NoDup_app; [assumption | repeat constructor; simpl; tauto |].
        intros x Hx [<-|[]]. tauto.
      * intros x. rewrite !in_app_iff, Hin. reflexivity.
      * rewrite <- E, map_app. simpl. apply StronglySorted_snoc; [assumption|].
        apply Forall_forall. intros n Hn. apply in_map_iff in Hn as (z & <- & Hz).
        apply Hin in Hz.
        pose proof (firstIndex_In_lt z pre (y :: post) Hz).
        assert (~ In y pre) by (rewrite <- Hin; assumption).
        pose proof (firstIndex_notIn_ge y pre (y :: post) H0). lia.
Qed.

Lemma Set_of_spec (xs : list jsstring) :
  NoDup (Set_of xs) /\
  (forall x, In x (Set_of xs) <-> In x xs) /\
  StronglySorted lt (map (fun x => firstIndex x xs) (Set_of xs)).
Proof.
  apply (Set_fold_invariant xs [] []).
  - constructor.
  - reflexivity.
  - constructor.
Qed.

(** ** The matcher *)

Lemma star_run_spec (p : jschar -> bool) (a : list jschar) :
  forall b y, In y (star_run p b a) ->
  exists run, a = run ++ after y /\ before y = rev run ++ b /\ forallb p run = true.
Proof.
  induction a as [|c a IH]; intros b y H; simpl in H.
  - destruct H as [<-|[]]. exists []. auto.
  - destruct (p c) eqn:Hc.
    + apply in_app_iff in H as [H|[<-|[]]].
      * apply IH in H as (run & Ha & Hb & Hp).
        exists (c :: run). simpl. rewrite Hc, Hp, <- Ha, Hb, <- app_assoc. auto.
      * exists []. auto.
    + destruct H as [<-|[]]. exists []. auto.
Qed.

Lemma step_class_spec (p : jschar -> bool) (x y : cursor) :
  In y (step_class p x) ->
  exists c, after x = c :: after y /\ before y = c :: before x /\ p c = true.
Proof.
  unfold step_class. destruct (after x) as [|c a]; [intros []|].
  destruct (p c) eqn:Hc; [|intros []].
  intros [<-|[]]. exists c. auto.
Qed.

(** Every reported occurrence is a successful match attempt at its index. *)
Lemma scan_sound (r : regex) (a : list jschar) :
  forall skip b pos i s, In (i, s) (scan r skip b a pos) ->
  exists pre post len,
    a = pre ++ post /\ i = pos + length pre /\
    exec r (Cursor (rev pre ++ b) post) = Some len /\ s = firstn len post.
Proof.
  induction a as [|c a IH]; intros skip b pos i s H.
  - destruct skip; simpl in H; [|contradiction].
    destruct (exec r (Cursor b [])) as [len|] eqn:E; [|contradiction].
    destruct H as [H|[]]. injection H as <- <-.
    exists [], [], len. simpl. rewrite Nat.add_0_r. auto.
  - assert (Hrec : forall k, In (i, s) (scan r k (c :: b) a (S pos)) ->
              exists pre post len,
                c :: a = pre ++ post /\ i = pos + length pre /\
                exec r (Cursor (rev pre ++ b) post) = Some len /\ s = firstn len post).
    { intros k Hk. apply IH in Hk as (pre & post & len & Ha & Hi & He & Hs).
      exists (c :: pre), post, len. simpl. rewrite <- app_assoc. simpl.
      subst a. repeat split; [lia | assumption | assumption]. }
    destruct skip; simpl in H; [|now apply Hrec in H].
    destruct (exec r (Cursor b (c :: a))) as [len|] eqn:E; [|now apply Hrec in H].
    destruct H as [H|H]; [|now apply Hrec in H].
    injection H as <- <-. exists [], (c :: a), len. simpl.
    rewrite Nat.add_0_r. auto.
Qed.

Lemma occurrences_sound (r : regex) (text : jsstring) (i : nat) (s : jsstring) :
  In (i, s) (occurrences r text) ->
  exists pre post len,
    text = pre ++ post /\ length pre = i /\
    exec r (Cursor (rev pre) post) = Some len /\ s = firstn len post.
Proof.
  intros H. apply scan_sound in H as (pre & post & len & Ht & Hi & He & Hs).
  rewrite app_nil_r in He. exists pre, post, len. auto.
Qed.

(** ** The ticket pattern *)

Lemma isUpper_word (c : jschar) : isUpper c = true -> isWordChar c = true.
Proof. unfold isWordChar. intros ->. reflexivity. Qed.

Lemma jiraPattern_inv (b a : list jschar) (y : cursor) :
  In y (rmatch jiraPattern (Cursor b a)) ->
  wordAt b = false /\
  exists s, a = s ++ after y /\ ticketShaped s /\ atSeparator (after y).
Proof.
  unfold jiraPattern. cbn [rmatch]. intros H.
  apply in_flat_map in H as (x0 & Hwb & H).
  apply in_flat_map in H as (x4 & Hgrp & Hlook).
  apply in_flat_map in Hgrp as (x1 & Hup & Hgrp).
  apply in_flat_map in Hgrp as (x2 & Hmid & Hgrp).
  apply in_flat_map in Hgrp as (x3 & Hhy & Hds).
  apply in_flat_map in Hds as (x3' & Hd1 & Hds).
  apply step_class_spec in Hup as (u & Hu1 & Hu2 & Hu3).
  apply star_run_spec in Hmid as (mid & Hm1 & Hm2 & Hm3).
  apply step_class_spec in Hhy as (h & Hh1 & Hh2 & Hh3).
  apply step_class_spec in Hd1 as (d & Hd1 & Hd2 & Hd3).
  apply star_run_spec in Hds as (ds & Hs1 & Hs2 & Hs3).
  apply N.eqb_eq in Hh3. subst h.
  (* the word boundary *)
  cbn [before after] in Hwb.
  destruct (xorb (wordAt b) (wordAt a)) eqn:Hx; [|contradiction].
  destruct Hwb as [<-|[]]. cbn [before after] in *.
  (* the lookahead *)
  assert (Hy : y = x4 /\ atSeparator (after x4)).
  { destruct (step_class isSeparator x4 ++
              match after x4 with [] => [x4] | _ :: _ => [] end) eqn:El;
      [contradiction|].
    destruct Hlook as [<-|[]]. split; [reflexivity|].
    destruct (after x4) as [|c0 r0] eqn:Ea; [now left|].
    right. exists c0, r0. split; [reflexivity|].
    unfold step_class in El. rewrite Ea in El.
    destruct (isSeparator c0); [reflexivity|discriminate]. }
  destruct Hy as [-> Hsep]. split.
  - subst a. simpl in Hx. rewrite (isUpper_word _ Hu3) in Hx.
    destruct (wordAt b); [discriminate|reflexivity].
  - exists (u :: mid ++ hyphen :: d :: ds). split; [|split; [|assumption]].
    + rewrite Hu1, Hm1, Hh1, Hd1, Hs1. simpl. rewrite <- app_assoc. reflexivity.
    + exists u, mid, (d :: ds). repeat split; try assumption; try discriminate.
      simpl. now rewrite Hd3, Hs3.
Qed.

Lemma jiraPattern_exec (b a : list jschar) (len : nat) :
  exec jiraPattern (Cursor b a) = Some len ->
  wordAt b = false /\ ticketShaped (firstn len a) /\ atSeparator (skipn len a).
Proof.
  unfold exec. destruct (rmatch jiraPattern (Cursor b a)) as [|y l] eqn:E;
    [discriminate|].
  intros H. injection H as <-.
  assert (Hy : In y (rmatch jiraPattern (Cursor b a))) by (rewrite E; now left).
  apply jiraPattern_inv in Hy as (Hb & s & Ha & Hs & Hsep).
  cbn [after]. remember (after y) as r eqn:Er. clear Er E. subst a.
  rewrite length_app, Nat.add_sub.
  rewrite firstn_app, Nat.sub_diag, firstn_all. simpl. rewrite app_nil_r.
  rewrite skipn_app, Nat.sub_diag, skipn_all. simpl. auto.
Qed.

(** Each occurrence of the ticket pattern is a ticket-shaped slice of the
    text that starts at a word boundary and is followed by a separator or
    by the end of the text. *)
Lemma jira_occurrence_spec (text : jsstring) (i : nat) (s : jsstring) :
  In (i, s) (occurrences jiraPattern text) ->
  exists pre rest,
    text = pre ++ s ++ rest /\ length pre = i /\
    wordAt (rev pre) = false /\ ticketShaped s /\ atSeparator rest.
Proof.
  intros H. apply occurrences_sound in H as (pre & post & len & Ht & Hi & He & Hs).
  apply jiraPattern_exec in He as (Hb & Hshape & Hsep).
  exists pre, (skipn len post). subst s.
  rewrite firstn_skipn. auto.
Qed.

Lemma extracted_occurs (text t : jsstring) :
  In t (extractJiraTickets text) ->
  exists i, In (i, t) (occurrences jiraPattern text).
Proof.
  unfold extractJiraTickets. intros H.
  destruct (proj1 (proj2 (Set_of_spec (matchAll jiraPattern text))) t) as [Hto _].
  apply Hto in H. clear Hto.
  unfold matchAll in H. apply in_map_iff in H as ([i s] & Hs & Hin).
  simpl in Hs. subst s. now exists i.
Qed.

Lemma app_same_length_prefix {A} (l1 l2 r1 r2 : list A) :
  l1 ++ r1 = l2 ++ r2 -> length l1 = length l2 -> l1 = l2.
Proof.
  revert l2. induction l1 as [|x l1 IH]; intros [|y l2] H Hl;
    simpl in *; try discriminate; [reflexivity|].
  injection H as -> H. f_equal. apply IH; [assumption | lia].
Qed.

(** C3: the extractor returns the distinct matches of the ticket pattern,
    each once, in the order of their first occurrence; on the sentence of the
    specification it returns the single ticket ABC-123. *)
Theorem extractJiraTickets_distinct_in_first_occurrence_order :
  (forall text : jsstring,
     NoDup (extractJiraTickets text) /\
     (forall t, In t (extractJiraTickets text) <-> In t (matchAll jiraPattern text)) /\
     StronglySorted lt
       (map (fun t => firstIndex t (matchAll jiraPattern text))
            (extractJiraTickets text))) /\
  matchAll jiraPattern (js "Fix ABC-123 and abc-999 for ABC-123/ui")
    = [js "ABC-123"; js "ABC-123"] /\
  extractJiraTickets (js "Fix ABC-123 and abc-999 for ABC-123/ui") = [js "ABC-123"].
Proof.
  split; [|split; vm_compute; reflexivity].
  intros text. unfold extractJiraTickets. apply Set_of_spec.
Qed.

(** C4: every ticket the extractor returns is a ticket-shaped slice of the
    text (uppercase letter, uppercase letters or digits, hyphen, digits)
    that is followed, outside the match, by underscore, hyphen, whitespace,
    slash or the end of the text.  ABC-123X gives no ticket; ABC-123-fix and
    ABC-123 give ABC-123. *)
Theorem extractJiraTickets_requires_separator :
  (forall text t : jsstring,
     In t (extractJiraTickets text) ->
     exists pre rest,
       text = pre ++ t ++ rest /\ ticketShaped t /\ atSeparator rest) /\
  extractJiraTickets (js "ABC-123X") = [] /\
  extractJiraTickets (js "ABC-123-fix") = [js "ABC-123"] /\
  extractJiraTickets (js "ABC-123") = [js "ABC-123"].
Proof.
  split; [|repeat split; vm_compute; reflexivity].
  intros text t H. apply extracted_occurs in H as (i & H).
  apply jira_occurrence_spec in H as (pre & rest & Ht & _ & _ & Hs & Hsep).
  exists pre, rest. auto.
Qed.

Lemma extractJiraTickets_requires_separator_witness :
  exists pre rest,
    js "ABC-123-fix" = pre ++ js "ABC-123" ++ rest /\
    ticketShaped (js "ABC-123") /\ atSeparator rest.
Proof.
  apply (proj1 extractJiraTickets_requires_separator (js "ABC-123-fix") (js "ABC-123")).
  vm_compute. left. reflexivity.
Defined.

(** C10: an occurrence of the ticket pattern starts at the beginning of the
    text or right after a code unit that is not a word character (ASCII
    letter, digit, underscore), so a ticket-shaped slice right after a word
    character is never reported at that place; every returned ticket comes
    from such an occurrence, and xABC-123, 9ABC-123 and _ABC-123 give no
    ticket. *)
Theorem extractJiraTickets_starts_at_word_boundary :
  (forall (text : jsstring) (i : nat) (s : jsstring),
     In (i, s) (occurrences jiraPattern text) ->
     exists pre rest,
       text = pre ++ s ++ rest /\ length pre = i /\
       (pre = [] \/ exists p c, pre = p ++ [c] /\ isWordChar c = false)) /\
  (forall (pre : jsstring) (c : jschar) (s rest : jsstring),
     isWordChar c = true ->
     ~ In (S (length pre), s) (occurrences jiraPattern (pre ++ c :: s ++ rest))) /\
  (forall text t : jsstring,
     In t (extractJiraTickets text) ->
     exists i, In (i, t) (occurrences jiraPattern text)) /\
  extractJiraTickets (js "xABC-123") = [] /\
  extractJiraTickets (js "9ABC-123") = [] /\
  extractJiraTickets (js "_ABC-123") = [] /\
  extractJiraTickets (js "x ABC-123") = [js "ABC-123"].
Proof.
  assert (Hocc : forall (text : jsstring) (i : nat) (s : jsstring),
            In (i, s) (occurrences jiraPattern text) ->
            exists pre rest,
              text = pre ++ s ++ rest /\ length pre = i /\
              (pre = [] \/ exists p c, pre = p ++ [c] /\ isWordChar c = false)).
  { intros text i s H.
    apply jira_occurrence_spec in H as (pre & rest & Ht & Hi & Hb & _ & _).
    exists pre, rest. repeat split; try assumption.
    destruct (rev pre) as [|c q] eqn:E.
    - left. apply (f_equal (@rev jschar)) in E. now rewrite rev_involutive in E.
    - right. exists (rev q), c. split; [|exact Hb].
      apply (f_equal (@rev jschar)) in E. now rewrite rev_involutive in E. }
  split; [exact Hocc|].
  split; [|split; [exact extracted_occurs | repeat split; vm_compute; reflexivity]].
  intros pre c s rest Hc H.
  apply Hocc in H as (pre' & rest' & Ht & Hi & Hb).
  assert (E : pre' = pre ++ [c]).
  { symmetry. apply (app_same_length_prefix _ _ (s ++ rest) (s ++ rest')).
    - rewrite <- Ht, <- app_assoc. reflexivity.
    - rewrite length_app. simpl. lia. }
  destruct Hb as [->|(p & c' & -> & Hc')].
  - destruct pre; discriminate.
  - apply app_inj_tail in E as [_ ->]. congruence.
Qed.

Lemma extractJiraTickets_starts_at_word_boundary_witness :
  exists pre rest,
    js "x ABC-123" = pre ++ js "ABC-123" ++ rest /\ length pre = 2 /\
    (pre = [] \/ exists p c, pre = p ++ [c] /\ isWordChar c = false).
Proof.
  apply (proj1 extractJiraTickets_starts_at_word_boundary (js "x ABC-123") 2 (js "ABC-123")).
  vm_compute. left. reflexivity.
Defined.

(** ** The title suffix *)

Lemma endsWith_spec (s t : jsstring) :
  endsWith s t = true <-> exists p, s = p ++ t.
Proof.
  unfold endsWith. split.
  - destruct (length t <=? length s) eqn:El; [|discriminate].
    intros H. apply jsstring_eqb_eq in H.
    exists (firstn (length s - length t) s).
    set (n := length s - length t) in *. rewrite <- H.
    symmetry. apply firstn_skipn.
  - intros (p & ->). rewrite length_app.
    replace (length t <=? length p + length t) with true
      by (symmetry; apply Nat.leb_le; lia).
    rewrite Nat.add_sub, skipn_app, Nat.sub_diag, skipn_all. simpl.
    apply jsstring_eqb_refl.
Qed.

(** C7: the signature is appended only to a title that does not already
    end with it, so suffixing twice equals suffixing once, and a title
    that ends with the signature (Fix bug followed by it) is left as it
    is. *)
Theorem finalTitle_idempotent :
  (forall title, finalTitle (finalTitle title) = finalTitle title) /\
  (forall p, finalTitle (p ++ aiSignature) = p ++ aiSignature) /\
  (forall title,
     finalTitle title
     = if endsWith title aiSignature then title else title ++ aiSignature) /\
  (forall title, endsWith title aiSignature = true <-> exists p, title = p ++ aiSignature) /\
  finalTitle (js "Fix bug" ++ aiSignature) = js "Fix bug" ++ aiSignature /\
  finalTitle (js "Fix bug") = js "Fix bug" ++ aiSignature.
Proof.
  assert (Happ : forall p, finalTitle (p ++ aiSignature) = p ++ aiSignature).
  { intros p. unfold finalTitle.
    replace (endsWith (p ++ aiSignature) aiSignature) with true; [reflexivity|].
    symmetry. apply endsWith_spec. now exists p. }
  split; [|split; [exact Happ | split; [reflexivity | split]]].
  - intros title. destruct (endsWith title aiSignature) eqn:E.
    + assert (finalTitle title = title) as ->
        by (unfold finalTitle; now rewrite E).
      unfold finalTitle. now rewrite E.
    + assert (finalTitle title = title ++ aiSignature) as ->
        by (unfold finalTitle; now rewrite E).
      apply Happ.
  - intros title. apply endsWith_spec.
  - split; vm_compute; reflexivity.
Qed.

(** ** The change-analysis counters *)






(** ** The ticket detail fetcher *)

(** C5: the fetcher always returns; when the fetch fails, whatever the
    reason, it returns success:false with the placeholder ticket, whose
    key is the requested id, whose status is Unknown and whose figmaLinks is
    empty. *)
Theorem get_jira_ticket_details_degrades :
  forall (world : Type) (env : backend world) (ticketId : jsstring) (w : world),
    let fetched := axios_get_issue env (jiraApiUrl ticketId) (authorization env) w in
    exists r,
      get_jira_ticket_details env ticketId w = (Returned r, snd fetched) /\
      success r = negb (fetchFailed (fst fetched)) /\
      (fetchFailed (fst fetched) = true ->
       result_ticket r = placeholderTicket ticketId /\
       key (result_ticket r) = Some ticketId /\
       status (result_ticket r) = Some (js "Unknown") /\
       figmaLinks (result_ticket r) = []).
Proof.
  intros world env ticketId w fetched. subst fetched.
  unfold get_jira_ticket_details, try_catch, bind.
  destruct (axios_get_issue env (jiraApiUrl ticketId) (authorization env) w)
    as [[[[k [f|]]|]|e] w1]; cbn -[js or_default placeholderTicket];
    try (eexists; split; [reflexivity|]; split; [reflexivity|];
         intros _; repeat split; reflexivity).
  destruct (f_status f) as [st|], (f_issuetype f) as [it|];
    cbn -[js or_default placeholderTicket];
    try (eexists; split; [reflexivity|]; split; [reflexivity|];
         intros _; repeat split; reflexivity).
  eexists. split; [reflexivity|]. split; [reflexivity|]. discriminate.
Qed.

Lemma get_jira_ticket_details_degrades_witness :
  exists r,
    get_jira_ticket_details tracker404 (js "ABC-123") tt = (Returned r, tt) /\
    success r = false /\
    key (result_ticket r) = Some (js "ABC-123") /\
    status (result_ticket r) = Some (js "Unknown") /\
    figmaLinks (result_ticket r) = [].
Proof.
  destruct (get_jira_ticket_details_degrades unit tracker404 (js "ABC-123") tt)
    as (r & Hrun & Hs & Hp).
  exists r. destruct (Hp eq_refl) as (_ & Hk & Hst & Hf). auto.
Defined.

(** ** Global matching: order, overlap, completeness *)

Lemma exec_length (r : regex) (x : cursor) (len : nat) :
  exec r x = Some len -> len <= length (after x).
Proof.
  unfold exec. destruct (rmatch r x); [discriminate|].
  intros H. injection H as <-. lia.
Qed.



(** No match is missed: a position where the pattern matches is reported,
    unless it lies inside a match reported before it (or in the stretch
    still to be stepped over). *)
Lemma scan_complete (r : regex) (a : list jschar) :
  forall skip b pos pre post len,
    a = pre ++ post ->
    exec r (Cursor (rev pre ++ b) post) = Some len ->
    length pre < skip \/
    In (pos + length pre, firstn len post) (scan r skip b a pos) \/
    exists j s, In (j, s) (scan r skip b a pos) /\
                j < pos + length pre < j + length s.
Proof.
  induction a as [|c a IH]; intros skip b pos pre post len Ha He.
  - destruct pre; [|discriminate]. destruct post; [|discriminate].
    simpl in *. destruct skip; [|left; lia].
    right. left. rewrite He, Nat.add_0_r. now left.
  - destruct pre as [|c' pre].
    + simpl in Ha, He. subst post. destruct skip; [|left; simpl; lia].
      right. left. simpl. rewrite He, Nat.add_0_r. now left.
    + simpl in Ha. injection Ha as <- Ha.
      simpl in He. rewrite <- app_assoc in He. simpl in He.
      replace (pos + length (c :: pre)) with (S pos + length pre)
        by (simpl; lia).
      destruct skip.
      * simpl. destruct (exec r (Cursor b (c :: a))) as [len0|] eqn:E0.
        -- destruct (IH (len0 - 1) (c :: b) (S pos) pre post len Ha He)
             as [H|[H|(j & s & H & Hj)]].
           ++ right. right. exists pos, (firstn len0 (c :: a)).
              split; [now left|].
              apply exec_length in E0. cbn [after] in E0.
              rewrite length_firstn. lia.
           ++ right. left. now right.
           ++ right. right. exists j, s. split; [now right | assumption].
        -- destruct (IH 0 (c :: b) (S pos) pre post len Ha He)
             as [H|[H|(j & s & H & Hj)]].
           ++ lia.
           ++ right. now left.
           ++ right. right. now exists j, s.
      * simpl scan.
        destruct (IH skip (c :: b) (S pos) pre post len Ha He)
          as [H|[H|(j & s & H & Hj)]].
        -- left. simpl. lia.
        -- right. now left.
        -- right. right. now exists j, s.
Qed.


(** ** Matches do not cross a space *)
















(** ** Design links of a fetched ticket *)

Lemma extractFigmaLinks_matchAll (text : jsstring) :
  extractFigmaLinks text = matchAll figmaRegex text.
Proof. destruct text; reflexivity. Qed.




(** ** The narrative generator: a trace of the generation calls *)

Section TracingLemmas.
Context {world : Type} (env : backend world).

Lemma erases_ret {A} (a : A) : erases (ret a) (ret a : M world A).
Proof. intros w l. split; reflexivity. Qed.

Lemma erases_throw {A} (e : js_error) : erases (throw e) (throw e : M world A).
Proof. intros w l. split; reflexivity. Qed.

Lemma erases_require {A} (x : option A) : erases (require x) (require x : M world A).
Proof. destruct x; [apply erases_ret | apply erases_throw]. Qed.

Lemma erases_lift {A} (c : M world A) : erases (lift c) c.
Proof. intros w l. unfold lift. simpl. destruct (c w). split; reflexivity. Qed.

Lemma erases_llm (p : prompt) : erases (llm_invoke (traced env) p) (llm_invoke env p).
Proof.
  intros w l. simpl. destruct (llm_invoke env p w) as [[r|e] w1]; split; reflexivity.
Qed.

Lemma erases_bind {A B} (c' : M (world * list llm_event) A) (c : M world A)
  (k' : A -> M (world * list llm_event) B) (k : A -> M world B) :
  erases c' c -> (forall a, erases (k' a) (k a)) -> erases (bind c' k') (bind c k).
Proof.
  intros Hc Hk w l. unfold bind. destruct (Hc w l) as [H1 H2].
  destruct (c' (w, l)) as [o' [w1' l1]], (c w) as [o w1]. simpl in H1, H2. subst.
  destruct o as [a|e]; [apply Hk | split; reflexivity].
Qed.

Lemma erases_try_catch {A} (c' : M (world * list llm_event) A) (c : M world A)
  (h' : js_error -> M (world * list llm_event) A)
  (h : js_error -> M world A) :
  erases c' c -> (forall e, erases (h' e) (h e)) -> erases (try_catch c' h') (try_catch c h).
Proof.
  intros Hc Hh w l. unfold try_catch. destruct (Hc w l) as [H1 H2].
  destruct (c' (w, l)) as [o' [w1' l1]], (c w) as [o w1]. simpl in H1, H2. subst.
  destruct o as [a|e]; [split; reflexivity | apply Hh].
Qed.

Lemma quiet_ret {A} (a : A) : quiet (ret a : M (world * list llm_event) A).
Proof. intros w l. reflexivity. Qed.

Lemma quiet_throw {A} (e : js_error) : quiet (throw e : M (world * list llm_event) A).
Proof. intros w l. reflexivity. Qed.

Lemma quiet_require {A} (x : option A) : quiet (require x : M (world * list llm_event) A).
Proof. destruct x; [apply quiet_ret | apply quiet_throw]. Qed.

Lemma quiet_lift {A} (c : M world A) : quiet (lift c).
Proof. intros w l. unfold lift. simpl. now destruct (c w). Qed.

Lemma quiet_bind {A B} (c' : M (world * list llm_event) A) (k' : A -> M (world * list llm_event) B) :
  quiet c' -> (forall a, quiet (k' a)) -> quiet (bind c' k').
Proof.
  intros Hc Hk w l. unfold bind. specialize (Hc w l).
  destruct (c' (w, l)) as [[a|e] [w1 l1]]; simpl in Hc; subst;
    [apply Hk | reflexivity].
Qed.

Lemma quiet_try_catch {A} (c' : M (world * list llm_event) A) (h' : js_error -> M (world * list llm_event) A) :
  quiet c' -> (forall e, quiet (h' e)) -> quiet (try_catch c' h').
Proof.
  intros Hc Hh w l. unfold try_catch. specialize (Hc w l).
  destruct (c' (w, l)) as [[a|e] [w1 l1]]; simpl in Hc; subst;
    [reflexivity | apply Hh].
Qed.

End TracingLemmas.

Ltac erase_step :=
  first [ apply erases_ret | apply erases_throw | apply erases_require
        | apply erases_lift | apply erases_llm
        | apply erases_bind; [|intros ?]
        | apply erases_try_catch; [|intros ?]
        | match goal with
          | |- erases (match ?x with _ => _ end) _ => destruct x
          end ].

Ltac quiet_step :=
  first [ apply quiet_ret | apply quiet_throw | apply quiet_require
        | apply quiet_lift
        | apply quiet_bind; [|intros ?]
        | apply quiet_try_catch; [|intros ?]
        | match goal with
          | |- quiet (match ?x with _ => _ end) => destruct x
          end ].

Section TracedPipeline.
Context {world : Type} (env : backend world).

Lemma erases_get_jira_ticket_details (ticketId : jsstring) :
  erases (get_jira_ticket_details (traced env) ticketId)
         (get_jira_ticket_details env ticketId).
Proof. unfold get_jira_ticket_details. repeat erase_step. Qed.

Lemma quiet_get_jira_ticket_details (ticketId : jsstring) :
  quiet (get_jira_ticket_details (traced env) ticketId).
Proof. unfold get_jira_ticket_details. repeat quiet_step. Qed.

Lemma erases_fetchJiraContext (jiraTickets : list jsstring) :
  erases (fetchJiraContext (traced env) jiraTickets)
         (fetchJiraContext env jiraTickets).
Proof.
  unfold fetchJiraContext, formatTicketDetails. destruct jiraTickets.
  - apply erases_ret.
  - repeat first [ apply erases_get_jira_ticket_details | erase_step ].
Qed.

Lemma quiet_fetchJiraContext (jiraTickets : list jsstring) :
  quiet (fetchJiraContext (traced env) jiraTickets).
Proof.
  unfold fetchJiraContext, formatTicketDetails. destruct jiraTickets.
  - apply quiet_ret.
  - repeat first [ apply quiet_get_jira_ticket_details | quiet_step ].
Qed.

Lemma erases_generateDetailedSummary filesChanged stats head base jiraTickets customBody :
  erases
    (generateDetailedSummary (traced env) filesChanged stats head base jiraTickets customBody)
    (generateDetailedSummary env filesChanged stats head base jiraTickets customBody).
Proof.
  unfold generateDetailedSummary.
  repeat first [ apply erases_fetchJiraContext | erase_step ].
Qed.
End TracedPipeline.

Ltac llm_call :=
  match goal with
  | |- context [llm_invoke ?env ?p ?w] =>
      destruct (llm_invoke env p w) as [[[?|]|?] ?];
      cbn -[js promptContext fallbackNarrative]
  end.

Section NarrativeTrace.
Context {world : Type} (env : backend world).

Lemma generateDetailedSummary_trace filesChanged stats head base jiraTickets
  customBody w out w' log :
  generateDetailedSummary (traced env) filesChanged stats head base jiraTickets
    customBody (w, []) = (out, (w', log)) ->
  exists b,
    out = Returned b /\
    ((exists e, In (LlmThrew e) log) ->
     b = fallbackNarrative filesChanged stats head base) /\
    (b = fallbackNarrative filesChanged stats head base \/
     exists d k m,
       log = [LlmReturned (Some d); LlmReturned (Some k); LlmReturned (Some m)] /\
       b = Narrative (content d) (content k) (content m)).
Proof.
  unfold generateDetailedSummary, try_catch, bind.
  cbn [getLLMClient traced]. unfold lift at 1. cbn [fst snd].
  destruct (getLLMClient env w) as [[u|e] w1].
  2:{ cbn. intros H. injection H as <- <- <-. eexists. split; [reflexivity|].
      split; [intros (e0 & []) | now left]. }
  pose proof (quiet_fetchJiraContext env jiraTickets w1 []) as Hq.
  destruct (fetchJiraContext (traced env) jiraTickets (w1, [])) as [[j|e] [w2 l2]].
  2:{ cbn in *. subst l2. intros H. injection H as <- <- <-. eexists.
      split; [reflexivity|]. split; [intros (e0 & []) | now left]. }
  cbn [snd] in Hq. subst l2.
  cbn [llm_invoke traced fst snd].
  repeat llm_call;
    intros H; injection H as <- <- <-; eexists; (split; [reflexivity|]);
    first [ split; [intros _; reflexivity | now left]
          | split; [intros (e0 & [H|[H|[H|[]]]]); discriminate | right; eauto] ].
Qed.
End NarrativeTrace.

Lemma fallbackNarrative_inputs (files1 files2 : list file_change)
  (stats1 stats2 : diff_stats) (head base : jsstring) :
  length files1 = length files2 ->
  stat_additions stats1 = stat_additions stats2 ->
  stat_deletions stats1 = stat_deletions stats2 ->
  fallbackNarrative files1 stats1 head base = fallbackNarrative files2 stats2 head base.
Proof. unfold fallbackNarrative. now intros -> -> ->. Qed.

(** C1 (as amended): the generator always returns a bundle.  When any of
    the three generation calls throws, the bundle is the templated fallback,
    which is built from the two branch names and the three counts (number of
    files, additions, deletions) and from nothing else.  The bundle is either
    that fallback or the three generated fragments, never a mix.  The trace
    is read off the backend wrapped by [traced], which runs as the plain
    backend does. *)
Theorem generateDetailedSummary_all_or_nothing :
  (forall (world : Type) (env : backend world) (filesChanged : list file_change)
          (stats : diff_stats) (head base : jsstring) (jiraTickets : list jsstring)
          (customBody : jsstring) (w : world) (out : outcome narrative) (w' : world)
          (log : list llm_event),
     generateDetailedSummary (traced env) filesChanged stats head base jiraTickets
       customBody (w, []) = (out, (w', log)) ->
     generateDetailedSummary env filesChanged stats head base jiraTickets customBody w
     = (out, w') /\
     exists b,
       out = Returned b /\
       ((exists e, In (LlmThrew e) log) ->
        b = fallbackNarrative filesChanged stats head base) /\
       (b = fallbackNarrative filesChanged stats head base \/
        exists d k m,
          log = [LlmReturned (Some d); LlmReturned (Some k); LlmReturned (Some m)] /\
          b = Narrative (content d) (content k) (content m))) /\
  (forall (files1 files2 : list file_change) (stats1 stats2 : diff_stats)
          (head base : jsstring),
     length files1 = length files2 ->
     stat_additions stats1 = stat_additions stats2 ->
     stat_deletions stats1 = stat_deletions stats2 ->
     fallbackNarrative files1 stats1 head base
     = fallbackNarrative files2 stats2 head base).
Proof.
  split; [|exact fallbackNarrative_inputs].
  intros world env filesChanged stats head base jiraTickets customBody w out w' log H.
  split.
  - destruct (erases_generateDetailedSummary env filesChanged stats head base
                jiraTickets customBody w []) as [H1 H2].
    rewrite H in H1, H2. simpl in H1, H2. subst.
    now destruct (generateDetailedSummary env filesChanged stats head base
                    jiraTickets customBody w).
  - now apply generateDetailedSummary_trace in H.
Qed.

Lemma generateDetailedSummary_all_or_nothing_witness :
  generateDetailedSummary flakyLLM [] (DiffStats 40 5 45) (js "ABC-1-fix") (js "main")
    [] [] 0
  = (Returned (fallbackNarrative [] (DiffStats 40 5 45) (js "ABC-1-fix") (js "main")), 2).
Proof.
  apply (proj1 generateDetailedSummary_all_or_nothing nat flakyLLM []
           (DiffStats 40 5 45) (js "ABC-1-fix") (js "main") [] [] 0
           (Returned (fallbackNarrative [] (DiffStats 40 5 45) (js "ABC-1-fix") (js "main")))
           2
           [ LlmReturned (Some (LlmResponse (Some (js "Generated text."))));
             LlmThrew (JsError (js "429 Too Many Requests")) ]).
  vm_compute. reflexivity.
Defined.

(** C1 as stated fails: with the same counts (no file, no addition, no
    deletion) and a failing backend, two head branches give two different
    fallback bundles, so the fallback is not built from the counts alone. *)
Lemma fallback_depends_on_branch_names :
  fst (generateDetailedSummary tracker404 [] (DiffStats 0 0 0)
         (js "feature-a") (js "main") [] [] tt)
  <> fst (generateDetailedSummary tracker404 [] (DiffStats 0 0 0)
            (js "feature-b") (js "main") [] [] tt).
Proof. vm_compute. discriminate. Qed.

(** ** The composer *)

Section Composer.
Context {world : Type} (env : backend world).

Lemma composeDescription_total owner repo head base token body w :
  exists c w', composeDescription env owner repo head base token body w = (Returned c, w').
Proof.
  unfold composeDescription, try_catch.
  match goal with
  | |- context [match ?run with _ => _ end] => destruct run as [[c|e] w1]
  end; do 2 eexists; reflexivity.
Qed.

Lemma composeDescription_enhanced owner repo head base token body w s w' :
  composeDescription env owner repo head base token body w = (Returned (Enhanced s), w') ->
  exists cd w1 w2 summaryText,
    axios_get_compare env (compareUrl owner repo head base) token w
    = (Returned (Some cd), w1) /\
    generateDetailedSummary env
      (match files cd with Some l => l | None => [] end)
      (match stats cd with Some st => st | None => DiffStats 0 0 0 end)
      head base (extractJiraTickets head) body w1
    = (Returned (s_narrative s), w2) /\
    detailedSummary (s_narrative s) = Some summaryText /\
    s_allJiraTickets s
    = Set_of (extractJiraTickets summaryText ++ extractJiraTickets head) /\
    s_jiraSection s = jiraSectionOf (s_allJiraTickets s) /\
    s_changeAnalysis s
    = changeAnalysisOf (match files cd with Some l => l | None => [] end).
Proof.
  unfold composeDescription, try_catch, bind.
  destruct (axios_get_compare env (compareUrl owner repo head base) token w)
    as [[[cd|]|e] w1]; cbn -[js extractJiraTickets Set_of changeAnalysisOf jiraSectionOf];
    try discriminate.
  match goal with
  | |- context [generateDetailedSummary ?e ?f ?st ?h ?b ?t ?bd ?w] =>
      destruct (generateDetailedSummary e f st h b t bd w) as [[bundle|e0] w2] eqn:Egen
  end; try discriminate.
  destruct (detailedSummary bundle) as [summaryText|] eqn:Esum;
    cbn -[js extractJiraTickets Set_of changeAnalysisOf jiraSectionOf];
    try discriminate.
  match goal with
  | |- (let (_, _) := let (_, _) := ?run in _ in _) = _ -> _ =>
      destruct run as [[fs|e1] w3]
  end; cbn -[js extractJiraTickets Set_of changeAnalysisOf jiraSectionOf];
    try discriminate.
  intros H. injection H as <- <-. cbn [s_narrative s_allJiraTickets s_jiraSection s_changeAnalysis].
  exists cd, w1, w2, summaryText. auto 10.
Qed.

Lemma analyzeCodeDiff_renders owner repo head base token body w c w' :
  composeDescription env owner repo head base token body w = (Returned c, w') ->
  analyzeCodeDiff env owner repo head base token body w = (Returned (render c), w').
Proof. unfold analyzeCodeDiff, bind. now intros ->. Qed.
End Composer.

(** Where the two sections sit in the rendered description. *)
Lemma render_sections (c : composed) :
  exists pre mid post,
    render c
    = pre ++ js "## Jira Ticket: " ++ NL ++ jiraSectionText c ++ NL
        ++ mid ++ js "## Change Analysis:" ++ NL ++ changeAnalysisBlock c ++ NL ++ post.
Proof.
  destruct c as [s|head base].
  - exists (join NL [ titleHint; []; js "## Description:";
                      show (detailedSummary (s_narrative s)); [];
                      js "   ### Key Changes:";
                      js "   " ++ show (keyChanges (s_narrative s)); [];
                      js "## Motivation and Context:";
                      show (motivationContext (s_narrative s)); [] ] ++ NL),
           (join NL ([ [] ] ++ match s_figmaSection s with
                               | [] => []
                               | _ :: _ => [ js "## Figma Links:"; s_figmaSection s; [] ]
                               end ++ screenshots ++ [ [] ]) ++ NL),
           (join NL ([ [] ] ++ footer)).
    unfold render, jiraSectionText, changeAnalysisBlock.
    destruct (s_figmaSection s) as [|x fs] eqn:E; cbv beta iota;
      rewrite <- ?E; cbn [join app screenshots footer];
      repeat rewrite <- app_assoc; reflexivity.
  - exists (join NL [ titleHint; []; js "## Description:";
                      js "This PR introduces changes from `" ++ head ++ js "` to `"
                        ++ base ++ js "` branch.";
                      [];
                      js "*Note: Unable to analyze code diff automatically. Please review the changes manually.*";
                      [];
                      js "   ### Key Changes:";
                      js "   " ++ bullet ++ js " Modified files with additions and deletions";
                      [];
                      js "## Motivation and Context:";
                      js "This change addresses the requirements specified in the JIRA ticket(s) mentioned below. The modifications improve system functionality and user experience.";
                      [] ] ++ NL),
           (join NL ([ [] ] ++ screenshots ++ [ [] ]) ++ NL),
           (join NL ([ []; [] ] ++ footer)).
    unfold render, jiraSectionText, changeAnalysisBlock.
    cbn [join app screenshots footer zeroAnalysis jiraSectionOf];
      repeat rewrite <- app_assoc; reflexivity.
Qed.

(** C2: in the description that analyzeCodeDiff returns, the JIRA section
    lists the tickets of [jiraSectionTickets], and each of them was
    extracted from the generated summary text or from the head branch
    name. *)
Theorem jira_section_tickets_from_summary_or_branch :
  forall (world : Type) (env : backend world)
         (owner repo head base token body : jsstring) (w : world),
  exists c w',
    composeDescription env owner repo head base token body w = (Returned c, w') /\
    analyzeCodeDiff env owner repo head base token body w = (Returned (render c), w') /\
    (exists pre post,
       render c = pre ++ js "## Jira Ticket: " ++ NL
                    ++ jiraSectionOf (jiraSectionTickets c) ++ NL ++ post) /\
    (forall t, In t (jiraSectionTickets c) ->
       exists s summaryText,
         c = Enhanced s /\ detailedSummary (s_narrative s) = Some summaryText /\
         (In t (extractJiraTickets summaryText) \/ In t (extractJiraTickets head))).
Proof.
  intros world env owner repo head base token body w.
  destruct (composeDescription_total env owner repo head base token body w)
    as (c & w' & Hrun).
  exists c, w'. split; [exact Hrun|]. split; [now apply analyzeCodeDiff_renders|].
  destruct (render_sections c) as (pre & mid & post & Hr).
  destruct c as [s|h b].
  - apply composeDescription_enhanced in Hrun
      as (cd & w1 & w2 & summaryText & _ & _ & Hsum & Hall & Hsec & _).
    split.
    + exists pre. eexists. rewrite Hr. cbn [jiraSectionText jiraSectionTickets].
      rewrite Hsec. reflexivity.
    + intros t Ht. exists s, summaryText. split; [reflexivity|]. split; [assumption|].
      cbn [jiraSectionTickets] in Ht. rewrite Hall in Ht.
      destruct (proj1 (proj2 (Set_of_spec
                  (extractJiraTickets summaryText ++ extractJiraTickets head))) t)
        as [Hto _].
      apply Hto, in_app_iff in Ht. exact Ht.
  - split.
    + exists pre. eexists. rewrite Hr. reflexivity.
    + intros t [].
Qed.

Lemma jira_section_tickets_from_summary_or_branch_witness :
  exists c,
    composeDescription (scenarioBackend (Some scenarioFiles)) (js "acme") (js "shop")
      (js "TICKET-12345-feature") (js "develop") (js "token") [] tt = (Returned c, tt) /\
    jiraSectionTickets c = [js "SHOP-7"; js "TICKET-12345"] /\
    forall t, In t (jiraSectionTickets c) ->
      exists s summaryText,
        c = Enhanced s /\ detailedSummary (s_narrative s) = Some summaryText /\
        (In t (extractJiraTickets summaryText)
         \/ In t (extractJiraTickets (js "TICKET-12345-feature"))).
Proof.
  destruct (jira_section_tickets_from_summary_or_branch unit
              (scenarioBackend (Some scenarioFiles)) (js "acme") (js "shop")
              (js "TICKET-12345-feature") (js "develop") (js "token") [] tt)
    as (c & [] & Hrun & _ & _ & Hin).
  exists c. split; [exact Hrun|]. split; [|exact Hin].
  vm_compute in Hrun. injection Hrun as <-. vm_compute. reflexivity.
Defined.

(** ** The change-analysis block of an empty change-set *)

(** C6: for a change-set without files the block is the four counter
    lines, each reporting 0, and nothing else: no File Type Analysis follows
    (it does for a change-set with files).  This is the block of the
    description composed when the compare call returns no files. *)
Theorem empty_changeset_zero_counts_no_histogram :
  changeAnalysisOf []
  = join NL [ js "- **New Files Added:** 0";
              js "- **Files Modified:** 0";
              js "- **Files Deleted:** 0";
              js "- **Total Files Changed:** 0" ] /\
  includes (js "File Type Analysis") (changeAnalysisOf []) = false /\
  includes (js "File Type Analysis") (changeAnalysisOf scenarioFiles) = true /\
  (forall (world : Type) (env : backend world)
          (owner repo head base token body : jsstring) (w w1 : world)
          (cd : compare_data),
     axios_get_compare env (compareUrl owner repo head base) token w
     = (Returned (Some cd), w1) ->
     files cd = Some [] \/ files cd = None ->
     exists c w',
       composeDescription env owner repo head base token body w = (Returned c, w') /\
       analyzeCodeDiff env owner repo head base token body w = (Returned (render c), w') /\
       changeAnalysisBlock c = changeAnalysisOf [] /\
       exists pre post,
         render c = pre ++ js "## Change Analysis:" ++ NL ++ changeAnalysisOf [] ++ NL ++ post).
Proof.
  split; [reflexivity|]. split; [vm_compute; reflexivity|].
  split; [vm_compute; reflexivity|].
  intros world env owner repo head base token body w w1 cd Hcmp Hfiles.
  destruct (composeDescription_total env owner repo head base token body w)
    as (c & w' & Hrun).
  exists c, w'. split; [exact Hrun|]. split; [now apply analyzeCodeDiff_renders|].
  assert (Hblock : changeAnalysisBlock c = changeAnalysisOf []).
  { destruct c as [s|h b]; [|reflexivity].
    apply composeDescription_enhanced in Hrun
      as (cd' & w1' & w2 & summaryText & Hcmp' & _ & _ & _ & _ & Hca).
    rewrite Hcmp in Hcmp'. injection Hcmp' as <- _.
    cbn [changeAnalysisBlock]. rewrite Hca.
    destruct Hfiles as [-> | ->]; reflexivity. }
  split; [exact Hblock|].
  destruct (render_sections c) as (pre & mid & post & Hr).
  rewrite Hblock in Hr. eexists. exists post. rewrite Hr.
  repeat rewrite app_assoc. reflexivity.
Qed.

Lemma empty_changeset_zero_counts_no_histogram_witness :
  exists c,
    composeDescription (scenarioBackend (Some [])) (js "acme") (js "shop")
      (js "TICKET-12345-feature") (js "develop") (js "token") [] tt = (Returned c, tt) /\
    changeAnalysisBlock c
    = join NL [ js "- **New Files Added:** 0";
                js "- **Files Modified:** 0";
                js "- **Files Deleted:** 0";
                js "- **Total Files Changed:** 0" ].
Proof.
  destruct (proj2 (proj2 (proj2 empty_changeset_zero_counts_no_histogram)) unit
              (scenarioBackend (Some [])) (js "acme") (js "shop")
              (js "TICKET-12345-feature") (js "develop") (js "token") [] tt tt
              (CompareData (Some []) (Some (DiffStats 40 5 45))) eq_refl
              (or_introl eq_refl))
    as (c & [] & Hrun & _ & Hblock & _).
  exists c. split; [exact Hrun | exact Hblock].
Defined.

(** ** The counters of a change-set with renamed files *)

(** The four counter lines, as they are printed. *)
Lemma counterLines_text (added modified removed total : nat) :
  counterLines added modified removed total
  = js "- **New Files Added:** " ++ of_nat added ++ NL
    ++ js "- **Files Modified:** " ++ of_nat modified ++ NL
    ++ js "- **Files Deleted:** " ++ of_nat removed ++ NL
    ++ js "- **Total Files Changed:** " ++ of_nat total.
Proof.
  unfold counterLines. cbn [join]. repeat rewrite <- app_assoc. reflexivity.
Qed.

(** Every block starts with the four counter lines. *)
Lemma changeAnalysisOf_counters (filesChanged : list file_change) :
  exists histogram,
    changeAnalysisOf filesChanged
    = js "- **New Files Added:** " ++ of_nat (length (newFiles filesChanged)) ++ NL
      ++ js "- **Files Modified:** " ++ of_nat (length (modifiedFiles filesChanged)) ++ NL
      ++ js "- **Files Deleted:** " ++ of_nat (length (deletedFiles filesChanged)) ++ NL
      ++ js "- **Total Files Changed:** " ++ of_nat (length filesChanged)
      ++ histogram.
Proof.
  unfold changeAnalysisOf. rewrite counterLines_text.
  destruct (fileTypesOf filesChanged).
  - exists []. now rewrite app_nil_r.
  - eexists. repeat rewrite <- app_assoc. reflexivity.
Qed.



(** * Further properties *)

(** ** The ticket pattern finds every ticket *)

(** A greedy run takes everything up to the first code unit outside the
    class. *)
Lemma star_run_full (p : jschar -> bool) (run rest : list jschar) :
  forallb p run = true ->
  (rest = [] \/ exists c r, rest = c :: r /\ p c = false) ->
  forall b, exists tl,
    star_run p b (run ++ rest) = Cursor (rev run ++ b) rest :: tl.
Proof.
  intros Hrun Hrest. induction run as [|x run IH]; intros b.
  - simpl. destruct Hrest as [->|(c & r & -> & Hc)].
    + now exists [].
    + simpl. rewrite Hc. now exists [].
  - simpl in Hrun. apply andb_prop in Hrun as [Hx Hrun].
    simpl. rewrite Hx. destruct (IH Hrun (x :: b)) as (tl & E).
    rewrite E. rewrite <- app_assoc. simpl. eexists. reflexivity.
Qed.

Lemma isSeparator_not_digit (c : jschar) :
  isSeparator c = true -> isDigit c = false.
Proof.
  intros H. destruct (isDigit c) eqn:E; [|reflexivity].
  unfold isDigit, in_range in E. apply andb_prop in E as [E1 E2].
  apply N.leb_le in E1, E2.
  unfold isSeparator, isSpace, in_range in H.
  repeat (apply orb_prop in H as [H|H]);
    try (apply N.eqb_eq in H; lia);
    try (apply andb_prop in H as [H1 H2]; apply N.leb_le in H1, H2; lia).
Qed.

Lemma atSeparator_stops_digits (rest : jsstring) :
  atSeparator rest -> rest = [] \/ exists c r, rest = c :: r /\ isDigit c = false.
Proof.
  intros [->|(c & r & -> & Hc)]; [now left|].
  right. exists c, r. split; [reflexivity | now apply isSeparator_not_digit].
Qed.

Lemma atSeparator_lookahead (b rest : list jschar) :
  atSeparator rest ->
  rmatch (Lookahead (Alt (Class isSeparator) EndOfInput)) (Cursor b rest)
  = [Cursor b rest].
Proof.
  intros [->|(c & r & -> & Hc)]; cbn [rmatch step_class after before].
  - reflexivity.
  - now rewrite Hc.
Qed.

Lemma firstMatch_seq (r1 r2 : regex) (x y z : cursor) :
  firstMatch r1 x y -> firstMatch r2 y z -> firstMatch (Seq r1 r2) x z.
Proof.
  intros (l1 & E1) (l2 & E2). unfold firstMatch. cbn [rmatch].
  rewrite E1. simpl. rewrite E2. simpl. eexists. reflexivity.
Qed.

Lemma firstMatch_class (p : jschar -> bool) (b a : list jschar) (c : jschar) :
  p c = true -> firstMatch (Class p) (Cursor b (c :: a)) (Cursor (c :: b) a).
Proof. intros Hc. exists []. cbn [rmatch step_class after before]. now rewrite Hc. Qed.

Lemma firstMatch_lit (b a : list jschar) (c : jschar) :
  firstMatch (Lit c) (Cursor b (c :: a)) (Cursor (c :: b) a).
Proof.
  exists []. cbn [rmatch step_class after before]. now rewrite N.eqb_refl.
Qed.

Lemma firstMatch_star (p : jschar -> bool) (b run rest : list jschar) :
  forallb p run = true ->
  (rest = [] \/ exists c r, rest = c :: r /\ p c = false) ->
  firstMatch (Star p) (Cursor b (run ++ rest)) (Cursor (rev run ++ b) rest).
Proof.
  intros Hrun Hrest. unfold firstMatch. cbn [rmatch after before].
  now apply star_run_full.
Qed.

Lemma firstMatch_plus (p : jschar -> bool) (b run rest : list jschar) (c : jschar) :
  p c = true -> forallb p run = true ->
  (rest = [] \/ exists c' r, rest = c' :: r /\ p c' = false) ->
  firstMatch (Plus p) (Cursor b (c :: run ++ rest)) (Cursor (rev run ++ c :: b) rest).
Proof.
  intros Hc Hrun Hrest. unfold firstMatch. cbn [rmatch step_class after before].
  rewrite Hc. cbn [flat_map after before]. rewrite app_nil_r.
  now apply star_run_full.
Qed.

Lemma firstMatch_group (r : regex) (x y : cursor) :
  firstMatch r x y -> firstMatch (Group r) x y.
Proof. exact (fun H => H). Qed.

Lemma firstMatch_exec (r : regex) (x y : cursor) :
  firstMatch r x y -> exec r x = Some (length (after x) - length (after y)).
Proof. intros (l & E). unfold exec. now rewrite E. Qed.

(** At a word boundary, in front of a ticket-shaped slice that a separator
    or the end of the text follows, the pattern matches exactly the slice. *)
Lemma jiraPattern_exec_complete (b t rest : list jschar) :
  wordAt b = false -> ticketShaped t -> atSeparator rest ->
  exec jiraPattern (Cursor b (t ++ rest)) = Some (length t).
Proof.
  intros Hb (u & mid & ds & -> & Hu & Hmid & Hds & Hdig) Hsep.
  destruct ds as [|d ds]; [contradiction|]. clear Hds.
  simpl in Hdig. apply andb_prop in Hdig as [Hd Hdig].
  assert (H : firstMatch jiraPattern
                (Cursor b ((u :: mid ++ hyphen :: d :: ds) ++ rest))
                (Cursor (rev ds ++ d :: hyphen :: rev mid ++ u :: b) rest)).
  { unfold jiraPattern. simpl app. rewrite <- app_assoc. simpl app.
    eapply firstMatch_seq.
    { exists []. cbn [rmatch after before wordAt]. rewrite Hb.
      now rewrite (isUpper_word u Hu). }
    eapply firstMatch_seq.
    - apply firstMatch_group.
      eapply firstMatch_seq; [now apply firstMatch_class|].
      eapply firstMatch_seq.
      + apply firstMatch_star; [exact Hmid|].
        right. exists hyphen, (d :: ds ++ rest). split; reflexivity.
      + eapply firstMatch_seq; [apply firstMatch_lit|].
        apply firstMatch_plus; [exact Hd | exact Hdig |].
        now apply atSeparator_stops_digits.
    - exists []. now apply atSeparator_lookahead. }
  apply firstMatch_exec in H. rewrite H. cbn [after]. f_equal.
  rewrite length_app. lia.
Qed.

Lemma endsOutsideWord_wordAt (pre : jsstring) :
  endsOutsideWord pre <-> wordAt (rev pre) = false.
Proof.
  split.
  - intros [->|(p & c & -> & Hc)]; [reflexivity|].
    rewrite rev_app_distr. exact Hc.
  - intros H. destruct (rev pre) as [|c q] eqn:E.
    + left. apply (f_equal (@rev jschar)) in E. now rewrite rev_involutive in E.
    + right. exists (rev q), c. split; [|exact H].
      apply (f_equal (@rev jschar)) in E. now rewrite rev_involutive in E.
Qed.

Lemma isUpper_not_digit (c : jschar) : isUpper c = true -> isDigit c = false.
Proof.
  unfold isUpper, isDigit, in_range. intros H.
  apply andb_prop in H as [H1 H2]. apply N.leb_le in H1, H2.
  apply andb_false_iff. right. apply N.leb_gt. lia.
Qed.

Lemma isDigit_word (c : jschar) : isDigit c = true -> isWordChar c = true.
Proof. unfold isWordChar. intros ->. now rewrite !orb_true_r. Qed.

Lemma isUpperOrDigit_word (c : jschar) : isUpperOrDigit c = true -> isWordChar c = true.
Proof.
  unfold isUpperOrDigit. intros H. apply orb_prop in H as [H|H];
    [now apply isUpper_word | now apply isDigit_word].
Qed.

(** Inside a ticket the only place that follows a code unit outside a word
    is the first digit. *)
Lemma ticket_inner_boundary (p s2 : jsstring) (x c : jschar) :
  ticketShaped (p ++ x :: c :: s2) -> isWordChar x = false -> isDigit c = true.
Proof.
  intros (u & mid & ds & E & Hu & Hmid & _ & Hdig) Hx.
  change (u :: mid ++ hyphen :: ds) with ((u :: mid) ++ hyphen :: ds) in E.
  assert (Hw : forall y, In y (u :: mid) -> isWordChar y = true).
  { intros y [<-|Hy]; [now apply isUpper_word|].
    apply isUpperOrDigit_word. rewrite forallb_forall in Hmid. now apply Hmid. }
  rewrite forallb_forall in Hdig.
  symmetry in E. apply app_eq_app in E as (l & [[E1 E2]|[E1 E2]]).
  - destruct l as [|x' l]; simpl in E2; injection E2 as Ex E2.
    + apply Hdig. rewrite <- E2. now left.
    + rewrite Hw in Hx; [discriminate|]. rewrite E1, Ex.
      apply in_or_app. right. now left.
  - destruct l as [|h l]; simpl in E2; injection E2 as Ex E2.
    + apply Hdig. rewrite E2. now left.
    + rewrite (isDigit_word x) in Hx; [discriminate|].
      apply Hdig. rewrite E2. apply in_or_app. right. now left.
Qed.

(** No ticket starts inside a reported match. *)
Lemma jira_not_inside (pre t rest : jsstring) (j : nat) (s : jsstring) :
  ticketShaped t -> wordAt (rev pre) = false ->
  In (j, s) (occurrences jiraPattern (pre ++ t ++ rest)) ->
  ~ (j < length pre < j + length s).
Proof.
  intros (u & mid & ds & -> & Hu & _) Hb Hin [Hlo Hhi].
  apply jira_occurrence_spec in Hin as (pre' & rest' & E & Hj & _ & Hs & _).
  apply app_eq_app in E as (l & [[E1 E2]|[E1 E2]]).
  - (* the match starts first *)
    assert (Hl : length l = length pre - j).
    { apply (f_equal (@length jschar)) in E1. rewrite length_app in E1. lia. }
    symmetry in E2. apply app_eq_app in E2 as (l2 & [[E3 E4]|[E3 E4]]).
    + apply (f_equal (@length jschar)) in E3. rewrite length_app in E3. lia.
    + destruct l2 as [|c l2].
      * rewrite app_nil_r in E3. subst s. lia.
      * simpl in E4. injection E4 as <- _.
        destruct (exists_last (l := l)) as (p & x & ->).
        { intros ->. simpl in Hl. lia. }
        subst pre. rewrite app_assoc, rev_app_distr in Hb. simpl in Hb.
        rewrite E3, <- app_assoc in Hs. simpl in Hs.
        apply ticket_inner_boundary in Hs; [|exact Hb].
        rewrite (isUpper_not_digit u Hu) in Hs. discriminate.
  - apply (f_equal (@length jschar)) in E1. rewrite length_app in E1. lia.
Qed.

(** X1: the extractor returns exactly the ticket-shaped slices of the text
    that start outside a word and are followed by a separator or by the end
    of the text. *)
Theorem extractJiraTickets_exactly_the_tickets :
  forall text t : jsstring,
    In t (extractJiraTickets text) <->
    exists pre rest,
      text = pre ++ t ++ rest /\ endsOutsideWord pre /\
      ticketShaped t /\ atSeparator rest.
Proof.
  intros text t. split.
  - intros H. apply extracted_occurs in H as (i & H).
    apply jira_occurrence_spec in H as (pre & rest & Ht & _ & Hb & Hs & Hsep).
    exists pre, rest. rewrite endsOutsideWord_wordAt. auto.
  - intros (pre & rest & -> & Hb & Hs & Hsep).
    apply endsOutsideWord_wordAt in Hb.
    unfold extractJiraTickets.
    apply (proj2 (proj1 (proj2 (Set_of_spec _)) t)).
    unfold matchAll, occurrences.
    pose proof (jiraPattern_exec_complete (rev pre) t rest Hb Hs Hsep) as He.
    destruct (scan_complete jiraPattern (pre ++ t ++ rest) 0 [] 0 pre (t ++ rest)
                (length t) eq_refl) as [H|[H|(j & s & H & Hj)]].
    + now rewrite app_nil_r.
    + lia.
    + simpl in H. rewrite firstn_app, Nat.sub_diag, firstn_all in H.
      simpl in H. rewrite app_nil_r in H.
      apply in_map_iff. exists (length pre, t). split; [reflexivity | exact H].
    + exfalso. simpl in Hj.
      exact (jira_not_inside pre t rest j s Hs Hb H Hj).
Qed.

(** ** The shape of a design link *)

Lemma literal_spec (s : jsstring) :
  forall x y, In y (rmatch (literal s) x) -> after x = s ++ after y.
Proof.
  induction s as [|c s IH]; intros x y H; simpl in H.
  - destruct H as [<-|[]]. reflexivity.
  - apply in_flat_map in H as (z & Hz & H).
    apply step_class_spec in Hz as (c' & Hc1 & _ & Hc3).
    apply N.eqb_eq in Hc3. subst c'. apply IH in H. rewrite Hc1, H. reflexivity.
Qed.

Lemma isAlnum_linkTail (c : jschar) : isAlnum c = true -> isLinkTail c = true.
Proof.
  intros H. unfold isLinkTail. apply negb_true_iff.
  destruct (N.eqb c 63 || isSpace c)%bool eqn:E; [|reflexivity]. exfalso.
  unfold isAlnum, isLower, isUpper, isDigit, in_range in H.
  assert (Hc : (97 <= c <= 122 \/ 65 <= c <= 90 \/ 48 <= c <= 57)%N).
  { repeat (apply orb_prop in H as [H|H]);
      apply andb_prop in H as [H1 H2]; apply N.leb_le in H1, H2; lia. }
  unfold isSpace, in_range in E.
  repeat (apply orb_prop in E as [E|E]);
    try (apply N.eqb_eq in E; lia);
    try (apply andb_prop in E as [E1 E2]; apply N.leb_le in E1, E2; lia).
Qed.

Lemma star_run_nonempty (p : jschar -> bool) (a b : list jschar) :
  star_run p b a <> [].
Proof.
  destruct a as [|c a]; simpl; [discriminate|].
  destruct (p c); [|discriminate]. now destruct (star_run p (c :: b) a).
Qed.

(** The first element of a greedy run is the longest run. *)
Lemma star_run_first (p : jschar -> bool) (a : list jschar) :
  forall b y tl, star_run p b a = y :: tl ->
  after y = [] \/ exists c r, after y = c :: r /\ p c = false.
Proof.
  induction a as [|c a IH]; intros b y tl H; simpl in H.
  - injection H as <- _. now left.
  - destruct (p c) eqn:Hc.
    + destruct (star_run p (c :: b) a) as [|z l] eqn:E.
      * now apply star_run_nonempty in E.
      * simpl in H. injection H as <- _. now apply (IH _ _ _ E).
    + injection H as <- _. right. now exists c, a.
Qed.

Lemma seq_first (Q : cursor -> Prop) (r1 r2 : regex) :
  (forall x y tl, rmatch r2 x = y :: tl -> Q y) ->
  forall x y tl, rmatch (Seq r1 r2) x = y :: tl -> Q y.
Proof.
  intros H2 x y tl. cbn [rmatch]. generalize (rmatch r1 x). intros l.
  induction l as [|z l IH]; simpl; [discriminate|].
  destruct (rmatch r2 z) as [|y' l'] eqn:E; simpl.
  - exact IH.
  - intros H. injection H as <- _. exact (H2 _ _ _ E).
Qed.

Lemma figmaRegex_first (x y : cursor) (tl : list cursor) :
  rmatch figmaRegex x = y :: tl -> atLinkEnd (after y).
Proof.
  unfold figmaRegex. revert x y tl.
  do 9 (apply seq_first).
  intros [b a] y tl H. cbn [rmatch after before] in H.
  now apply star_run_first in H.
Qed.

Lemma figmaRegex_inv (b a : list jschar) (y : cursor) :
  In y (rmatch figmaRegex (Cursor b a)) ->
  exists s, a = s ++ after y /\ linkShaped s.
Proof.
  unfold figmaRegex. cbn [rmatch]. intros H.
  apply in_flat_map in H as (x1 & H1 & H).
  apply in_flat_map in H as (x2 & H2 & H).
  apply in_flat_map in H as (x3 & H3 & H).
  apply in_flat_map in H as (x4 & H4 & H).
  apply in_flat_map in H as (x5 & H5 & H).
  apply in_flat_map in H as (x6 & H6 & H).
  apply in_flat_map in H as (x7 & H7 & H).
  apply in_flat_map in H as (x8 & H8 & H).
  apply in_flat_map in H as (x9 & H9 & H).
  apply in_flat_map in H8 as (x8' & H8' & H8).
  apply literal_spec in H1. cbn [after] in H1.
  assert (E2 : exists scheme, after x1 = scheme ++ after x2 /\
                              (scheme = [] \/ scheme = js "s")).
  { apply in_app_iff in H2 as [H2|[<-|[]]].
    - apply step_class_spec in H2 as (c & Hc1 & _ & Hc3).
      apply N.eqb_eq in Hc3. subst c. exists (js "s"). split; [exact Hc1 | now right].
    - exists []. split; [reflexivity | now left]. }
  destruct E2 as (scheme & E2 & Hscheme).
  apply literal_spec in H3.
  assert (E4 : exists host, after x3 = host ++ after x4 /\
                            (host = [] \/ host = js "www.")).
  { apply in_app_iff in H4 as [H4|[<-|[]]].
    - apply literal_spec in H4. exists (js "www."). split; [exact H4 | now right].
    - exists []. split; [reflexivity | now left]. }
  destruct E4 as (host & E4 & Hhost).
  apply literal_spec in H5.
  assert (E6 : exists kind, after x5 = kind ++ after x6 /\
                            (kind = js "file" \/ kind = js "design")).
  { apply in_app_iff in H6 as [H6|H6]; apply literal_spec in H6.
    - exists (js "file"). split; [exact H6 | now left].
    - exists (js "design"). split; [exact H6 | now right]. }
  destruct E6 as (kind & E6 & Hkind).
  apply step_class_spec in H7 as (c7 & E7 & _ & Hc7). apply N.eqb_eq in Hc7. subst c7.
  apply step_class_spec in H8' as (i0 & E8' & _ & Hi0).
  apply star_run_spec in H8 as (id & E8 & _ & Hid).
  apply step_class_spec in H9 as (c9 & E9 & _ & Hc9). apply N.eqb_eq in Hc9. subst c9.
  apply star_run_spec in H as (tail & E10 & _ & Htail).
  exists (js "http" ++ scheme ++ js "://" ++ host ++ js "figma.com/" ++ kind
            ++ js "/" ++ (i0 :: id) ++ js "/" ++ tail).
  split.
  - rewrite H1, E2, H3, E4, H5, E6, E7, E8', E8, E9, E10.
    repeat rewrite <- app_assoc. reflexivity.
  - exists scheme, host, kind, (i0 :: id), tail.
    repeat split; try assumption; try discriminate.
    simpl. now rewrite Hi0, Hid.
Qed.

Lemma linkShaped_no_break (s : jsstring) :
  linkShaped s -> forallb isLinkTail s = true.
Proof.
  intros (scheme & host & kind & id & tail & -> & Hs & Hh & Hk & _ & Hid & Htail).
  repeat rewrite forallb_app.
  assert (Hid' : forallb isLinkTail id = true).
  { apply forallb_forall. intros c Hc. apply isAlnum_linkTail.
    rewrite forallb_forall in Hid. now apply Hid. }
  rewrite Hid', Htail.
  destruct Hs as [->| ->], Hh as [->| ->], Hk as [->| ->]; reflexivity.
Qed.

Lemma figmaRegex_exec (b a : list jschar) (len : nat) :
  exec figmaRegex (Cursor b a) = Some len ->
  linkShaped (firstn len a) /\ atLinkEnd (skipn len a).
Proof.
  unfold exec. destruct (rmatch figmaRegex (Cursor b a)) as [|y l] eqn:E;
    [discriminate|].
  intros H. injection H as <-.
  pose proof (figmaRegex_first _ _ _ E) as Hend.
  assert (Hy : In y (rmatch figmaRegex (Cursor b a))) by (rewrite E; now left).
  apply figmaRegex_inv in Hy as (s & Ha & Hs).
  cbn [after]. remember (after y) as r eqn:Er. clear Er E. subst a.
  rewrite length_app, Nat.add_sub.
  rewrite firstn_app, Nat.sub_diag, firstn_all. simpl. rewrite app_nil_r.
  rewrite skipn_app, Nat.sub_diag, skipn_all. simpl. auto.
Qed.

(** X2: every design link that the scan returns is a slice of the text of
    the shape of the pattern, holds no question mark and no whitespace, and
    runs up to the end of the text, a question mark or whitespace. *)
Theorem extractFigmaLinks_shape :
  forall text link : jsstring,
    In link (extractFigmaLinks text) ->
    exists pre rest,
      text = pre ++ link ++ rest /\ linkShaped link /\
      forallb isLinkTail link = true /\ atLinkEnd rest.
Proof.
  intros text link H. rewrite extractFigmaLinks_matchAll in H.
  unfold matchAll in H. apply in_map_iff in H as ([i s] & Hs & H).
  simpl in Hs. subst s.
  apply occurrences_sound in H as (pre & post & len & Ht & _ & He & Hl).
  apply figmaRegex_exec in He as (Hshape & Hend).
  exists pre, (skipn len post). subst link. rewrite firstn_skipn.
  repeat split; try assumption. now apply linkShaped_no_break.
Qed.

Lemma extractFigmaLinks_shape_witness :
  exists pre rest,
    js "see " ++ figmaUrl ++ js "?node-id=1" = pre ++ figmaUrl ++ rest /\
    linkShaped figmaUrl /\ forallb isLinkTail figmaUrl = true /\ atLinkEnd rest.
Proof.
  apply (extractFigmaLinks_shape (js "see " ++ figmaUrl ++ js "?node-id=1") figmaUrl).
  vm_compute. left. reflexivity.
Defined.

(** ** Sets of tickets, in order *)





(** The JIRA section, as it is printed. *)
Lemma jiraSectionOf_text (tickets : list jsstring) :
  jiraSectionOf tickets
  = match tickets with
    | [] => js "<!-- Please add Jira Link here -->"
    | _ :: _ =>
        join NL (map (fun t => js "- [" ++ t ++ js "](https://jira2.workday.com/browse/"
                                 ++ t ++ js ")") tickets)
    end.
Proof.
  destruct tickets as [|t tickets]; reflexivity.
Qed.

(** The enhanced description, as it is printed: the narrative and the JIRA
    section, then the design links and the screenshot table, then the
    change analysis and the footer. *)
Lemma enhanced_description_text {world : Type} (env : backend world)
  (owner repo head base token body : jsstring) (w w' : world) (s : sections) :
  composeDescription env owner repo head base token body w
  = (Returned (Enhanced s), w') ->
  exists mid post,
    analyzeCodeDiff env owner repo head base token body w
    = (Returned
         (join NL
            [ js "<!--- Provide a general summary of your changes in the Title above by starting with Jira Ticket -->";
              [];
              js "## Description:";
              show (detailedSummary (s_narrative s));
              [];
              js "   ### Key Changes:";
              js "   " ++ show (keyChanges (s_narrative s));
              [];
              js "## Motivation and Context:";
              show (motivationContext (s_narrative s));
              [];
              js "## Jira Ticket: ";
              jiraSectionOf (s_allJiraTickets s);
              [] ]
            ++ NL ++ mid ++ js "## Change Analysis:" ++ NL
            ++ s_changeAnalysis s ++ NL ++ post), w').
Proof.
  intros Hrun.
  pose proof (analyzeCodeDiff_renders env owner repo head base token body w _ _ Hrun)
    as Htext.
  apply composeDescription_enhanced in Hrun
    as (cd & w1 & w2 & summaryText & _ & _ & _ & _ & Hsec & _).
  exists (join NL (match s_figmaSection s with
                   | [] => []
                   | _ :: _ => [ js "## Figma Links:"; s_figmaSection s; [] ]
                   end ++ screenshots ++ [ [] ]) ++ NL),
         (join NL ([ [] ] ++ footer)).
  rewrite Htext, <- Hsec. f_equal. unfold render.
  destruct (s_figmaSection s) as [|x fs] eqn:E; cbv beta iota;
    rewrite <- ?E; cbn [join app screenshots footer titleHint];
    repeat rewrite <- app_assoc; reflexivity.
Qed.



(** ** The ticket detail fetcher: what every result carries *)

Lemma or_default_nonempty (x : option jsstring) (d : jsstring) :
  d <> [] -> or_default x d <> [].
Proof. intros Hd. destruct x as [[|c s]|]; simpl; [assumption | discriminate | assumption]. Qed.

(** The two branches of the fetcher, side by side. *)
Lemma get_jira_ticket_details_cases {world : Type} (env : backend world)
  (ticketId : jsstring) (w : world) :
  let fetched := axios_get_issue env (jiraApiUrl ticketId) (authorization env) w in
  exists r,
    get_jira_ticket_details env ticketId w = (Returned r, snd fetched) /\
    success r = negb (fetchFailed (fst fetched)) /\
    url (result_ticket r) = getJiraUrl ticketId /\
    (success r = true ->
     exists p a rp l c f,
       priority (result_ticket r) = Some p /\ p <> [] /\
       assignee (result_ticket r) = Some a /\ a <> [] /\
       reporter (result_ticket r) = Some rp /\ rp <> [] /\
       description (result_ticket r) <> [] /\
       labels (result_ticket r) = Some l /\
       components (result_ticket r) = Some c /\
       fixVersions (result_ticket r) = Some f).
Proof.
  intros fetched. subst fetched.
  unfold get_jira_ticket_details, try_catch, bind.
  destruct (axios_get_issue env (jiraApiUrl ticketId) (authorization env) w)
    as [[[[k [f|]]|]|e] w1]; cbn -[js or_default placeholderTicket getJiraUrl];
    try (eexists; split; [reflexivity|]; split; [reflexivity|];
         split; [reflexivity | discriminate]).
  destruct (f_status f) as [st|], (f_issuetype f) as [it|];
    cbn -[js or_default placeholderTicket getJiraUrl];
    try (eexists; split; [reflexivity|]; split; [reflexivity|];
         split; [reflexivity | discriminate]).
  eexists. split; [reflexivity|]. split; [reflexivity|]. split; [reflexivity|].
  intros _. do 6 eexists.
  repeat split; try reflexivity; apply or_default_nonempty; discriminate.
Qed.

(** X4: whether the fetch succeeds or not, the ticket's url is the browse
    link that [getJiraUrl] builds for the requested id, the same link the
    JIRA section of a description uses. *)
Theorem ticket_url_is_the_browse_link :
  forall (world : Type) (env : backend world) (ticketId : jsstring) (w : world),
  exists r w',
    get_jira_ticket_details env ticketId w = (Returned r, w') /\
    url (result_ticket r) = getJiraUrl ticketId /\
    url (result_ticket r) = js "https://jira2.workday.com/browse/" ++ ticketId.
Proof.
  intros world env ticketId w.
  destruct (get_jira_ticket_details_cases env ticketId w) as (r & Hrun & _ & Hurl & _).
  exists r. eexists. split; [exact Hrun|]. split; [exact Hurl|].
  rewrite Hurl. reflexivity.
Qed.

(** X5: a successfully fetched ticket always has a non-empty priority,
    assignee, reporter and description (the defaults stand in for what the
    tracker leaves out), and its labels, components and fix versions are
    lists. *)
Theorem fetched_ticket_fields_are_filled :
  forall (world : Type) (env : backend world) (ticketId : jsstring)
         (w w' : world) (r : jira_result),
    get_jira_ticket_details env ticketId w = (Returned r, w') ->
    success r = true ->
    exists p a rp l c f,
      priority (result_ticket r) = Some p /\ p <> [] /\
      assignee (result_ticket r) = Some a /\ a <> [] /\
      reporter (result_ticket r) = Some rp /\ rp <> [] /\
      description (result_ticket r) <> [] /\
      labels (result_ticket r) = Some l /\
      components (result_ticket r) = Some c /\
      fixVersions (result_ticket r) = Some f.
Proof.
  intros world env ticketId w w' r Hrun Hs.
  destruct (get_jira_ticket_details_cases env ticketId w) as (r' & Hrun' & _ & _ & H).
  rewrite Hrun in Hrun'. injection Hrun' as <- _. exact (H Hs).
Qed.

Lemma fetched_ticket_fields_are_filled_witness :
  exists r,
    get_jira_ticket_details designTracker (js "ABC-123") tt = (Returned r, tt) /\
    exists p a rp l c f,
      priority (result_ticket r) = Some p /\ p <> [] /\
      assignee (result_ticket r) = Some a /\ a <> [] /\
      reporter (result_ticket r) = Some rp /\ rp <> [] /\
      description (result_ticket r) <> [] /\
      labels (result_ticket r) = Some l /\
      components (result_ticket r) = Some c /\
      fixVersions (result_ticket r) = Some f.
Proof.
  eexists. split; [vm_compute; reflexivity|].
  eapply (fetched_ticket_fields_are_filled unit designTracker (js "ABC-123") tt tt).
  - vm_compute. reflexivity.
  - reflexivity.
Defined.

(** ** The ticket context of the prompts *)

Lemma join_singleton (sep s : jsstring) : join sep [s] = s.
Proof. reflexivity. Qed.

(** X6: the ticket context names every ticket but asks the tracker for the
    first one only, with a single request; when that fetch fails the details
    are empty.  Without tickets no request is made. *)
Theorem fetchJiraContext_expands_first_ticket_only :
  forall (world : Type) (env : backend world) (t : jsstring)
         (others : list jsstring) (w : world),
    let fetched := axios_get_issue env (jiraApiUrl t) (authorization env) w in
    exists details,
      fetchJiraContext env (t :: others) w
      = (Returned (js "JIRA Tickets: " ++ join (js ", ") (t :: others), details),
         snd fetched) /\
      fetchJiraContext env [t] w
      = (Returned (js "JIRA Tickets: " ++ t, details), snd fetched) /\
      (fetchFailed (fst fetched) = true -> details = []) /\
      fetchJiraContext env [] w
      = (Returned (js "No JIRA tickets found in branch name", []), w).
Proof.
  intros world env t others w fetched.
  destruct (get_jira_ticket_details_cases env t w) as (r & Hrun & Hs & _ & Hfields).
  fold fetched in Hrun, Hs.
  unfold fetchJiraContext, try_catch, bind. rewrite Hrun.
  destruct (success r) eqn:Es.
  - destruct (Hfields eq_refl) as (p & a & rp & l & c & f & _ & _ & _ & _ & _ & _ & _
                                   & Hl & Hc & _).
    unfold formatTicketDetails, bind. rewrite Hc, Hl.
    cbn -[js join NL show joinOrNone]. eexists.
    split; [reflexivity|]. split; [reflexivity|]. split; [|reflexivity].
    intros Hf. rewrite Hf in Hs. discriminate.
  - cbn -[js join]. exists []. auto.
Qed.

(** The ticket context is always delivered. *)
Lemma fetchJiraContext_returns {world : Type} (env : backend world)
  (jiraTickets : list jsstring) (w : world) :
  exists j w', fetchJiraContext env jiraTickets w = (Returned j, w').
Proof.
  destruct jiraTickets as [|t others]; [do 2 eexists; reflexivity|].
  destruct (get_jira_ticket_details_cases env t w) as (r & Hrun & _).
  unfold fetchJiraContext, try_catch, bind. rewrite Hrun.
  destruct (success r); [|do 2 eexists; reflexivity].
  unfold formatTicketDetails, bind.
  destruct (components (result_ticket r)); [|do 2 eexists; reflexivity].
  destruct (labels (result_ticket r)); do 2 eexists; reflexivity.
Qed.

(** ** Generation and the tracker *)



(** ** The composer when a collaborator fails *)

Lemma generateDetailedSummary_returns {world : Type} (env : backend world)
  filesChanged stats head base jiraTickets customBody (w : world) :
  exists b w',
    generateDetailedSummary env filesChanged stats head base jiraTickets customBody w
    = (Returned b, w').
Proof.
  unfold generateDetailedSummary, try_catch.
  match goal with
  | |- context [match ?run with _ => _ end] => destruct run as [[b|e] w1]
  end; do 2 eexists; reflexivity.
Qed.

(** X8: when the compare request is rejected, or is answered with a
    response whose data is null or undefined, analyzeCodeDiff returns the
    static description for the two branches, with the placeholder in the
    JIRA section and zero in every counter, and does nothing else: no
    generation call and no tracker call follows.  (A response whose data is
    present but empty, such as the empty string, is not this case: it is
    analysed as a change-set without files.) *)
Theorem composeDescription_without_diff :
  forall (world : Type) (env : backend world)
         (owner repo head base token body : jsstring) (w : world),
    let compared := axios_get_compare env (compareUrl owner repo head base) token w in
    (forall cd, fst compared <> Returned (Some cd)) ->
    composeDescription env owner repo head base token body w
    = (Returned (Unanalyzed head base), snd compared) /\
    jiraSectionTickets (Unanalyzed head base) = [] /\
    changeAnalysisBlock (Unanalyzed head base) = changeAnalysisOf [] /\
    analyzeCodeDiff env owner repo head base token body w
    = (Returned
         (join NL
            [ js "<!--- Provide a general summary of your changes in the Title above by starting with Jira Ticket -->";
              [];
              js "## Description:";
              js "This PR introduces changes from `" ++ head ++ js "` to `" ++ base
                ++ js "` branch.";
              [];
              js "*Note: Unable to analyze code diff automatically. Please review the changes manually.*";
              [];
              js "   ### Key Changes:";
              js "   " ++ [8226%N] ++ js " Modified files with additions and deletions";
              [];
              js "## Motivation and Context:";
              js "This change addresses the requirements specified in the JIRA ticket(s) mentioned below. The modifications improve system functionality and user experience.";
              [];
              js "## Jira Ticket: ";
              js "<!-- Please add Jira Link here -->";
              [];
              js "## Screenshots:";
              js "| Before | After |";
              js "| ------ | ----- |";
              js "|--before-image--|--after-image-- |";
              [];
              js "## Change Analysis:";
              js "- **New Files Added:** 0";
              js "- **Files Modified:** 0";
              js "- **Files Deleted:** 0";
              js "- **Total Files Changed:** 0";
              [];
              [];
              js "---";
              [];
              js "> " ++ [55358%N; 56598%N]
                ++ js " **Created by AI Agent** - This PR was automatically generated with enhanced analysis and formatting." ]),
       snd compared).
Proof.
  intros world env owner repo head base token body w compared H.
  subst compared.
  assert (Hrun : composeDescription env owner repo head base token body w
                 = (Returned (Unanalyzed head base),
                    snd (axios_get_compare env (compareUrl owner repo head base) token w))).
  { unfold composeDescription, try_catch, bind.
    destruct (axios_get_compare env (compareUrl owner repo head base) token w)
      as [[[cd|]|e] w1]; simpl in *; try reflexivity.
    now destruct (H cd). }
  split; [exact Hrun|]. split; [reflexivity|]. split; [reflexivity|].
  rewrite (analyzeCodeDiff_renders env owner repo head base token body w _ _ Hrun).
  reflexivity.
Qed.

Lemma composeDescription_without_diff_witness :
  composeDescription tracker404 (js "acme") (js "shop") (js "ABC-1-fix") (js "main")
    (js "token") [] tt
  = (Returned (Unanalyzed (js "ABC-1-fix") (js "main")), tt) /\
  includes (js "## Change Analysis:" ++ NL ++ js "- **New Files Added:** 0")
    match fst (analyzeCodeDiff tracker404 (js "acme") (js "shop") (js "ABC-1-fix")
                 (js "main") (js "token") [] tt) with
    | Returned text => text
    | Thrown _ => []
    end = true.
Proof.
  destruct (composeDescription_without_diff unit tracker404 (js "acme") (js "shop")
              (js "ABC-1-fix") (js "main") (js "token") [] tt)
    as (Hrun & _ & _ & Htext).
  - intros cd. discriminate.
  - split; [exact Hrun|]. rewrite Htext. vm_compute. reflexivity.
Defined.

(** Without a working generation backend the bundle is the fallback. *)
Lemma generateDetailedSummary_without_llm {world : Type} (env : backend world)
  filesChanged stats head base jiraTickets customBody (w : world) :
  (forall p w0, exists e w', llm_invoke env p w0 = (Thrown e, w')) ->
  exists w',
    generateDetailedSummary env filesChanged stats head base jiraTickets customBody w
    = (Returned (fallbackNarrative filesChanged stats head base), w').
Proof.
  intros Hllm. unfold generateDetailedSummary, try_catch, bind.
  destruct (getLLMClient env w) as [[u|e] w0]; [|eexists; reflexivity].
  destruct (fetchJiraContext_returns env jiraTickets w0) as (j & w1 & ->).
  match goal with
  | |- context [llm_invoke env ?p w1] => destruct (Hllm p w1) as (e & w2 & ->)
  end.
  eexists. reflexivity.
Qed.

(** With a change-set and a summary text in hand the composer delivers the
    enhanced description. *)
Lemma composeDescription_with_diff {world : Type} (env : backend world)
  (owner repo head base token body : jsstring) (w w1 w2 : world)
  (cd : compare_data) (bundle : narrative) (summaryText : jsstring) :
  axios_get_compare env (compareUrl owner repo head base) token w
  = (Returned (Some cd), w1) ->
  generateDetailedSummary env
    (match files cd with Some l => l | None => [] end)
    (match stats cd with Some st => st | None => DiffStats 0 0 0 end)
    head base (extractJiraTickets head) body w1
  = (Returned bundle, w2) ->
  detailedSummary bundle = Some summaryText ->
  exists fs w',
    composeDescription env owner repo head base token body w
    = (Returned
         (Enhanced
            {| s_narrative := bundle;
               s_allJiraTickets :=
                 Set_of (extractJiraTickets summaryText ++ extractJiraTickets head);
               s_jiraSection :=
                 jiraSectionOf
                   (Set_of (extractJiraTickets summaryText ++ extractJiraTickets head));
               s_figmaSection := fs;
               s_changeAnalysis :=
                 changeAnalysisOf (match files cd with Some l => l | None => [] end) |}),
       w').
Proof.
  intros Hcmp Hgen Hsum. unfold composeDescription, try_catch, bind.
  rewrite Hcmp. cbn -[js extractJiraTickets Set_of changeAnalysisOf jiraSectionOf].
  rewrite Hgen. cbn -[js extractJiraTickets Set_of changeAnalysisOf jiraSectionOf].
  rewrite Hsum. cbn -[js extractJiraTickets Set_of changeAnalysisOf jiraSectionOf].
  destruct (Set_of (extractJiraTickets summaryText ++ extractJiraTickets head))
    as [|first others].
  - do 2 eexists. reflexivity.
  - destruct (get_jira_ticket_details env first w2) as [[r|e] w3].
    + destruct (success r); [destruct (figmaLinks (result_ticket r))|];
        do 2 eexists; reflexivity.
    + do 2 eexists. reflexivity.
Qed.

(** X9: when the compare request answers but every generation call is
    rejected, analyzeCodeDiff still returns the enhanced description.  Its
    narrative is the templated fallback, printed with the two branch names
    and the numbers of the change-set; the JIRA section (the lines under
    its heading) has one bullet with the browse link per ticket, among them
    every ticket of the head branch name; and the block under the Change
    Analysis heading starts with the counters of the real change-set. *)
Theorem composeDescription_without_llm :
  forall (world : Type) (env : backend world)
         (owner repo head base token body : jsstring) (w w1 : world)
         (cd : compare_data),
    axios_get_compare env (compareUrl owner repo head base) token w
    = (Returned (Some cd), w1) ->
    (forall p w0, exists e w', llm_invoke env p w0 = (Thrown e, w')) ->
    let filesChanged := match files cd with Some l => l | None => [] end in
    let stats := match stats cd with Some st => st | None => DiffStats 0 0 0 end in
    exists s w',
      composeDescription env owner repo head base token body w
      = (Returned (Enhanced s), w') /\
      s_narrative s = fallbackNarrative filesChanged stats head base /\
      s_changeAnalysis s = changeAnalysisOf filesChanged /\
      (forall t, In t (extractJiraTickets head) -> In t (s_allJiraTickets s)) /\
      exists mid histogram post,
        analyzeCodeDiff env owner repo head base token body w
        = (Returned
             (join NL
                [ js "<!--- Provide a general summary of your changes in the Title above by starting with Jira Ticket -->";
                  [];
                  js "## Description:";
                  js "This PR introduces changes from `" ++ head ++ js "` to `" ++ base
                    ++ js "` branch with " ++ of_nat (length filesChanged)
                    ++ js " files modified (" ++ of_Z (stat_additions stats)
                    ++ js " additions, " ++ of_Z (stat_deletions stats)
                    ++ js " deletions).";
                  [];
                  js "   ### Key Changes:";
                  js "   " ++ [8226%N] ++ js " Modified " ++ of_nat (length filesChanged)
                    ++ js " files with " ++ of_Z (stat_additions stats)
                    ++ js " additions and " ++ of_Z (stat_deletions stats)
                    ++ js " deletions";
                  [];
                  js "## Motivation and Context:";
                  js "This change addresses the requirements specified in the JIRA ticket(s) mentioned below. The modifications improve system functionality and user experience.";
                  [];
                  js "## Jira Ticket: ";
                  match s_allJiraTickets s with
                  | [] => js "<!-- Please add Jira Link here -->"
                  | _ :: _ =>
                      join NL (map (fun t => js "- [" ++ t
                                               ++ js "](https://jira2.workday.com/browse/"
                                               ++ t ++ js ")") (s_allJiraTickets s))
                  end;
                  [] ]
                ++ NL ++ mid ++ js "## Change Analysis:" ++ NL
                ++ js "- **New Files Added:** " ++ of_nat (length (newFiles filesChanged))
                ++ NL
                ++ js "- **Files Modified:** "
                ++ of_nat (length (modifiedFiles filesChanged)) ++ NL
                ++ js "- **Files Deleted:** " ++ of_nat (length (deletedFiles filesChanged))
                ++ NL
                ++ js "- **Total Files Changed:** " ++ of_nat (length filesChanged)
                ++ histogram ++ NL ++ post), w').
Proof.
  intros world env owner repo head base token body w w1 cd Hcmp Hllm filesChanged stats.
  destruct (generateDetailedSummary_without_llm env filesChanged stats
              head base (extractJiraTickets head) body w1 Hllm) as (w2 & Hgen).
  destruct (composeDescription_with_diff env owner repo head base token body
              w w1 w2 cd _ _ Hcmp Hgen eq_refl) as (fs & w' & Hrun).
  fold filesChanged in Hrun.
  eexists. exists w'. split; [exact Hrun|].
  split; [reflexivity|]. split; [reflexivity|]. split.
  - intros t Ht. cbn [s_allJiraTickets].
    apply (proj2 (proj1 (proj2 (Set_of_spec _)) t)).
    apply in_or_app. now right.
  - destruct (enhanced_description_text env owner repo head base token body w w' _ Hrun)
      as (mid & post & Htext).
    destruct (changeAnalysisOf_counters filesChanged) as (histogram & Hh).
    exists mid, histogram, post. rewrite Htext.
    cbn [s_narrative s_allJiraTickets s_changeAnalysis].
    rewrite Hh, jiraSectionOf_text. f_equal. f_equal.
    repeat rewrite <- app_assoc. reflexivity.
Qed.

Lemma composeDescription_without_llm_witness :
  exists s w',
    composeDescription (scenarioBackendDown) (js "acme") (js "shop")
      (js "TICKET-12345-feature") (js "develop") (js "token") [] tt
    = (Returned (Enhanced s), w') /\
    s_narrative s
    = fallbackNarrative scenarioFiles (DiffStats 40 5 45)
        (js "TICKET-12345-feature") (js "develop") /\
    s_allJiraTickets s = [js "TICKET-12345"] /\
    includes (js "## Jira Ticket: " ++ NL
                ++ js "- [TICKET-12345](https://jira2.workday.com/browse/TICKET-12345)"
                ++ NL)
      match fst (analyzeCodeDiff (scenarioBackendDown) (js "acme") (js "shop")
                   (js "TICKET-12345-feature") (js "develop") (js "token") [] tt) with
      | Returned text => text
      | Thrown _ => []
      end = true.
Proof.
  destruct (composeDescription_without_llm unit scenarioBackendDown (js "acme") (js "shop")
              (js "TICKET-12345-feature") (js "develop") (js "token") [] tt tt
              (CompareData (Some scenarioFiles) (Some (DiffStats 40 5 45))) eq_refl
              (fun p w => match w with
                          | tt => ex_intro _ _ (ex_intro _ tt eq_refl)
                          end))
    as (s & w' & Hrun & Hnar & _ & _ & _).
  exists s, w'. split; [exact Hrun|]. split; [exact Hnar|].
  assert (Hs : Returned (Enhanced s)
               = fst (composeDescription (scenarioBackendDown) (js "acme") (js "shop")
                        (js "TICKET-12345-feature") (js "develop") (js "token") [] tt))
    by (rewrite Hrun; reflexivity).
  vm_compute in Hs. injection Hs as ->.
  split; vm_compute; reflexivity.
Defined.



(** ** File extensions *)

Lemma split_nonempty (sep : jschar) (s : jsstring) : split sep s <> [].
Proof.
  destruct s as [|c s]; simpl; [discriminate|].
  destruct (N.eqb c sep); [discriminate|]. now destruct (split sep s).
Qed.

Lemma split_app (sep : jschar) (a b : jsstring) :
  split sep (a ++ sep :: b) = split sep a ++ split sep b.
Proof.
  induction a as [|c a IH]; simpl.
  - now rewrite N.eqb_refl.
  - destruct (N.eqb c sep); rewrite IH; [reflexivity|].
    destruct (split sep a) as [|p ps] eqn:E; [now apply split_nonempty in E|].
    reflexivity.
Qed.

Lemma split_without_sep (sep : jschar) (e : jsstring) :
  forallb (fun c => negb (N.eqb c sep)) e = true -> split sep e = [e].
Proof.
  induction e as [|c e IH]; simpl; [reflexivity|].
  intros H. apply andb_prop in H as [Hc He].
  apply negb_true_iff in Hc. rewrite Hc, (IH He). reflexivity.
Qed.

Lemma split_pieces (sep : jschar) (s : jsstring) :
  Forall (fun p => forallb (fun c => negb (N.eqb c sep)) p = true) (split sep s).
Proof.
  induction s as [|c s IH]; simpl; [repeat constructor|].
  destruct (N.eqb c sep) eqn:E; [constructor; [reflexivity | exact IH]|].
  destruct (split sep s) as [|p ps]; [repeat constructor; simpl; now rewrite E|].
  inversion IH; subst. constructor; [|assumption]. simpl. now rewrite E.
Qed.

Lemma last_app_nonempty {A} (l1 l2 : list A) (d : A) :
  l2 <> [] -> last (l1 ++ l2) d = last l2 d.
Proof.
  intros H. induction l1 as [|x l1 IH]; [reflexivity|].
  simpl. destruct (l1 ++ l2) eqn:E; [|exact IH].
  apply app_eq_nil in E as [_ ->]. contradiction.
Qed.

Lemma last_In {A} (l : list A) (d : A) : l <> [] -> In (last l d) l.
Proof.
  induction l as [|x l IH]; [contradiction|]. intros _.
  destruct l as [|y l]; [now left|]. right. apply IH. discriminate.
Qed.

(** X11: the extension of a file name is what follows its last dot.  A
    name without a dot is its own extension, and a name that is empty or
    ends with a dot gets no-extension.  The extension is never empty and
    holds no dot. *)
Theorem extensionOf_after_last_dot :
  (forall stem e : jsstring,
     noDot e = true -> e <> [] -> extensionOf (stem ++ js "." ++ e) = e) /\
  (forall e : jsstring, noDot e = true -> e <> [] -> extensionOf e = e) /\
  (forall stem : jsstring, extensionOf (stem ++ js ".") = js "no-extension") /\
  extensionOf [] = js "no-extension" /\
  (forall filename : jsstring,
     extensionOf filename <> [] /\ noDot (extensionOf filename) = true).
Proof.
  unfold extensionOf, noDot. split; [|split; [|split; [|split; [|intros name; split]]]].
  - intros stem e He Hne. change (js "." ++ e) with (46%N :: e).
    rewrite split_app, last_app_nonempty by apply split_nonempty.
    rewrite (split_without_sep _ e He). simpl. now destruct e.
  - intros e He Hne. rewrite (split_without_sep _ e He). simpl. now destruct e.
  - intros stem. change (js ".") with (46%N :: []).
    rewrite split_app, last_app_nonempty by apply split_nonempty.
    reflexivity.
  - reflexivity.
  - apply or_default_nonempty. discriminate.
  - pose proof (split_pieces 46%N name) as Hp.
    rewrite Forall_forall in Hp.
    specialize (Hp _ (last_In (split 46%N name) [] (split_nonempty _ _))).
    destruct (last (split 46%N name) []) as [|c s]; [reflexivity | exact Hp].
Qed.

(** ** The file-type histogram *)

Lemma jsstring_eqb_sym (s t : jsstring) : JsString.eqb s t = JsString.eqb t s.
Proof.
  destruct (JsString.eqb s t) eqn:E.
  - apply jsstring_eqb_eq in E. subst. symmetry. apply jsstring_eqb_refl.
  - destruct (JsString.eqb t s) eqn:E'; [|reflexivity].
    apply jsstring_eqb_eq in E'. subst. now rewrite jsstring_eqb_refl in E.
Qed.

Lemma lookupCount_countExtension (e k : jsstring) (o : list (jsstring * nat)) :
  lookupCount k (countExtension e o)
  = if JsString.eqb e k
    then Some (match lookupCount e o with Some m => m + 1 | None => 1 end)
    else lookupCount k o.
Proof.
  induction o as [|[k0 n0] o IH]; simpl.
  - reflexivity.
  - destruct (JsString.eqb k0 e) eqn:E0; simpl.
    + apply jsstring_eqb_eq in E0. subst k0. now destruct (JsString.eqb e k).
    + rewrite IH. destruct (JsString.eqb k0 k) eqn:E1; [|reflexivity].
      apply jsstring_eqb_eq in E1. subst k0.
      rewrite jsstring_eqb_sym, E0. reflexivity.
Qed.

Lemma countExtension_keys (e k : jsstring) (o : list (jsstring * nat)) :
  In k (map fst (countExtension e o)) <-> k = e \/ In k (map fst o).
Proof.
  induction o as [|[k0 n0] o IH]; simpl.
  - intuition.
  - destruct (JsString.eqb k0 e) eqn:E0; simpl.
    + apply jsstring_eqb_eq in E0. subst k0. intuition.
    + rewrite IH. intuition.
Qed.

Lemma countExtension_NoDup (e : jsstring) (o : list (jsstring * nat)) :
  NoDup (map fst o) -> NoDup (map fst (countExtension e o)).
Proof.
  induction o as [|[k0 n0] o IH]; simpl; intros H.
  - repeat constructor. intros [].
  - inversion H as [|? ? Hk0 Ho]; subst.
    destruct (JsString.eqb k0 e) eqn:E0; simpl.
    + now constructor.
    + constructor; [|now apply IH].
      rewrite countExtension_keys. intros [->|Hin]; [|contradiction].
      now rewrite jsstring_eqb_refl in E0.
Qed.

Lemma countExtension_sum (e : jsstring) (o : list (jsstring * nat)) :
  list_sum (map snd (countExtension e o)) = list_sum (map snd o) + 1.
Proof.
  induction o as [|[k0 n0] o IH]; simpl; [reflexivity|].
  destruct (JsString.eqb k0 e); simpl; lia.
Qed.

Lemma lookupCount_In (o : list (jsstring * nat)) :
  NoDup (map fst o) ->
  forall k n, In (k, n) o <-> lookupCount k o = Some n.
Proof.
  induction o as [|[k0 n0] o IH]; simpl; intros H k n.
  - split; [intros [] | discriminate].
  - inversion H as [|? ? Hk0 Ho]; subst.
    destruct (JsString.eqb k0 k) eqn:E.
    + apply jsstring_eqb_eq in E. subst k0. split.
      * intros [E|Hin]; [now injection E as -> |].
        exfalso. apply Hk0. apply in_map_iff. now exists (k, n).
      * intros E. injection E as ->. now left.
    + rewrite <- (IH Ho). split; [|now right].
      intros [E'|Hin]; [|exact Hin].
      injection E' as -> _. now rewrite jsstring_eqb_refl in E.
Qed.

Lemma extCount_snoc (ext : jsstring) (done : list file_change) (f : file_change) :
  extCount ext (done ++ [f])
  = extCount ext done + (if JsString.eqb (extensionOf (filename f)) ext then 1 else 0).
Proof.
  unfold extCount. rewrite filter_app, length_app. simpl.
  now destruct (JsString.eqb (extensionOf (filename f)) ext).
Qed.

(** The invariant of the counting loop. *)
Lemma fileTypes_fold (todo done : list file_change) (o : list (jsstring * nat)) :
  NoDup (map fst o) ->
  (forall k, lookupCount k o
             = if extCount k done =? 0 then None else Some (extCount k done)) ->
  list_sum (map snd o) = length done ->
  let res := fold_left (fun fileTypes file =>
                          countExtension (extensionOf (filename file)) fileTypes)
                       todo o in
  NoDup (map fst res) /\
  (forall k, lookupCount k res
             = if extCount k (done ++ todo) =? 0 then None
               else Some (extCount k (done ++ todo))) /\
  list_sum (map snd res) = length (done ++ todo).
Proof.
  revert done o. induction todo as [|f todo IH]; intros done o Hnd Hlook Hsum; simpl.
  - rewrite app_nil_r. auto.
  - replace (done ++ f :: todo) with ((done ++ [f]) ++ todo)
      by (rewrite <- app_assoc; reflexivity).
    apply IH.
    + now apply countExtension_NoDup.
    + intros k. rewrite lookupCount_countExtension, extCount_snoc.
      destruct (JsString.eqb (extensionOf (filename f)) k) eqn:E.
      * apply jsstring_eqb_eq in E. rewrite <- E at 1. rewrite Hlook, E.
        destruct (extCount k done) as [|m]; simpl; [reflexivity|].
        f_equal.
      * rewrite Nat.add_0_r. apply Hlook.
    + rewrite countExtension_sum, length_app, Hsum. reflexivity.
Qed.

(** X12: the histogram has one entry per extension that occurs, it counts
    the files with that extension, and the counts add up to the number of
    files (for extensions that name no inherited member of an object). *)
Theorem fileTypes_count_files_per_extension :
  forall filesChanged : list file_change,
    plainExtensions filesChanged = true ->
    NoDup (map fst (fileTypesOf filesChanged)) /\
    (forall ext n,
       In (ext, n) (fileTypesOf filesChanged)
       <-> 0 < n /\ n = extCount ext filesChanged) /\
    list_sum (map snd (fileTypesOf filesChanged)) = length filesChanged.
Proof.
  intros filesChanged _.
  destruct (fileTypes_fold filesChanged [] []) as (Hnd & Hlook & Hsum);
    [constructor | reflexivity | reflexivity |].
  simpl in Hlook, Hsum. fold (fileTypesOf filesChanged) in Hnd, Hlook, Hsum.
  split; [exact Hnd|]. split; [|exact Hsum].
  intros ext n. rewrite (lookupCount_In _ Hnd), Hlook.
  destruct (extCount ext filesChanged) as [|m]; simpl.
  - split; [discriminate | lia].
  - split; [intros E; injection E as <-; lia | intros [_ ->]; reflexivity].
Qed.

Lemma fileTypes_count_files_per_extension_witness :
  NoDup (map fst (fileTypesOf scenarioFiles)) /\
  (forall ext n,
     In (ext, n) (fileTypesOf scenarioFiles)
     <-> 0 < n /\ n = extCount ext scenarioFiles) /\
  list_sum (map snd (fileTypesOf scenarioFiles)) = length scenarioFiles.
Proof. apply (fileTypes_count_files_per_extension scenarioFiles). reflexivity. Defined.

(** ** The order of the histogram lines *)

Lemma insertByCount_perm (e : jsstring * nat) (l : list (jsstring * nat)) :
  Permutation (e :: l) (insertByCount e l).
Proof.
  induction l as [|x l IH]; simpl; [reflexivity|].
  destruct (snd e <? snd x); [|reflexivity].
  rewrite perm_swap. now constructor.
Qed.

Lemma sortByCountDesc_perm (l : list (jsstring * nat)) :
  Permutation l (sortByCountDesc l).
Proof.
  induction l as [|e l IH]; simpl; [constructor|].
  rewrite <- insertByCount_perm. now constructor.
Qed.

Lemma insertByCount_sorted (e : jsstring * nat) (l : list (jsstring * nat)) :
  StronglySorted (fun a b => snd b <= snd a) l ->
  StronglySorted (fun a b => snd b <= snd a) (insertByCount e l).
Proof.
  induction 1 as [|x l Hs IH Hx]; simpl.
  - repeat constructor.
  - destruct (snd e <? snd x) eqn:E.
    + apply Nat.ltb_lt in E. constructor; [exact IH|].
      eapply Permutation_Forall; [apply insertByCount_perm|].
      constructor; [lia | exact Hx].
    + apply Nat.ltb_ge in E. constructor; [now constructor|].
      constructor; [exact E|].
      eapply Forall_impl; [|exact Hx]. simpl. intros a Ha. lia.
Qed.

Lemma sortByCountDesc_sorted (l : list (jsstring * nat)) :
  StronglySorted (fun a b => snd b <= snd a) (sortByCountDesc l).
Proof.
  induction l as [|e l IH]; simpl; [constructor|].
  now apply insertByCount_sorted.
Qed.

Lemma insertByCount_filter (n : nat) (e : jsstring * nat) (l : list (jsstring * nat)) :
  filter (fun x => snd x =? n) (insertByCount e l)
  = filter (fun x => snd x =? n) (e :: l).
Proof.
  induction l as [|x l IH]; [reflexivity|].
  simpl insertByCount. destruct (snd e <? snd x) eqn:E; [|reflexivity].
  apply Nat.ltb_lt in E. simpl. simpl in IH. rewrite IH.
  destruct (snd e =? n) eqn:En, (snd x =? n) eqn:Ex; try reflexivity.
  apply Nat.eqb_eq in En, Ex. lia.
Qed.

Lemma sortByCountDesc_stable (n : nat) (l : list (jsstring * nat)) :
  filter (fun x => snd x =? n) (sortByCountDesc l) = filter (fun x => snd x =? n) l.
Proof.
  induction l as [|e l IH]; [reflexivity|].
  simpl sortByCountDesc. rewrite insertByCount_filter. simpl. now rewrite IH.
Qed.

Lemma insertIndex_perm (e : N * (jsstring * nat)) (l : list (N * (jsstring * nat))) :
  Permutation (e :: l) (insertIndex e l).
Proof.
  induction l as [|x l IH]; simpl; [reflexivity|].
  destruct (fst e <? fst x)%N; [reflexivity|].
  rewrite perm_swap. now constructor.
Qed.

Lemma insertIndex_sorted (e : N * (jsstring * nat)) (l : list (N * (jsstring * nat))) :
  StronglySorted (fun a b => (fst a <= fst b)%N) l ->
  StronglySorted (fun a b => (fst a <= fst b)%N) (insertIndex e l).
Proof.
  induction 1 as [|x l Hs IH Hx]; simpl.
  - repeat constructor.
  - destruct (fst e <? fst x)%N eqn:E.
    + apply N.ltb_lt in E. constructor; [now constructor|].
      constructor; [lia|].
      eapply Forall_impl; [|exact Hx]. simpl. intros a Ha. lia.
    + apply N.ltb_ge in E. constructor; [exact IH|].
      eapply Permutation_Forall; [apply insertIndex_perm|].
      constructor; [exact E | exact Hx].
Qed.

Lemma indexed_entries (o : list (jsstring * nat)) :
  flat_map (fun e => match arrayIndex (fst e) with
                     | Some i => [(i, e)]
                     | None => []
                     end) o
  = map (fun e => (indexOf e, e)) (filter isIndexKey o).
Proof.
  induction o as [|e o IH]; [reflexivity|].
  cbn [flat_map filter]. rewrite IH.
  assert (Hk : isIndexKey e = match arrayIndex (fst e) with
                              | Some _ => true
                              | None => false
                              end) by reflexivity.
  assert (Hi : indexOf e = match arrayIndex (fst e) with
                           | Some i => i
                           | None => 0%N
                           end) by reflexivity.
  destruct (arrayIndex (fst e)); rewrite Hk; [|reflexivity].
  cbn [map app]. rewrite Hi. reflexivity.
Qed.

Lemma sortIndex_spec (l : list (jsstring * nat)) :
  let sorted := fold_right insertIndex [] (map (fun e => (indexOf e, e)) l) in
  Permutation (map (fun e => (indexOf e, e)) l) sorted /\
  StronglySorted (fun a b => (fst a <= fst b)%N) sorted.
Proof.
  induction l as [|e l [IHp IHs]]; simpl.
  - split; constructor.
  - split.
    + rewrite <- insertIndex_perm. now constructor.
    + now apply insertIndex_sorted.
Qed.

Lemma StronglySorted_map_snd (l : list (N * (jsstring * nat))) :
  Forall (fun p => fst p = indexOf (snd p)) l ->
  StronglySorted (fun a b => (fst a <= fst b)%N) l ->
  StronglySorted (fun a b => (indexOf a <= indexOf b)%N) (map snd l).
Proof.
  intros Hall Hs. induction Hs as [|x l Hs IH Hx]; simpl; [constructor|].
  inversion Hall as [|? ? Hx0 Hl]; subst.
  constructor; [now apply IH|].
  apply Forall_map. rewrite Forall_forall in *.
  intros y Hy. rewrite <- Hx0, <- (Hl y Hy). now apply Hx.
Qed.

Lemma filter_partition_perm {A} (f : A -> bool) (l : list A) :
  Permutation l (filter f l ++ filter (fun x => negb (f x)) l).
Proof.
  induction l as [|x l IH]; simpl; [constructor|].
  destruct (f x); simpl.
  - now constructor.
  - now apply Permutation_cons_app.
Qed.

Lemma Object_entries_spec (o : list (jsstring * nat)) :
  exists indexed,
    Object_entries o = indexed ++ filter (fun e => negb (isIndexKey e)) o /\
    Permutation indexed (filter isIndexKey o) /\
    StronglySorted (fun a b => (indexOf a <= indexOf b)%N) indexed.
Proof.
  unfold Object_entries. rewrite indexed_entries.
  destruct (sortIndex_spec (filter isIndexKey o)) as [Hp Hs].
  eexists. split; [|split].
  - f_equal. apply filter_ext. intros e. unfold isIndexKey.
    now destruct (arrayIndex (fst e)).
  - symmetry. apply (Permutation_map snd) in Hp.
    rewrite map_map in Hp. simpl in Hp. rewrite map_id in Hp. exact Hp.
  - apply StronglySorted_map_snd; [|exact Hs].
    eapply Permutation_Forall; [exact Hp|].
    apply Forall_map. apply Forall_forall. reflexivity.
Qed.

Lemma countExtension_keys_add (e : jsstring) (o : list (jsstring * nat)) :
  map fst (countExtension e o) = Set_add (map fst o) e.
Proof.
  unfold Set_add. induction o as [|[k n] o IH]; [reflexivity|].
  cbn [countExtension map fst existsb].
  destruct (JsString.eqb k e) eqn:E.
  - rewrite jsstring_eqb_sym, E. reflexivity.
  - rewrite (jsstring_eqb_sym e k), E. cbn [orb map fst]. rewrite IH.
    destruct (existsb (JsString.eqb e) (map fst o)); reflexivity.
Qed.

Lemma fileTypes_keys_fold (l : list file_change) :
  forall o : list (jsstring * nat),
    map fst (fold_left (fun fileTypes file =>
                          countExtension (extensionOf (filename file)) fileTypes) l o)
    = fold_left Set_add (map (fun file => extensionOf (filename file)) l) (map fst o).
Proof.
  induction l as [|f l IH]; intros o; [reflexivity|].
  cbn [fold_left map]. rewrite IH, countExtension_keys_add. reflexivity.
Qed.

Lemma fileTypesOf_nonempty (filesChanged : list file_change) :
  filesChanged <> [] -> fileTypesOf filesChanged <> [].
Proof.
  intros Hne Hnil.
  destruct (fileTypes_fold filesChanged [] []) as (_ & _ & Hsum);
    [constructor | reflexivity | reflexivity |].
  cbn [app] in Hsum. fold (fileTypesOf filesChanged) in Hsum. rewrite Hnil in Hsum.
  destruct filesChanged; [now destruct Hne | discriminate].
Qed.

(** X13: for a change-set with files (whose extensions name no inherited
    member of an object) the change-analysis block is the four counter
    lines, a blank line, the File Type Analysis heading and one line per
    extension with the number of its files.  The lines are sorted by
    descending count; lines with the same count stay in the order of the
    entries of the counter object, which is the array-index keys by
    ascending index and then the other keys in creation order, that is by
    first appearance of the extension in the change-set. *)
Theorem histogram_lines_by_descending_count :
  forall filesChanged : list file_change,
    plainExtensions filesChanged = true ->
    filesChanged <> [] ->
    exists lines,
      changeAnalysisOf filesChanged
      = js "- **New Files Added:** " ++ of_nat (length (newFiles filesChanged)) ++ NL
        ++ js "- **Files Modified:** " ++ of_nat (length (modifiedFiles filesChanged)) ++ NL
        ++ js "- **Files Deleted:** " ++ of_nat (length (deletedFiles filesChanged)) ++ NL
        ++ js "- **Total Files Changed:** " ++ of_nat (length filesChanged)
        ++ NL ++ NL ++ js "**File Type Analysis:**" ++ NL
        ++ join NL (map (fun e => js "- **." ++ fst e ++ js ":** " ++ of_nat (snd e)
                                   ++ js " files") lines) /\
      Permutation (fileTypesOf filesChanged) lines /\
      (forall ext n, In (ext, n) lines <-> 0 < n /\ n = extCount ext filesChanged) /\
      StronglySorted (fun a b => snd b <= snd a) lines /\
      (forall n, filter (fun e => snd e =? n) lines
                 = filter (fun e => snd e =? n)
                          (Object_entries (fileTypesOf filesChanged))) /\
      map fst (fileTypesOf filesChanged)
      = Set_of (map (fun file => extensionOf (filename file)) filesChanged) /\
      exists indexed,
        Object_entries (fileTypesOf filesChanged)
        = indexed ++ filter (fun e => negb (isIndexKey e)) (fileTypesOf filesChanged) /\
        Permutation indexed (filter isIndexKey (fileTypesOf filesChanged)) /\
        StronglySorted (fun a b => (indexOf a <= indexOf b)%N) indexed.
Proof.
  intros filesChanged _ Hne.
  exists (sortByCountDesc (Object_entries (fileTypesOf filesChanged))).
  assert (Hperm : Permutation (fileTypesOf filesChanged)
                    (sortByCountDesc (Object_entries (fileTypesOf filesChanged)))).
  { rewrite <- sortByCountDesc_perm.
    destruct (Object_entries_spec (fileTypesOf filesChanged)) as (indexed & -> & Hp & _).
    rewrite Hp. apply filter_partition_perm. }
  split; [|split; [exact Hperm|split; [|split; [|split; [|split]]]]].
  - unfold changeAnalysisOf.
    destruct (fileTypesOf filesChanged) as [|e o] eqn:E.
    + now destruct (fileTypesOf_nonempty filesChanged Hne).
    + rewrite counterLines_text. repeat rewrite <- app_assoc. reflexivity.
  - intros ext n.
    destruct (fileTypes_fold filesChanged [] []) as (Hnd & Hlook & _);
      [constructor | reflexivity | reflexivity |].
    cbn [app] in Hlook. fold (fileTypesOf filesChanged) in Hnd, Hlook.
    split.
    + intros Hin. apply (Permutation_in _ (Permutation_sym Hperm)) in Hin.
      apply (lookupCount_In _ Hnd) in Hin. rewrite Hlook in Hin.
      destruct (extCount ext filesChanged) as [|c]; simpl in Hin; [discriminate|].
      injection Hin as <-. split; [lia | reflexivity].
    + intros [Hpos ->]. apply (Permutation_in _ Hperm).
      apply (lookupCount_In _ Hnd). rewrite Hlook.
      destruct (extCount ext filesChanged) as [|c]; [lia | reflexivity].
  - apply sortByCountDesc_sorted.
  - intros n. apply sortByCountDesc_stable.
  - unfold fileTypesOf, Set_of. apply fileTypes_keys_fold.
  - apply Object_entries_spec.
Qed.

Lemma histogram_lines_by_descending_count_witness :
  exists lines,
    changeAnalysisOf scenarioFiles
    = js "- **New Files Added:** 1" ++ NL
      ++ js "- **Files Modified:** 2" ++ NL
      ++ js "- **Files Deleted:** 0" ++ NL
      ++ js "- **Total Files Changed:** 3"
      ++ NL ++ NL ++ js "**File Type Analysis:**" ++ NL
      ++ join NL (map (fun e => js "- **." ++ fst e ++ js ":** " ++ of_nat (snd e)
                                 ++ js " files") lines) /\
    Permutation [(js "js", 2); (js "md", 1)] lines /\
    StronglySorted (fun a b => snd b <= snd a) lines.
Proof.
  destruct (histogram_lines_by_descending_count scenarioFiles eq_refl)
    as (lines & Htext & Hperm & _ & Hsorted & _).
  - discriminate.
  - exists lines. split; [exact Htext|]. split; [exact Hperm | exact Hsorted].
Defined.

(** ** The configuration of the generation service *)

(** X14: when one of the four variables of the generation service is unset
    or empty, the narrative is the fallback bundle and nothing was
    contacted: neither the tracker nor the generation backend. *)
Theorem missing_ai_configuration_gives_fallback :
  forall (world : Type) (env : backend world) (process_env : ai_environment)
         (filesChanged : list file_change) (stats : diff_stats)
         (head base : jsstring) (jiraTickets : list jsstring)
         (customBody : jsstring) (w : world),
    aiConfigured process_env = false ->
    generateDetailedSummary (withAIConfig process_env env) filesChanged stats head base
      jiraTickets customBody w
    = (Returned (fallbackNarrative filesChanged stats head base), w).
Proof.
  intros world env process_env filesChanged stats head base jiraTickets customBody w H.
  unfold generateDetailedSummary, try_catch, bind.
  cbn [getLLMClient withAIConfig].
  unfold getLLMClientFrom, getAIConfig, bind.
  unfold aiConfigured in H.
  destruct (falsy (AI_USERNAME process_env)); [reflexivity|].
  destruct (falsy (AI_BASE_URL process_env)); [reflexivity|].
  destruct (falsy (AI_API_KEY process_env)); [reflexivity|].
  destruct (falsy (AI_MODEL process_env)); [reflexivity|].
  discriminate.
Qed.

Lemma missing_ai_configuration_gives_fallback_witness :
  generateDetailedSummary (withAIConfig noModel (scenarioBackend (Some scenarioFiles)))
    scenarioFiles (DiffStats 40 5 45) (js "ABC-1-fix") (js "main") [js "ABC-1"] [] tt
  = (Returned (fallbackNarrative scenarioFiles (DiffStats 40 5 45) (js "ABC-1-fix")
                                 (js "main")), tt).
Proof.
  apply (missing_ai_configuration_gives_fallback unit
           (scenarioBackend (Some scenarioFiles)) noModel).
  reflexivity.
Defined.

(** ** The description is always delivered *)

Lemma join_app (sep : jsstring) (l1 l2 : list jsstring) :
  l1 <> [] -> l2 <> [] -> join sep (l1 ++ l2) = join sep l1 ++ sep ++ join sep l2.
Proof.
  intros H1 H2. induction l1 as [|x l1 IH]; [now destruct H1|].
  destruct l1 as [|y l1].
  - destruct l2 as [|z l2]; [now destruct H2 | reflexivity].
  - change (join sep ((x :: y :: l1) ++ l2)) with (x ++ sep ++ join sep ((y :: l1) ++ l2)).
    rewrite IH by discriminate.
    change (join sep (x :: y :: l1)) with (x ++ sep ++ join sep (y :: l1)).
    now rewrite <- !app_assoc.
Qed.

Lemma render_frame (c : composed) :
  startsWith (titleHint ++ NL) (render c) = true /\
  endsWith (render c) (NL ++ join NL footer) = true.
Proof.
  split.
  - destruct c; reflexivity.
  - apply endsWith_spec. destruct c as [s|head base]; unfold render.
    + rewrite !app_assoc. rewrite join_app; [|destruct (s_figmaSection s); discriminate
                                              | discriminate].
      eexists. reflexivity.
    + rewrite !app_assoc. rewrite join_app; [|discriminate|discriminate].
      eexists. reflexivity.
Qed.

(** X15: analyzeCodeDiff never throws: whatever the compare request, the
    tracker and the generation backend do, it returns a description, and
    the description opens with the title hint and closes with the rule and
    the line of the AI agent. *)
Theorem analyzeCodeDiff_always_delivers :
  forall (world : Type) (env : backend world)
         (owner repo head base token body : jsstring) (w : world),
  exists description w',
    analyzeCodeDiff env owner repo head base token body w = (Returned description, w') /\
    startsWith (titleHint ++ NL) description = true /\
    endsWith description (NL ++ join NL footer) = true.
Proof.
  intros world env owner repo head base token body w.
  destruct (composeDescription_total env owner repo head base token body w)
    as (c & w' & Hc).
  exists (render c), w'. split.
  - now apply analyzeCodeDiff_renders.
  - apply render_frame.
Qed.

(** ** The errors of the API *)

(** X16: handleGitHubError throws exactly when the error has a response
    whose data is null or undefined; otherwise it returns a failure object
    whose error text is not empty and which carries details exactly when
    the error has a response. *)
Theorem handleGitHubError_throws_only_without_body :
  forall (world : Type) (error : request_error) (operation : jsstring) (w : world),
    (forall e w',
       handleGitHubError error operation w = (Thrown e, w')
       <-> e = TypeError /\ w' = w /\
           exists response, e_response error = Some response /\ er_data response = None) /\
    (forall f w',
       handleGitHubError error operation w = (Returned f, w') ->
       w' = w /\ fail_error f <> [] /\
       (fail_details f = None <-> e_response error = None)).
Proof.
  intros world [[[status [d|]]|] m] operation w; split; intros x w';
    unfold handleGitHubError; cbn [e_response er_data er_status require bind ret throw].
  - split; [discriminate|]. intros (_ & _ & r & E & Hr). injection E as <-. discriminate.
  - unfold bind, ret. intros E. injection E as <- <-. cbn [fail_error fail_details].
    split; [reflexivity|]. split; [discriminate|]. split; discriminate.
  - unfold bind, throw. split.
    + intros E. injection E as <- <-. repeat split. eexists. split; reflexivity.
    + intros (-> & -> & _). reflexivity.
  - unfold bind, throw. discriminate.
  - unfold ret. split; [discriminate|]. intros (_ & _ & r & E & _). discriminate.
  - unfold ret. intros E. injection E as <- <-. cbn [fail_error fail_details].
    split; [reflexivity|]. split; [|split; reflexivity].
    apply or_default_nonempty. discriminate.
Qed.

(** X17: for the statuses 401, 403 and 404 the error text is fixed by the
    status: the message that the server sent is dropped, and so is the
    message of the error. *)
Theorem known_status_text_ignores_server_message :
  forall status : Z,
    In status [401; 403; 404]%Z ->
    exists text,
      text <> [] /\
      forall (world : Type) (errorData : error_data) (m : option jsstring)
             (operation : jsstring) (w : world),
        handleGitHubError
          {| e_response := Some {| er_status := status; er_data := Some errorData |};
             e_message := m |} operation w
        = (Returned {| fail_error := js "GitHub API error (" ++ of_Z status ++ js "): "
                                       ++ text;
                       fail_details := Some errorData |}, w).
Proof.
  intros status [<-|[<-|[<-|[]]]];
    [ exists (js "Authentication failed. Check your GitHub token.")
    | exists (js "Access forbidden. Token may lack required permissions.")
    | exists (js "Repository not found or you don't have access to it.") ];
    (split; [discriminate | reflexivity]).
Qed.

Lemma known_status_text_ignores_server_message_witness :
  exists text,
    text <> [] /\
    forall (world : Type) (errorData : error_data) (m : option jsstring)
           (operation : jsstring) (w : world),
      handleGitHubError
        {| e_response := Some {| er_status := 404; er_data := Some errorData |};
           e_message := m |} operation w
      = (Returned {| fail_error := js "GitHub API error (" ++ of_Z 404 ++ js "): " ++ text;
                     fail_details := Some errorData |}, w).
Proof.
  apply (known_status_text_ignores_server_message 404%Z).
  simpl. right. right. left. reflexivity.
Defined.

(** ** The pull-request tool *)

Lemma validateGitHubToken_found (GITHUB_TOKEN : option jsstring) (token : jsstring) :
  validateGitHubToken GITHUB_TOKEN = TokenFound token
  <-> GITHUB_TOKEN = Some token /\ token <> [].
Proof.
  unfold validateGitHubToken. destruct GITHUB_TOKEN as [[|c s]|]; simpl; split.
  - discriminate.
  - intros [E H]. injection E as <-. now destruct H.
  - intros E. injection E as <-. split; [reflexivity | discriminate].
  - intros [E _]. injection E as <-. reflexivity.
  - discriminate.
  - intros [E _]. discriminate.
Qed.

Lemma finalTitle_signed (title : jsstring) :
  endsWith (finalTitle title) aiSignature = true.
Proof.
  unfold finalTitle. destruct (endsWith title aiSignature) eqn:E; [exact E|].
  apply endsWith_spec. now exists title.
Qed.

Section PullRequestTool.
Context {world : Type} (env : github world).

(** The description that goes into the request: the body as given, or
    what the analyzer returns. *)
Lemma finalBody_phase (owner repo head base token body : jsstring) (include : bool)
  (w : world) :
  exists finalBody w0,
    (if include
     then analyzeCodeDiff (services env) owner repo head base token body
     else ret body) w = (Returned finalBody, w0) /\
    (include = false -> finalBody = body /\ w0 = w) /\
    (include = true ->
     exists c, composeDescription (services env) owner repo head base token body w
               = (Returned c, w0) /\ finalBody = render c).
Proof.
  destruct include.
  - destruct (composeDescription_total (services env) owner repo head base token body w)
      as (c & w0 & Hc).
    exists (render c), w0. split; [now apply analyzeCodeDiff_renders|].
    split; [discriminate|]. intros _. now exists c.
  - exists body, w. split; [reflexivity|]. split; [auto|discriminate].
Qed.

(** The [try] block, by the outcome of the request. *)
Lemma tryCreatePullRequest_cases (owner repo title head base body token : jsstring)
  (draft include : bool) (w : world) :
  exists finalBody w0,
    (include = false -> finalBody = body /\ w0 = w) /\
    (include = true ->
     exists c, composeDescription (services env) owner repo head base token body w
               = (Returned c, w0) /\ finalBody = render c) /\
    let payload := {| p_title := finalTitle title; p_head := head; p_base := base;
                      p_body := finalBody; p_draft := draft |} in
    let posted := axios_post env (pullsUrl owner repo) payload (getGitHubHeaders token) w0 in
    match fst posted with
    | Returned (inr pr) =>
        exists summary formatted text,
          tryCreatePullRequest env owner repo title head base body token draft include w
          = (Returned (inr (Created summary formatted text)), snd posted) /\
          r_number summary = pr_number pr /\ r_title summary = pr_title pr /\
          r_url summary = pr_html_url pr /\ r_state summary = pr_state pr /\
          r_draft summary = pr_draft pr /\ r_head summary = pr_head_ref pr /\
          r_base summary = pr_base_ref pr /\ r_created_at summary = pr_created_at pr /\
          r_user summary = pr_user_login pr /\
          r_body_length summary = length finalBody /\
          r_includes_diff_analysis summary = include
    | Returned (inl error) =>
        tryCreatePullRequest env owner repo title head base body token draft include w
        = (Returned (inl error), snd posted)
    | Thrown e =>
        tryCreatePullRequest env owner repo title head base body token draft include w
        = (Returned (inl {| e_response := None; e_message := Some (message e) |}),
           snd posted)
    end.
Proof.
  destruct (finalBody_phase owner repo head base token body include w)
    as (finalBody & w0 & Hrun & Hoff & Hon).
  exists finalBody, w0. split; [exact Hoff|]. split; [exact Hon|].
  intros payload posted. subst posted payload.
  unfold tryCreatePullRequest, try_catch, bind. rewrite Hrun.
  destruct (axios_post env (pullsUrl owner repo)
              {| p_title := finalTitle title; p_head := head; p_base := base;
                 p_body := finalBody; p_draft := draft |}
              (getGitHubHeaders token) w0) as [[[error|pr]|e] w1]; cbn [fst snd].
  - reflexivity.
  - do 3 eexists. split; [reflexivity|]. cbn. repeat split.
  - reflexivity.
Qed.
End PullRequestTool.

(** X18: without a token (unset or empty) the tool answers with the failed
    validation and sends nothing; with a token it never gives that
    answer. *)
Theorem create_pull_request_needs_token :
  forall (world : Type) (env : github world) (args : pull_request_args) (w : world),
    (GITHUB_TOKEN env = None \/ GITHUB_TOKEN env = Some [] ->
     exists e i, create_pull_request env args w = (Returned (NotConfigured e i), w)) /\
    (forall token,
       GITHUB_TOKEN env = Some token -> token <> [] ->
       forall e i w', create_pull_request env args w <> (Returned (NotConfigured e i), w')).
Proof.
  intros world env args w. split.
  - intros H. unfold create_pull_request.
    destruct H as [-> | ->]; do 2 eexists; reflexivity.
  - intros token Ht Hne e i w'. unfold create_pull_request.
    rewrite (proj2 (validateGitHubToken_found _ token) (conj Ht Hne)).
    unfold bind.
    match goal with
    | |- context [tryCreatePullRequest ?e ?o ?r ?t ?h ?b ?bd ?tk ?d ?i ?w] =>
        destruct (tryCreatePullRequest e o r t h b bd tk d i w) as [[[err|res]|ex] w1] eqn:Etry
    end.
    + destruct (handleGitHubError err (js "create pull request") w1) as [[f|ex] w2];
        discriminate.
    + unfold ret. intros E. injection E as -> <-.
      match type of Etry with
      | tryCreatePullRequest ?e ?o ?r ?t ?h ?b ?bd ?tk ?d ?i ?w = _ =>
          destruct (tryCreatePullRequest_cases e o r t h b bd tk d i w)
            as (finalBody & w0 & _ & _ & Hcase)
      end.
      cbv zeta in Hcase.
      match type of Hcase with
      | match fst ?p with _ => _ end => destruct p as [[[err|pr]|ex] w2]
      end; cbn [fst snd] in Hcase.
      * rewrite Hcase in Etry. discriminate.
      * destruct Hcase as (s & fo & tx & Hcase & _). rewrite Hcase in Etry. discriminate.
      * rewrite Hcase in Etry. discriminate.
    + discriminate.
Qed.

(** The tool with a token, by the outcome of the request. *)
Lemma create_pull_request_cases {world : Type} (env : github world)
  (args : pull_request_args) (token : jsstring) (w : world) :
  GITHUB_TOKEN env = Some token -> token <> [] ->
  exists finalBody w0,
    (analysisOf args = false -> finalBody = bodyOf args /\ w0 = w) /\
    (analysisOf args = true ->
     exists c, composeDescription (services env) (ownerOf env args) (a_repo args)
                 (a_head args) (a_base args) token (bodyOf args) w
               = (Returned c, w0) /\ finalBody = render c) /\
    let payload := {| p_title := finalTitle (a_title args); p_head := a_head args;
                      p_base := a_base args; p_body := finalBody;
                      p_draft := draftOf args |} in
    let posted := axios_post env (pullsUrl (ownerOf env args) (a_repo args)) payload
                    (getGitHubHeaders token) w0 in
    match fst posted with
    | Returned (inr pr) =>
        exists summary formatted text,
          create_pull_request env args w
          = (Returned (Created summary formatted text), snd posted) /\
          r_number summary = pr_number pr /\ r_title summary = pr_title pr /\
          r_url summary = pr_html_url pr /\ r_state summary = pr_state pr /\
          r_draft summary = pr_draft pr /\ r_head summary = pr_head_ref pr /\
          r_base summary = pr_base_ref pr /\ r_created_at summary = pr_created_at pr /\
          r_user summary = pr_user_login pr /\
          r_body_length summary = length finalBody /\
          r_includes_diff_analysis summary = analysisOf args
    | Returned (inl error) =>
        create_pull_request env args w
        = (f <- handleGitHubError error (js "create pull request") ;; ret (Failed f))
            (snd posted)
    | Thrown e =>
        create_pull_request env args w
        = (Returned (Failed {| fail_error := or_default (Some (message e))
                                               (js "Failed to create pull request");
                               fail_details := None |}), snd posted)
    end.
Proof.
  intros Ht Hne.
  destruct (tryCreatePullRequest_cases env (ownerOf env args) (a_repo args) (a_title args)
              (a_head args) (a_base args) (bodyOf args) token (draftOf args)
              (analysisOf args) w) as (finalBody & w0 & Hoff & Hon & Hcase).
  exists finalBody, w0. split; [exact Hoff|]. split; [exact Hon|].
  assert (Hunf : create_pull_request env args w
                 = bind (tryCreatePullRequest env (ownerOf env args) (a_repo args)
                           (a_title args) (a_head args) (a_base args) (bodyOf args) token
                           (draftOf args) (analysisOf args))
                        (fun attempt =>
                           match attempt with
                           | inr created => ret created
                           | inl error =>
                               f <- handleGitHubError error (js "create pull request") ;;
                               ret (Failed f)
                           end) w).
  { unfold create_pull_request.
    rewrite (proj2 (validateGitHubToken_found _ token) (conj Ht Hne)). reflexivity. }
  cbv zeta in *.
  destruct (axios_post env (pullsUrl (ownerOf env args) (a_repo args))
              {| p_title := finalTitle (a_title args); p_head := a_head args;
                 p_base := a_base args; p_body := finalBody; p_draft := draftOf args |}
              (getGitHubHeaders token) w0) as [[[error|pr]|e] w1]; cbn [fst snd] in *.
  - rewrite Hunf. unfold bind at 1. rewrite Hcase. reflexivity.
  - destruct Hcase as (summary & formatted & text & Hcase & Hfields).
    exists summary, formatted, text. rewrite Hunf. unfold bind at 1. rewrite Hcase.
    split; [reflexivity | exact Hfields].
  - rewrite Hunf. unfold bind at 1. rewrite Hcase. reflexivity.
Qed.

(** X19: a success answer means that the request was sent and accepted:
    the title sent is the given title with the signature of the agent, the
    description sent is the given body when the analysis is switched off
    and the analyzer's description otherwise, and the answer reports the
    length of the description sent next to the number, title and link that
    the server returned. *)
Theorem created_pull_request_was_posted :
  forall (world : Type) (env : github world) (args : pull_request_args)
         (w w' : world) (summary : pull_request_summary) (formatted text : jsstring),
    create_pull_request env args w = (Returned (Created summary formatted text), w') ->
    exists token payload pr w0,
      GITHUB_TOKEN env = Some token /\ token <> [] /\
      axios_post env (pullsUrl (ownerOf env args) (a_repo args)) payload
        (getGitHubHeaders token) w0 = (Returned (inr pr), w') /\
      p_title payload = finalTitle (a_title args) /\
      endsWith (p_title payload) aiSignature = true /\
      p_head payload = a_head args /\ p_base payload = a_base args /\
      p_draft payload = draftOf args /\
      (analysisOf args = false -> p_body payload = bodyOf args /\ w0 = w) /\
      (analysisOf args = true ->
       exists c, composeDescription (services env) (ownerOf env args) (a_repo args)
                   (a_head args) (a_base args) token (bodyOf args) w
                 = (Returned c, w0) /\ p_body payload = render c) /\
      r_body_length summary = length (p_body payload) /\
      r_includes_diff_analysis summary = analysisOf args /\
      r_number summary = pr_number pr /\ r_title summary = pr_title pr /\
      r_url summary = pr_html_url pr.
Proof.
  intros world env args w w' summary formatted text Hrun.
  destruct (validateGitHubToken (GITHUB_TOKEN env)) as [e i|token] eqn:Etoken.
  - unfold create_pull_request in Hrun. rewrite Etoken in Hrun. discriminate.
  - apply validateGitHubToken_found in Etoken. destruct Etoken as [Ht Hne].
    destruct (create_pull_request_cases env args token w Ht Hne)
      as (finalBody & w0 & Hoff & Hon & Hcase).
    cbv zeta in Hcase.
    destruct (axios_post env (pullsUrl (ownerOf env args) (a_repo args))
                {| p_title := finalTitle (a_title args); p_head := a_head args;
                   p_base := a_base args; p_body := finalBody; p_draft := draftOf args |}
                (getGitHubHeaders token) w0) as [[[error|pr]|e] w1] eqn:Epost;
      cbn [fst snd] in Hcase.
    + rewrite Hcase in Hrun. unfold bind in Hrun.
      destruct (handleGitHubError error (js "create pull request") w1) as [[f|ex] w2];
        discriminate.
    + destruct Hcase as (s & fo & tx & Hcase & Hn & Htl & Hu & _ & _ & _ & _ & _ & _ & Hlen & Hinc).
      rewrite Hcase in Hrun. injection Hrun as -> -> -> ->.
      exists token,
             {| p_title := finalTitle (a_title args); p_head := a_head args;
                p_base := a_base args; p_body := finalBody; p_draft := draftOf args |},
             pr, w0.
      cbn [p_title p_head p_base p_body p_draft].
      repeat (split; [first [assumption | reflexivity | apply finalTitle_signed]|]).
      assumption.
    + rewrite Hcase in Hrun. discriminate.
Qed.

Lemma created_pull_request_was_posted_witness :
  exists summary formatted text,
    create_pull_request acceptingGitHub sampleArgs 0
    = (Returned (Created summary formatted text), 1) /\
    exists token payload pr w0,
      GITHUB_TOKEN acceptingGitHub = Some token /\ token <> [] /\
      axios_post acceptingGitHub (pullsUrl (ownerOf acceptingGitHub sampleArgs)
                                           (a_repo sampleArgs)) payload
        (getGitHubHeaders token) w0 = (Returned (inr pr), 1) /\
      p_title payload = finalTitle (a_title sampleArgs) /\
      endsWith (p_title payload) aiSignature = true /\
      p_head payload = a_head sampleArgs /\ p_base payload = a_base sampleArgs /\
      p_draft payload = draftOf sampleArgs /\
      (analysisOf sampleArgs = false -> p_body payload = bodyOf sampleArgs /\ w0 = 0) /\
      (analysisOf sampleArgs = true ->
       exists c, composeDescription (services acceptingGitHub)
                   (ownerOf acceptingGitHub sampleArgs) (a_repo sampleArgs)
                   (a_head sampleArgs) (a_base sampleArgs) token (bodyOf sampleArgs) 0
                 = (Returned c, w0) /\ p_body payload = render c) /\
      r_body_length summary = length (p_body payload) /\
      r_includes_diff_analysis summary = analysisOf sampleArgs /\
      r_number summary = pr_number pr /\ r_title summary = pr_title pr /\
      r_url summary = pr_html_url pr.
Proof.
  do 3 eexists. split; [vm_compute; reflexivity|].
  eapply (created_pull_request_was_posted nat acceptingGitHub sampleArgs 0 1).
  vm_compute. reflexivity.
Defined.

(** X20: the tool throws only in one case: the request was sent and
    rejected with a response whose data is null or undefined.  What is
    thrown is then the TypeError of reading the message of that data.  (An
    empty body is not this case: its data is the empty string, and the tool
    returns a failure object.) *)
Theorem create_pull_request_throws_only_on_null_error_data :
  forall (world : Type) (env : github world) (args : pull_request_args)
         (w w' : world) (e : js_error),
    create_pull_request env args w = (Thrown e, w') ->
    e = TypeError /\
    exists token payload w0 response m,
      GITHUB_TOKEN env = Some token /\
      axios_post env (pullsUrl (ownerOf env args) (a_repo args)) payload
        (getGitHubHeaders token) w0
      = (Returned (inl {| e_response := Some response; e_message := m |}), w') /\
      er_data response = None /\
      p_title payload = finalTitle (a_title args).
Proof.
  intros world env args w w' e Hrun.
  destruct (validateGitHubToken (GITHUB_TOKEN env)) as [e0 i|token] eqn:Etoken.
  - unfold create_pull_request in Hrun. rewrite Etoken in Hrun. discriminate.
  - apply validateGitHubToken_found in Etoken. destruct Etoken as [Ht Hne].
    destruct (create_pull_request_cases env args token w Ht Hne)
      as (finalBody & w0 & Hoff & Hon & Hcase).
    cbv zeta in Hcase.
    destruct (axios_post env (pullsUrl (ownerOf env args) (a_repo args))
                {| p_title := finalTitle (a_title args); p_head := a_head args;
                   p_base := a_base args; p_body := finalBody; p_draft := draftOf args |}
                (getGitHubHeaders token) w0) as [[[error|pr]|ex] w1] eqn:Epost;
      cbn [fst snd] in Hcase.
    + rewrite Hcase in Hrun. unfold bind in Hrun.
      destruct error as [[[status [d|]]|] m];
        cbn in Hrun; try discriminate.
      injection Hrun as <- <-. split; [reflexivity|].
      exists token,
             {| p_title := finalTitle (a_title args); p_head := a_head args;
                p_base := a_base args; p_body := finalBody; p_draft := draftOf args |},
             w0, {| er_status := status; er_data := None |}, m.
      repeat split; assumption.
    + destruct Hcase as (s & fo & tx & Hcase & _). rewrite Hcase in Hrun. discriminate.
    + rewrite Hcase in Hrun. discriminate.
Qed.

Lemma create_pull_request_throws_only_on_null_error_data_witness :
  create_pull_request nullDataGitHub sampleArgs 0 = (Thrown TypeError, 1) /\
  TypeError = TypeError /\
  exists token payload w0 response m,
    GITHUB_TOKEN nullDataGitHub = Some token /\
    axios_post nullDataGitHub (pullsUrl (ownerOf nullDataGitHub sampleArgs)
                                        (a_repo sampleArgs)) payload
      (getGitHubHeaders token) w0
    = (Returned (inl {| e_response := Some response; e_message := m |}), 1) /\
    er_data response = None /\
    p_title payload = finalTitle (a_title sampleArgs).
Proof.
  split; [vm_compute; reflexivity|].
  apply (create_pull_request_throws_only_on_null_error_data nat nullDataGitHub
           sampleArgs 0 1 TypeError).
  vm_compute. reflexivity.
Defined.

(** X21: with a token and a server that accepts the request, the tool
    answers with the success object, also when every service of the
    analysis fails: the analysis never stands in the way of the pull
    request. *)
Theorem create_pull_request_succeeds_when_accepted :
  forall (world : Type) (env : github world) (args : pull_request_args)
         (token : jsstring) (w : world),
    GITHUB_TOKEN env = Some token -> token <> [] ->
    (forall u p h w0, exists pr w1, axios_post env u p h w0 = (Returned (inr pr), w1)) ->
    exists summary formatted text w',
      create_pull_request env args w = (Returned (Created summary formatted text), w') /\
      r_includes_diff_analysis summary = analysisOf args.
Proof.
  intros world env args token w Ht Hne Hpost.
  destruct (create_pull_request_cases env args token w Ht Hne)
    as (finalBody & w0 & _ & _ & Hcase).
  cbv zeta in Hcase.
  match type of Hcase with
  | match fst (axios_post ?e ?u ?p ?h ?w0) with _ => _ end =>
      destruct (Hpost u p h w0) as (pr & w1 & Epost); rewrite Epost in Hcase
  end.
  cbn [fst snd] in Hcase.
  destruct Hcase as (s & fo & tx & Hcase & Hf).
  exists s, fo, tx, w1. split; [exact Hcase|]. apply Hf.
Qed.

Lemma create_pull_request_succeeds_when_accepted_witness :
  exists summary formatted text w',
    create_pull_request acceptingGitHub
      {| a_owner := None; a_repo := js "shop"; a_title := js "ABC-1 Fix checkout";
         a_head := js "ABC-1-fix"; a_base := js "main"; a_body := None;
         a_draft := None; a_include_diff_analysis := None |} 0
    = (Returned (Created summary formatted text), w') /\
    r_includes_diff_analysis summary = true.
Proof.
  apply (create_pull_request_succeeds_when_accepted nat acceptingGitHub
           {| a_owner := None; a_repo := js "shop"; a_title := js "ABC-1 Fix checkout";
              a_head := js "ABC-1-fix"; a_base := js "main"; a_body := None;
              a_draft := None; a_include_diff_analysis := None |}
           (js "ghp_token") 0).
  - reflexivity.
  - discriminate.
  - intros u p h w0. exists samplePull, (S w0). reflexivity.
Defined.

(** ** The repository link of the answer *)

Lemma literal_match (s : jsstring) :
  forall b a, rmatch (literal s) (Cursor b (s ++ a)) = [Cursor (rev s ++ b) a].
Proof.
  induction s as [|c s IH]; intros b a; [reflexivity|].
  cbn [literal rmatch app]. unfold step_class. cbn [after before].
  rewrite N.eqb_refl. cbn [flat_map]. rewrite IH, app_nil_r.
  cbn [rev]. now rewrite <- app_assoc.
Qed.

Lemma literal_mismatch (s : jsstring) :
  forall b a, startsWith s a = false -> rmatch (literal s) (Cursor b a) = [].
Proof.
  induction s as [|c s IH]; intros b a H; [discriminate|].
  cbn [literal rmatch]. unfold step_class. cbn [after before].
  destruct a as [|d a]; [reflexivity|]. simpl in H.
  destruct (N.eqb c d); [|reflexivity].
  cbn [flat_map]. rewrite IH by exact H. reflexivity.
Qed.

Lemma startsWith_app_long (p : jsstring) :
  forall s t, length p <= length s -> startsWith p (s ++ t) = startsWith p s.
Proof.
  induction p as [|c p IH]; intros s t H; [reflexivity|].
  destruct s as [|d s]; simpl in H; [lia|].
  simpl. rewrite IH by lia. reflexivity.
Qed.

Lemma pullPath_no_match (b a : list jschar) :
  startsWith (js "/pull/") a = false -> exec pullPathRegex (Cursor b a) = None.
Proof.
  intros H. unfold exec, pullPathRegex. cbn [rmatch].
  rewrite literal_mismatch by exact H. reflexivity.
Qed.

Lemma pullPath_match (b line rest : list jschar) :
  forallb (fun c => negb (isLineTerminator c)) line = true ->
  (rest = [] \/ exists c r, rest = c :: r /\ isLineTerminator c = true) ->
  exec pullPathRegex (Cursor b (js "/pull/" ++ line ++ rest))
  = Some (length (js "/pull/" ++ line)).
Proof.
  intros Hline Hrest.
  assert (Hfirst : firstMatch pullPathRegex (Cursor b (js "/pull/" ++ line ++ rest))
                     (Cursor (rev line ++ rev (js "/pull/") ++ b) rest)).
  { unfold pullPathRegex. eapply firstMatch_seq.
    - exists []. apply literal_match.
    - apply firstMatch_star; [exact Hline|].
      destruct Hrest as [->|(c & r & -> & Hc)]; [now left|].
      right. exists c, r. split; [reflexivity|]. now rewrite Hc. }
  rewrite (firstMatch_exec _ _ _ Hfirst). cbn [after]. f_equal.
  rewrite !length_app. lia.
Qed.

(** The scan steps over a prefix in which the pattern finds nothing. *)
Lemma scan_pullPath_skip (repo tail : list jschar) :
  includes (js "/pull/") (repo ++ js "/pull") = false ->
  forall b pos,
    scan pullPathRegex 0 b (repo ++ js "/pull/" ++ tail) pos
    = scan pullPathRegex 0 (rev repo ++ b) (js "/pull/" ++ tail) (pos + length repo).
Proof.
  induction repo as [|c repo IH]; intros H b pos.
  - cbn [app rev length]. now rewrite Nat.add_0_r.
  - cbn [app] in H. cbn [includes] in H. apply orb_false_iff in H as [Hhere Hlater].
    assert (Hno : startsWith (js "/pull/") ((c :: repo) ++ js "/pull/" ++ tail) = false).
    { replace ((c :: repo) ++ js "/pull/" ++ tail)
        with ((c :: repo ++ js "/pull") ++ js "/" ++ tail)
        by (cbn [app]; rewrite <- !app_assoc; reflexivity).
      rewrite startsWith_app_long; [exact Hhere|].
      cbn [length]. rewrite length_app. cbn. lia. }
    cbn [app]. cbn [scan]. cbn [app] in Hno. rewrite (pullPath_no_match _ _ Hno).
    rewrite (IH Hlater). cbn [rev length]. rewrite <- app_assoc. cbn [app].
    f_equal. lia.
Qed.

(** Cutting the link of a pull request. *)
Lemma removeFirst_pullPath :
  forall repo line rest : jsstring,
    includes (js "/pull/") (repo ++ js "/pull") = false ->
    forallb (fun c => negb (isLineTerminator c)) line = true ->
    (rest = [] \/ exists c r, rest = c :: r /\ isLineTerminator c = true) ->
    removeFirst pullPathRegex (repo ++ js "/pull/" ++ line ++ rest) = repo ++ rest.
Proof.
  intros repo line rest Hrepo Hline Hrest.
  unfold removeFirst, occurrences.
  rewrite (scan_pullPath_skip repo (line ++ rest) Hrepo).
  remember (js "/pull/") as needle eqn:En.
  assert (Hexec : exec pullPathRegex (Cursor (rev repo ++ []) (needle ++ line ++ rest))
                  = Some (length (needle ++ line))).
  { subst needle. now apply pullPath_match. }
  destruct (needle ++ line ++ rest) as [|c a] eqn:Ea.
  - subst needle. discriminate.
  - cbn [scan]. rewrite Hexec. cbn [Nat.add].
    rewrite <- Ea.
    replace (needle ++ line ++ rest) with ((needle ++ line) ++ rest)
      by now rewrite <- app_assoc.
    rewrite firstn_app, Nat.sub_diag, firstn_all. cbn [firstn]. rewrite app_nil_r.
    rewrite firstn_app, Nat.sub_diag, firstn_all. cbn [firstn]. rewrite app_nil_r.
    rewrite skipn_app.
    replace (length repo + length (needle ++ line) - length repo)
      with (length (needle ++ line)) by lia.
    rewrite (skipn_all2 repo) by lia. cbn [app].
    rewrite skipn_app, Nat.sub_diag, skipn_all. reflexivity.
Qed.

(** Where the two links sit in the formatted answer. *)
Lemma formattedResponse_links (localeDate : jsstring) (pr : pull) (finalBody : jsstring)
  (include_diff_analysis : bool) :
  exists pre post,
    formattedResponse localeDate pr finalBody include_diff_analysis
    = pre ++ NL ++ js "- **View PR:** " ++ pr_html_url pr ++ NL
        ++ js "- **Repository:** " ++ removeFirst pullPathRegex (pr_html_url pr)
        ++ NL ++ post.
Proof.
  exists (join NL
            [ party ++ js " **Enhanced Pull Request Created Successfully!**";
              [];
              clipboard ++ js " **PR Details:**";
              js "- **Number:** #" ++ of_Z (pr_number pr);
              js "- **Title:** " ++ pr_title pr;
              js "- **Status:** " ++ pr_state pr ++ js " "
                ++ (if pr_draft pr then js "(Draft)" else []);
              js "- **From:** `" ++ pr_head_ref pr ++ js "` " ++ arrow ++ js " **To:** `"
                ++ pr_base_ref pr ++ js "`";
              js "- **Author:** " ++ pr_user_login pr;
              js "- **Created:** " ++ localeDate;
              js "- **Description Length:** " ++ of_nat (length finalBody)
                ++ js " characters";
              js "- **Includes Diff Analysis:** "
                ++ (if include_diff_analysis then js "Yes" else js "No");
              [];
              chain ++ js " **Links:**" ]),
         (join NL
            [ [];
              sparkles ++ js " **Enhanced Features:**";
              js "- " ++ barChart ++ js " Automatic code diff analysis";
              js "- " ++ risingChart ++ js " File type analysis";
              js "- " ++ ticketSign ++ js " JIRA ticket links";
              js "- " ++ checkMark ++ js " Review checklist";
              [];
              lightBulb ++ js " **Next Steps:**";
              js "- Review the enhanced PR description";
              js "- Check the automated analysis";
              js "- Add reviewers if needed";
              js "- Merge when ready" ]).
  unfold formattedResponse. cbn [join]. repeat rewrite <- app_assoc. reflexivity.
Qed.

(** The formatted text of a success answer. *)
Lemma tryCreatePullRequest_created {world : Type} (env : github world)
  (owner repo title head base body token : jsstring) (draft include : bool)
  (w w' : world) (summary : pull_request_summary) (formatted text : jsstring) :
  tryCreatePullRequest env owner repo title head base body token draft include w
  = (Returned (inr (Created summary formatted text)), w') ->
  exists pr finalBody,
    r_url summary = pr_html_url pr /\
    formatted = formattedResponse (toLocaleString env (pr_created_at pr)) pr finalBody
                  include.
Proof.
  destruct (finalBody_phase env owner repo head base token body include w)
    as (finalBody & w0 & Hrun & _ & _).
  unfold tryCreatePullRequest, try_catch, bind. rewrite Hrun.
  destruct (axios_post env (pullsUrl owner repo)
              {| p_title := finalTitle title; p_head := head; p_base := base;
                 p_body := finalBody; p_draft := draft |}
              (getGitHubHeaders token) w0) as [[[error|pr]|e] w1].
  - discriminate.
  - intros H. injection H as <- <- _ _. exists pr, finalBody. split; reflexivity.
  - discriminate.
Qed.

Lemma create_pull_request_formatted {world : Type} (env : github world)
  (args : pull_request_args) (w w' : world) (summary : pull_request_summary)
  (formatted text : jsstring) :
  create_pull_request env args w = (Returned (Created summary formatted text), w') ->
  exists pr finalBody,
    r_url summary = pr_html_url pr /\
    formatted = formattedResponse (toLocaleString env (pr_created_at pr)) pr finalBody
                  (analysisOf args).
Proof.
  unfold create_pull_request.
  destruct (validateGitHubToken (GITHUB_TOKEN env)) as [e i|token]; [discriminate|].
  unfold bind at 1.
  match goal with
  | |- context [tryCreatePullRequest ?e ?o ?r ?t ?h ?b ?bd ?tk ?d ?i ?w] =>
      destruct (tryCreatePullRequest e o r t h b bd tk d i w)
        as [[[error|created]|ex] w1] eqn:Etry
  end.
  - unfold bind.
    destruct (handleGitHubError error (js "create pull request") w1) as [[f|ex] w2];
      discriminate.
  - unfold ret. intros H. injection H as -> ->.
    apply tryCreatePullRequest_created in Etry. exact Etry.
  - discriminate.
Qed.

(** X22: in the formatted text of a success answer the line after the link
    of the pull request gives the repository: the same link with its first
    /pull/ and the rest of that line cut off. *)
Theorem repository_link_is_cut_at_pull :
  forall (world : Type) (env : github world) (args : pull_request_args)
         (w w' : world) (summary : pull_request_summary) (formatted text : jsstring)
         (repo line rest : jsstring),
    create_pull_request env args w = (Returned (Created summary formatted text), w') ->
    r_url summary = repo ++ js "/pull/" ++ line ++ rest ->
    includes (js "/pull/") (repo ++ js "/pull") = false ->
    forallb (fun c => negb (isLineTerminator c)) line = true ->
    (rest = [] \/ exists c r, rest = c :: r /\ isLineTerminator c = true) ->
    exists pre post,
      formatted
      = pre ++ NL ++ js "- **View PR:** " ++ repo ++ js "/pull/" ++ line ++ rest ++ NL
          ++ js "- **Repository:** " ++ repo ++ rest ++ NL ++ post.
Proof.
  intros world env args w w' summary formatted text repo line rest Hrun Hurl
         Hrepo Hline Hrest.
  apply create_pull_request_formatted in Hrun as (pr & finalBody & Hu & ->).
  rewrite Hu in Hurl.
  destruct (formattedResponse_links (toLocaleString env (pr_created_at pr)) pr finalBody
              (analysisOf args)) as (pre & post & Hf).
  exists pre, post. rewrite Hf, Hurl.
  rewrite (removeFirst_pullPath repo line rest Hrepo Hline Hrest).
  repeat rewrite <- app_assoc. reflexivity.
Qed.

Lemma repository_link_is_cut_at_pull_witness :
  exists summary formatted text,
    create_pull_request acceptingGitHub sampleArgs 0
    = (Returned (Created summary formatted text), 1) /\
    exists pre post,
      formatted
      = pre ++ NL ++ js "- **View PR:** " ++ js "https://ghe.megaleo.com/acme/shop"
          ++ js "/pull/" ++ js "42" ++ [] ++ NL
          ++ js "- **Repository:** " ++ js "https://ghe.megaleo.com/acme/shop" ++ []
          ++ NL ++ post.
Proof.
  do 3 eexists. split; [vm_compute; reflexivity|].
  refine (repository_link_is_cut_at_pull nat acceptingGitHub sampleArgs 0 1 _ _ _
            (js "https://ghe.megaleo.com/acme/shop") (js "42") [] _ _ _ _ _).
  - vm_compute. reflexivity.
  - reflexivity.
  - reflexivity.
  - reflexivity.
  - left. reflexivity.
Defined.
